(** * Stacked generalisation in [regression.py]

    A shallow embedding of [stack_models], [create_stacknet],
    [finalize_model] and [predict_model] of [src/regression.py], and the
    properties of the stacking contract checked against it.

    Python objects live in a store and are referred to by location, so that
    [model = meta_model] followed by [model.fit(...)] is seen through every
    alias.  Exceptions are values of [exn]; a computation that raises keeps
    the store it had reached.  Progress bars, monitors, score grids and the
    experiment log only display or record values and are left out, except
    where producing them can raise. *)

From Stdlib Require Import ZArith String Ascii Bool Arith Lia DecimalString List.
Import ListNotations.
Local Open Scope string_scope.
Local Open Scope list_scope.

(** ** Python strings *)

Module Py.

(** [needle in s] on strings. *)
Fixpoint contains (needle s : string) : bool :=
  if String.prefix needle s then true
  else match s with
       | EmptyString => false
       | String _ rest => contains needle rest
       end.

(** [s.split("(")[0]]: the text before the first opening parenthesis. *)
Fixpoint before_paren (s : string) : string :=
  match s with
  | EmptyString => EmptyString
  | String c rest =>
      if Ascii.eqb c "("%char then EmptyString else String c (before_paren rest)
  end.

(** [str(n)] for a non-negative counter. *)
Definition str_nat (n : nat) : string := NilEmpty.string_of_uint (Nat.to_uint n).

(** [', '.join(xs)]. *)
Fixpoint join_comma (xs : list string) : string :=
  match xs with
  | [] => ""
  | [x] => x
  | x :: rest => (x ++ ", " ++ join_comma rest)%string
  end.

(** [str(xs)] for a list whose elements print as [xs]. *)
Definition str_list (xs : list string) : string := ("[" ++ join_comma xs ++ "]")%string.

(** Arguments whose Python type the functions test with [type(_) is _]. *)
Inductive value :=
| Int (z : Z)
| Bool (b : bool)
| Float
| Str (s : string)
| NoneV
| Other (type_name : string).

Definition is_int (v : value) : bool := match v with Int _ => true | _ => false end.
Definition is_bool (v : value) : bool := match v with Bool _ => true | _ => false end.

End Py.

(** ** Exceptions *)

Inductive exn :=
| SystemExit (msg : string)        (* [sys.exit(msg)], the module's own checks *)
| NameError (name : string)        (* a global that [setup] never defined *)
| IndexError                       (* list, array or column index out of range *)
| TypeError (msg : string)          (* e.g. iterating over something that is not iterable *)
| ValueError (msg : string)         (* the metrics given vectors of different lengths *)
| AttributeError (attr : string)   (* the object has no such method *)
| LengthMismatch (expected got : nat) (* pandas: [df.columns = names] of the wrong length *)
| SplitError (n_splits : Z) (n_samples : nat) (* the ValueError of the library's KFold *)
| TraitError                       (* a progress bar whose [max] is below its [min] *)
| Foreign (msg : string).          (* raised inside an estimator's or a transformer's own code *)

Inductive result (A : Type) :=
| Ok (a : A)
| Raise (e : exn).
Arguments Ok {A} a.
Arguments Raise {A} e.

Definition is_ok {A} (r : result A) : bool :=
  match r with Ok _ => true | Raise _ => false end.

(** ** Tables *)

(** A column label: a name, or the integer position pandas gives the
    columns of [pd.DataFrame(array)]. *)
Inductive label :=
| Name (s : string)
| Pos (i : nat).

Definition label_eqb (a b : label) : bool :=
  match a, b with
  | Name s, Name t => String.eqb s t
  | Pos i, Pos j => Nat.eqb i j
  | _, _ => false
  end.

(** The value pandas puts where a row has no entry ([NaN]). *)
Class Missing (V : Type) := NaN : V.

Section Tables.

Context {V : Type} {missing : Missing V}.

Definition Series : Type := label * list V.

(** A frame: its number of rows and its columns in order.  Every frame
    here carries the index 0..n-1 ([reset_index(drop=True)], or the
    default index of a new frame), so [pd.concat(..., axis=1)] puts the
    columns side by side over the longer of the two indexes and fills the
    rows the shorter frame does not have with [NaN]. *)
Record DataFrame := mkFrame {
  nrows : nat;
  cols : list Series
}.

Definition columns (df : DataFrame) : list label := map fst (cols df).
(** [df.shape[1]]. *)
Definition shape1 (df : DataFrame) : nat := length (cols df).
(** The number of rows a splitter sees. *)
Definition n_samples (df : DataFrame) : nat := nrows df.

(** [pd.DataFrame()]. *)
Definition empty_frame : DataFrame := {| nrows := 0; cols := [] |}.
(** [pd.DataFrame(a)] for a one-dimensional array [a]. *)
Definition frame_of_array (a : list V) : DataFrame :=
  {| nrows := length a; cols := [(Pos 0, a)] |}.
(** [pd.DataFrame(s)] for a Series [s]. *)
Definition frame_of_series (s : Series) : DataFrame :=
  {| nrows := length (snd s); cols := [s] |}.
(** A column with [d] more rows, which hold [NaN]. *)
Definition grow (d : nat) (c : Series) : Series := (fst c, snd c ++ repeat NaN d).

(** [df.reindex(range(n))] for a frame that has no more than [n] rows:
    the rows it does not have are filled with [NaN]. *)
Definition reindex (n : nat) (df : DataFrame) : list Series :=
  map (grow (n - nrows df)) (cols df).

(** [pd.concat([a, b], axis=1)]. *)
Definition concat (a b : DataFrame) : DataFrame :=
  let n := Nat.max (nrows a) (nrows b) in
  {| nrows := n; cols := reindex n a ++ reindex n b |}.

Fixpoint rename (names : list label) (cs : list Series) : list Series :=
  match names, cs with
  | n :: names', c :: cs' => (n, snd c) :: rename names' cs'
  | _, _ => []
  end.

(** [df.columns = names]: pandas raises on a length mismatch. *)
Definition set_columns (df : DataFrame) (names : list label) : result DataFrame :=
  if Nat.eqb (length names) (length (cols df))
  then Ok {| nrows := nrows df; cols := rename names (cols df) |}
  else Raise (LengthMismatch (length (cols df)) (length names)).

(** [df.drop(df.columns[0], axis=1)]: [columns[0]] raises on a frame
    without columns; [drop] removes every column that carries the label. *)
Definition drop_first (df : DataFrame) : result DataFrame :=
  match cols df with
  | [] => Raise IndexError
  | c :: _ =>
      Ok {| nrows := nrows df;
            cols := filter (fun c' => negb (label_eqb (fst c') (fst c))) (cols df) |}
  end.

(** [df.iloc[:, i:]]. *)
Definition iloc_cols_from (i : nat) (df : DataFrame) : DataFrame :=
  {| nrows := nrows df; cols := skipn i (cols df) |}.

Definition take_rows (idx : list nat) (xs : list V) : list V :=
  flat_map (fun i => match nth_error xs i with Some v => [v] | None => [] end) idx.
(** [s.iloc[idx]] and [df.iloc[idx]]. *)
Definition iloc_series (idx : list nat) (s : Series) : Series := (fst s, take_rows idx (snd s)).
Definition iloc (idx : list nat) (df : DataFrame) : DataFrame :=
  {| nrows := length idx; cols := map (iloc_series idx) (cols df) |}.

End Tables.

Arguments Series : clear implicits.
Arguments DataFrame : clear implicits.

(** ** Estimator objects and the store *)

(** Objects are referred to by their location in the store. *)
Abbreviation loc := nat (only parsing).

Section Objects.

Context {V : Type} {missing : Missing V}.

(** A Python object handed to the stacking functions.  [type_str] is
    [str(type(obj))], [obj_str] is [str(obj)].  A method the object does
    not have is [None]; calling it raises [AttributeError].  [fit]
    replaces whatever was learnt before by what is learnt from its
    arguments, so the learnt state is the data of the latest [fit];
    [predict] reads it. *)
Record estimator := mkEstimator {
  type_str : string;
  obj_str : string;
  fit_method : option (DataFrame V -> Series V -> option string);
  predict_method : option (option (DataFrame V * Series V) -> DataFrame V -> string + list V);
  transform_method : option (DataFrame V -> string + DataFrame V);
  fitted_on : option (DataFrame V * Series V)
}.

Definition set_fitted (o : estimator) (d : option (DataFrame V * Series V)) : estimator :=
  {| type_str := type_str o; obj_str := obj_str o;
     fit_method := fit_method o; predict_method := predict_method o;
     transform_method := transform_method o; fitted_on := d |}.

(** The store of the estimator objects: every location holds an object;
    [next] is the first location no object has been created at.  (The
    other module-level state, the experiment log and the warning filters,
    is not part of it.) *)
Record heap := mkHeap {
  objs : loc -> estimator;
  next : loc
}.

Definition update (h : heap) (l : loc) (o : estimator) : heap :=
  {| objs := fun l' => if Nat.eqb l' l then o else objs h l'; next := next h |}.

(** Computations: they read and write the store and may raise; the
    store survives a raise. *)
Definition M (A : Type) : Type := heap -> result A * heap.

Definition ret {A} (a : A) : M A := fun h => (Ok a, h).
Definition raise {A} (e : exn) : M A := fun h => (Raise e, h).
Definition bind {A B} (m : M A) (f : A -> M B) : M B :=
  fun h => match m h with
           | (Ok a, h') => f a h'
           | (Raise e, h') => (Raise e, h')
           end.
Definition lift {A} (r : result A) : M A := fun h => (r, h).
(** [try: body except: handler] with a bare [except], which catches
    every exception, [SystemExit] included. *)
Definition try_except {A} (body handler : M A) : M A :=
  fun h => match body h with
           | (Ok a, h') => (Ok a, h')
           | (Raise _, h') => handler h'
           end.

Definition deref (l : loc) : M estimator := fun h => (Ok (objs h l), h).
(** A newly constructed object. *)
Definition alloc (o : estimator) : M loc :=
  fun h => (Ok (next h),
            {| objs := fun l' => if Nat.eqb l' (next h) then o else objs h l';
               next := S (next h) |}).

(** [obj.fit(X, y)]: updates the object in place and returns the object
    itself, as the estimators of the library do. *)
Definition fit (l : loc) (X : DataFrame V) (y : Series V) : M loc :=
  fun h =>
    match fit_method (objs h l) with
    | None => (Raise (AttributeError "fit"), h)
    | Some f =>
        match f X y with
        | Some msg => (Raise (Foreign msg), h)
        | None => (Ok l, update h l (set_fitted (objs h l) (Some (X, y))))
        end
    end.

Definition predict_obj (o : estimator) (X : DataFrame V) : result (list V) :=
  match predict_method o with
  | None => Raise (AttributeError "predict")
  | Some p =>
      match p (fitted_on o) X with
      | inl msg => Raise (Foreign msg)
      | inr a => Ok a
      end
  end.

(** [obj.predict(X)]. *)
Definition predict (l : loc) (X : DataFrame V) : M (list V) :=
  fun h => (predict_obj (objs h l) X, h).

(** [obj.transform(X)]. *)
Definition transform (l : loc) (X : DataFrame V) : M (DataFrame V) :=
  fun h =>
    (match transform_method (objs h l) with
     | None => Raise (AttributeError "transform")
     | Some t =>
         match t X with
         | inl msg => Raise (Foreign msg)
         | inr df => Ok df
         end
     end, h).

(** [for x in xs: body(x)], collecting what the bodies return. *)
Fixpoint for_each {A B} (body : A -> M B) (xs : list A) : M (list B) :=
  match xs with
  | [] => ret []
  | x :: rest =>
      bind (body x) (fun b =>
      bind (for_each body rest) (fun bs => ret (b :: bs)))
  end.

(** [enumerate(xs)]. *)
Fixpoint enumerate_from {A} (i : nat) (xs : list A) : list (nat * A) :=
  match xs with
  | [] => []
  | x :: rest => (i, x) :: enumerate_from (S i) rest
  end.
Definition enumerate {A} (xs : list A) : list (nat * A) := enumerate_from 0 xs.

End Objects.

Arguments estimator : clear implicits.
Arguments heap : clear implicits.
Arguments M : clear implicits.

Declare Scope py_scope.
Delimit Scope py_scope with py.
Notation "x <- m ;; k" := (bind m (fun x => k))
  (at level 61, m at next level, right associativity) : py_scope.
Notation "m ;;; k" := (bind m (fun _ => k))
  (at level 61, right associativity) : py_scope.

(** ** The library's splitter and out-of-fold prediction *)

Module sklearn.
Section Sklearn.

Context {V : Type} {missing : Missing V}.
Local Open Scope py_scope.

(** Modelled from the spec: the Fold Splitter of section 4.1 is the
  estimator library's [KFold], which is not under [src/].  The module
  never asks for shuffling, so the seed it passes plays no part: the
  n row positions are cut into [n_splits] consecutive blocks, the
  first [n mod n_splits] of them one longer.  Fewer than two splits
  are refused when the splitter is built, more splits than rows when
  it is asked to split. *)
Record KFold := mkKFold {
n_splits : Z;
random_state : option Z
}.

Definition KFold_init (k : Z) (seed : option Z) : result KFold :=
if (k <=? 1)%Z then Raise (SplitError k 0)
else Ok {| n_splits := k; random_state := seed |}.

Definition fold_sizes (n k : nat) : list nat :=
map (fun i => n / k + (if Nat.ltb i (n mod k) then 1 else 0)) (seq 0 k).

Fixpoint test_blocks (sizes : list nat) (current : nat) : list (list nat) :=
match sizes with
| [] => []
| s :: rest => seq current s :: test_blocks rest (current + s)
end.

Definition train_of (n : nat) (test : list nat) : list nat :=
filter (fun i => negb (existsb (Nat.eqb i) test)) (seq 0 n).

Definition split (kf : KFold) (n : nat) : result (list (list nat * list nat)) :=
if (Z.of_nat n <? n_splits kf)%Z then Raise (SplitError (n_splits kf) n)
else Ok (map (fun test => (train_of n test, test))
             (test_blocks (fold_sizes n (Z.to_nat (n_splits kf))) 0)).

(** [clone(estimator)]: a new, unfitted object with the same parameters. *)
Definition clone (o : estimator V) : estimator V := set_fitted o None.

(** One fold of [cross_val_predict]: fit a clone on the training rows,
  predict the test rows. *)
Definition fit_and_predict (o : estimator V) (X : DataFrame V) (y : Series V)
  (fold : list nat * list nat) : result (list V) :=
match fit_method o with
| None => Raise (AttributeError "fit")
| Some f =>
    match f (iloc (fst fold) X) (iloc_series (fst fold) y) with
    | Some msg => Raise (Foreign msg)
    | None =>
        predict_obj (set_fitted (clone o)
                       (Some (iloc (fst fold) X, iloc_series (fst fold) y)))
                    (iloc (snd fold) X)
    end
end.

Fixpoint oof_with (folds : list (list nat * list nat)) (o : estimator V)
  (X : DataFrame V) (y : Series V) : result (list V) :=
match folds with
| [] => Ok []
| fd :: rest =>
    match fit_and_predict o X y fd with
    | Raise e => Raise e
    | Ok p =>
        match oof_with rest o X y with
        | Raise e => Raise e
        | Ok ps => Ok (p ++ ps)
        end
    end
end.

(** [cross_val_predict(model, X, y, cv=k, method='predict')] for a
  regressor: an integer [cv] builds a [KFold(k)] of its own for this
  call; the test blocks are consecutive, so the predictions joined in
  fold order are in row order.  The object passed is only read. *)
Definition cross_val_predict (l : loc) (X : DataFrame V) (y : Series V) (k : Z)
  : M V (list V) :=
o <- deref l ;;
cv <- lift (KFold_init k None) ;;
folds <- lift (split cv (n_samples X)) ;;
lift (oof_with folds o X y).

End Sklearn.
End sklearn.

(** ** The stacking functions of [regression.py] *)

(** What a stack container, or a list handed to the stacking functions,
    holds: a reference to an estimator object, a level (a list of such
    references), or the restack flag. *)
Inductive item :=
| Est (l : nat)
| Level (ls : list nat)
| Flag (b : bool).

(** The [estimator] argument of [finalize_model] and [predict_model]. *)
Inductive arg :=
| AObj (l : nat)
| AList (items : list item)
| ABool (b : bool).

Definition arg_of_item (i : item) : arg :=
  match i with
  | Est l => AObj l
  | Level ls => AList (map Est ls)
  | Flag b => ABool b
  end.

Definition value_of_item (i : item) : Py.value :=
  match i with
  | Flag b => Py.Bool b
  | Level _ => Py.Other "<class 'list'>"
  | Est _ => Py.Other "object"
  end.

Section Stacking.

Context {V : Type} {missing : Missing V}.
(** What [LinearRegression()] constructs. *)
Variable LinearRegression : estimator V.
(** numpy's rounding of one value to a number of decimals. *)
Variable np_round : Z -> V -> V.

Local Open Scope py_scope.
Import sklearn.

(** The module-level variables [setup] defines. *)
Record globals := mkGlobals {
  X : DataFrame V;
  y : Series V;
  X_train : DataFrame V;
  y_train : Series V;
  X_test : DataFrame V;
  y_test : Series V;
  seed : Z;
  prep_pipe : loc
}.

(** [None] before [setup] has run: reading a global raises [NameError]. *)
Variable env : option globals.

Definition global {A} (name : string) (proj : globals -> A) : M V A :=
  match env with
  | None => raise (NameError name)
  | Some g => ret (proj g)
  end.

(** [str(type(i))]. *)
Definition type_of (h : heap V) (i : item) : string :=
  match i with
  | Est l => type_str (objs h l)
  | Level _ => "<class 'list'>"
  | Flag _ => "<class 'bool'>"
  end.

(** ['sklearn' not in str(type(i)) and 'CatBoostRegressor' not in str(type(i))]. *)
Definition rejected_type (t : string) : bool :=
  negb (Py.contains "sklearn" t) && negb (Py.contains "CatBoostRegressor" t).

Definition only_trained : string :=
  "(Value Error): estimator_list parameter only trained model object".

Definition check_item (i : item) : M V unit :=
  fun h => if rejected_type (type_of h i)
           then (Raise (SystemExit only_trained), h)
           else (Ok tt, h).

(** Using an item where an estimator object is expected. *)
Definition as_obj (attr : string) (i : item) : M V loc :=
  match i with
  | Est l => ret l
  | _ => raise (AttributeError attr)
  end.

(** Iterating over an item. *)
Definition as_level (i : item) : M V (list loc) :=
  match i with
  | Level ls => ret ls
  | _ => raise (TypeError "object is not iterable")
  end.

Definition check_int (v : Py.value) (msg : string) : M V Z :=
  match v with
  | Py.Int z => ret z
  | _ => raise (SystemExit msg)
  end.

Definition check_bool (v : Py.value) (msg : string) : M V bool :=
  match v with
  | Py.Bool b => ret b
  | _ => raise (SystemExit msg)
  end.

(** [ipw.IntProgress(value=0, min=0, max=max_progress, ...)]: the widget
    refuses a [max] below its [min]. *)
Definition IntProgress (max_progress : Z) : M V unit :=
  if (max_progress <? 0)%Z then raise TraitError else ret tt.

(** [sklearn.metrics] on the true and the predicted values: only whether
    they can be computed matters here. *)
Definition metrics (ytest : Series V) (pred_ : list V) : M V unit :=
  if Nat.eqb (length (snd ytest)) (length pred_) then ret tt
  else raise (ValueError "Found input variables with inconsistent numbers of samples").

(** The replacement of a CatBoost name, as [stack_models] and
    [predict_model] write it ([if ... else] inside the loop). *)
Definition catboost_fixed (names : list string) : list string :=
  map (fun i => if Py.contains "CatBoostRegressor" i then "CatBoostRegressor" else i) names.

(** [stack_models], lines 3909-3931: the names of the base columns. *)
Definition model_names_of (h : heap V) (estimator_list : list loc) : list string :=
  map (fun l => Py.before_paren (obj_str (objs h l))) estimator_list.

Definition model_names_fixed (model_names : list string) : list string :=
  map (fun '(counter, i) => (i ++ "_" ++ Py.str_nat counter)%string)
      (enumerate (catboost_fixed model_names)).

(** The loop over the base estimators of [stack_models]. *)
Fixpoint stack_base_loop (estimator_list : list loc) (data_X : DataFrame V)
    (data_y : Series V) (fold : Z) (models_ : list item)
    (base_prediction : DataFrame V) : M V (list item * DataFrame V) :=
  match estimator_list with
  | [] => ret (models_, base_prediction)
  | model :: rest =>
      fit model data_X data_y ;;;
      base_array <- cross_val_predict model data_X data_y fold ;;
      stack_base_loop rest data_X data_y fold (models_ ++ [Est model])
        (concat base_prediction (frame_of_array base_array))
  end.

(** The cross-validation of the meta estimator: the loop over
    [kf.split(data_X, data_y)], which fits [model] itself on the training
    rows of every fold. *)
Fixpoint meta_cv_loop (model : loc) (data_X : DataFrame V) (data_y : Series V)
    (folds : list (list nat * list nat)) : M V unit :=
  match folds with
  | [] => ret tt
  | (train_i, test_i) :: rest =>
      fit model (iloc train_i data_X) (iloc_series train_i data_y) ;;;
      pred_ <- predict model (iloc test_i data_X) ;;
      metrics (iloc_series test_i data_y) pred_ ;;;
      meta_cv_loop model data_X data_y rest
  end.

(** The estimator objects of a list that passed the checks (the checks
    leave nothing else through; anything else would have no [fit]). *)
Definition all_objs (items : list item) : M V (list loc) :=
  for_each (as_obj "fit") items.

(** The part of [stack_models] up to the assembled table the meta
    estimator is fitted on: it returns the estimators appended so far, the
    meta estimator, the table, the target, the fold count and the flag. *)
Definition stack_models_features (estimator_list : list item) (meta_model : option item)
    (fold round restack : Py.value) (finalize : bool) (verbose : Py.value)
    : M V (list item * loc * DataFrame V * Series V * Z * bool) :=
  (* error handling *)
  for_each check_item estimator_list ;;;
  match meta_model with None => ret tt | Some m => check_item m end ;;;
  fold <- check_int fold "(Type Error): Fold parameter only accepts integer value." ;;
  check_int round "(Type Error): Round parameter only accepts integer value." ;;;
  restack <- check_bool restack
    "(Type Error): Restack parameter can only take argument as True or False." ;;
  (* the check headed "checking plot parameter" tests [restack] again *)
  check_bool verbose
    "(Type Error): Verbose parameter can only take argument as True or False." ;;;
  (* progress bar *)
  IntProgress (Z.of_nat (length estimator_list) + fold + 4) ;;;
  estimator_list <- all_objs estimator_list ;;
  (* defining the meta model *)
  meta_model <- match meta_model with
                | None => alloc LinearRegression
                | Some m => as_obj "fit" m
                end ;;
  data_X <- (if finalize then global "X" X else global "X_train" X_train) ;;
  data_y <- (if finalize then global "y" y else global "y_train" y_train) ;;
  h <- (fun h => (Ok h, h)) ;;
  let model_names := model_names_of h estimator_list in
  let model_names_fixed := model_names_fixed model_names in
  r <- stack_base_loop estimator_list data_X data_y fold [] (frame_of_series data_y) ;;
  let '(models_, base_prediction) := r in
  (* defining column names now *)
  target_col_name <- match columns base_prediction with
                     | [] => raise IndexError
                     | c :: _ => ret c
                     end ;;
  base_prediction <- lift (set_columns base_prediction
                             (target_col_name :: map Name model_names_fixed)) ;;
  (* drop column from base_prediction *)
  base_prediction <- lift (drop_first base_prediction) ;;
  let data_X := if restack then concat data_X base_prediction else base_prediction in
  (* the correlation matrix drops [base_prediction.columns[0]] once more *)
  lift (drop_first base_prediction) ;;;
  ret (models_, meta_model, data_X, data_y, fold, restack).

(** [stack_models]. *)
Definition stack_models (estimator_list : list item) (meta_model : option item)
    (fold round restack : Py.value) (finalize : bool) (verbose : Py.value)
    : M V (list item) :=
  r <- stack_models_features estimator_list meta_model fold round restack finalize verbose ;;
  let '(models_, meta_model, data_X, data_y, fold, restack) := r in
  let model := meta_model in
  fit model data_X data_y ;;;
  let models_ := models_ ++ [Est model] in
  seed <- global "seed" seed ;;
  kf <- lift (KFold_init fold (Some seed)) ;;
  folds <- lift (split kf (n_samples data_X)) ;;
  meta_cv_loop model data_X data_y folds ;;;
  ret (models_ ++ [Flag restack]).

(** *** [create_stacknet] *)

(** [create_stacknet], lines 4344-4345. *)
Definition base_level_names_of (h : heap V) (base_level : list loc) : list string :=
  map (fun l => Py.before_paren (obj_str (objs h l))) base_level.

(** Lines 4347-4354.  The [else] is aligned with the [for], not with the
    [if]: inside the loop only the CatBoost names are appended, and the
    [else] runs once when the loop is over, appending the loop variable
    [i] as the loop left it ([stale_i] when the loop had nothing to run
    over: the [i] of the checking loop above). *)
Definition base_level_fixed_train (stale_i : string) (base_level_names : list string)
    : list string :=
  map (fun _ => "CatBoostRegressor")
      (filter (Py.contains "CatBoostRegressor") base_level_names)
  ++ [last base_level_names stale_i].

(** Lines 4358-4366. *)
Definition base_level_fixed_2 (base_level_names : list string) : list string :=
  map (fun '(counter, i) => (i ++ "_" ++ "BaseLevel_" ++ Py.str_nat counter)%string)
      (enumerate base_level_names).

(** Lines 4474-4477 and 5696-5699: the name of an intermediate column. *)
Definition inter_col (o : estimator V) (inter_counter model_counter : nat) : string :=
  let col := Py.before_paren (obj_str o) in
  let col := if Py.contains "CatBoostRegressor" col then "CatBoostRegressor" else col in
  (col ++ "_InterLevel_" ++ Py.str_nat inter_counter ++ "_" ++ Py.str_nat model_counter)%string.

(** [names[i]] read for the monitor. *)
Definition monitor_name (names : list string) (i : nat) : M V unit :=
  match nth_error names i with
  | None => raise IndexError
  | Some _ => ret tt
  end.

Fixpoint stacknet_base_loop (base_level : list loc) (data_X : DataFrame V)
    (data_y : Series V) (fold : Z) (base_level_names : list string) (base_counter : nat)
    (base_models_ : list loc) (base_array_df : DataFrame V)
    : M V (list loc * DataFrame V) :=
  match base_level with
  | [] => ret (base_models_, base_array_df)
  | model :: rest =>
      fitted <- fit model data_X data_y ;;
      monitor_name base_level_names base_counter ;;;
      base_array <- cross_val_predict model data_X data_y fold ;;
      stacknet_base_loop rest data_X data_y fold base_level_names (S base_counter)
        (base_models_ ++ [fitted]) (concat base_array_df (frame_of_array base_array))
  end.

(** The loop over the models of one intermediate level. *)
Fixpoint inter_models_loop (level : list loc) (base_array_df : DataFrame V)
    (data_y : Series V) (fold : Z) (inter_level_names : list string)
    (inter_counter model_counter : nat) (inter_inner : list loc)
    (inter_array_df : DataFrame V) : M V (list loc * DataFrame V) :=
  match level with
  | [] => ret (inter_inner, inter_array_df)
  | model :: rest =>
      monitor_name inter_level_names inter_counter ;;;
      model <- fit model base_array_df data_y ;;
      base_array <- cross_val_predict model base_array_df data_y fold ;;
      o <- deref model ;;
      base_array <- lift (set_columns (frame_of_array base_array)
                            [Name (inter_col o inter_counter model_counter)]) ;;
      inter_models_loop rest base_array_df data_y fold inter_level_names
        inter_counter (S model_counter) (inter_inner ++ [model])
        (concat inter_array_df base_array)
  end.

(** The loop over the intermediate levels. *)
Fixpoint inter_levels_loop (inter_level : list (list loc)) (restack : bool)
    (data_y : Series V) (fold : Z) (inter_level_names : list string)
    (inter_counter : nat) (models_ : list item) (base_array_df : DataFrame V)
    : M V (list item * DataFrame V) :=
  match inter_level with
  | [] => ret (models_, base_array_df)
  | level :: rest =>
      r <- inter_models_loop level base_array_df data_y fold inter_level_names
             inter_counter 0 [] empty_frame ;;
      let '(inter_inner, inter_array_df) := r in
      let base_array_df := concat base_array_df inter_array_df in
      let models_ := models_ ++ [Level inter_inner] in
      let base_array_df :=
        if restack then base_array_df
        else iloc_cols_from (shape1 base_array_df - length level) base_array_df in
      inter_levels_loop rest restack data_y fold inter_level_names
        (S inter_counter) models_ base_array_df
  end.

(** [create_stacknet] up to the table the meta estimator is fitted on. *)
Definition create_stacknet_features (estimator_list : list item) (meta_model : option item)
    (fold round restack : Py.value) (finalize : bool) (verbose : Py.value)
    : M V (list item * loc * DataFrame V * Series V * Z * bool) :=
  (* error handling *)
  levels <- for_each (fun i => level <- as_level i ;;
                               for_each (fun j => check_item (Est j)) level ;;;
                               ret level) estimator_list ;;
  match meta_model with None => ret tt | Some m => check_item m end ;;;
  fold <- check_int fold "(Type Error): Fold parameter only accepts integer value." ;;
  check_int round "(Type Error): Round parameter only accepts integer value." ;;;
  restack <- check_bool restack
    "(Type Error): Restack parameter can only take argument as True or False." ;;
  check_bool verbose
    "(Type Error): Verbose parameter can only take argument as True or False." ;;;
  (* progress bar *)
  IntProgress (Z.of_nat (length estimator_list) + fold + 4) ;;;
  base_level <- match levels with [] => raise IndexError | b :: _ => ret b end ;;
  h <- (fun h => (Ok h, h)) ;;
  let base_level_names := base_level_names_of h base_level in
  let stale_i := Py.str_list (map (fun l => obj_str (objs h l)) (last levels [])) in
  let base_level_names := base_level_fixed_train stale_i base_level_names in
  let base_level_fixed := base_level_fixed_2 base_level_names in
  let inter_level := tl levels in
  let inter_level_names :=
    let once := map (fun l => Py.before_paren (obj_str (objs h l))) (List.concat inter_level) in
    once ++ once in
  data_X <- (if finalize then global "X" X else global "X_train" X_train) ;;
  data_y <- (if finalize then global "y" y else global "y_train" y_train) ;;
  meta_model <- match meta_model with
                | None => alloc LinearRegression
                | Some m => as_obj "fit" m
                end ;;
  r <- stacknet_base_loop base_level data_X data_y fold base_level_names 0 []
         empty_frame ;;
  let '(base_models_, base_array_df) := r in
  base_array_df <- lift (set_columns base_array_df (map Name base_level_fixed)) ;;
  let base_array_df := if restack then concat data_X base_array_df else base_array_df in
  let models_ := [Level base_models_] in
  r <- inter_levels_loop inter_level restack data_y fold inter_level_names 0
         models_ base_array_df ;;
  let '(models_, base_array_df) := r in
  ret (models_, meta_model, base_array_df, data_y, fold, restack).

(** [create_stacknet]. *)
Definition create_stacknet (estimator_list : list item) (meta_model : option item)
    (fold round restack : Py.value) (finalize : bool) (verbose : Py.value)
    : M V (list item) :=
  r <- create_stacknet_features estimator_list meta_model fold round restack
         finalize verbose ;;
  let '(models_, meta_model, data_X, data_y, fold, restack) := r in
  let model := meta_model in
  meta_model_ <- fit model data_X data_y ;;
  seed <- global "seed" seed ;;
  kf <- lift (KFold_init fold (Some seed)) ;;
  folds <- lift (split kf (n_samples data_X)) ;;
  meta_cv_loop model data_X data_y folds ;;;
  ret (models_ ++ [Est meta_model_] ++ [Flag restack]).

(** *** [finalize_model] *)

(** [lst.pop()] and [lst.pop(0)]. *)
Definition pop {A} (xs : list A) : M V (list A * A) :=
  match rev xs with
  | [] => raise IndexError
  | x :: r => ret (rev r, x)
  end.

Definition pop0 {A} (xs : list A) : M V (list A * A) :=
  match xs with
  | [] => raise IndexError
  | x :: r => ret (r, x)
  end.

(** [deepcopy]: every object reached is copied once, so two references
    to one object become two references to its one copy. *)
Definition copy_obj (memo : list (loc * loc)) (l : loc) : M V (list (loc * loc) * loc) :=
  match find (fun p => Nat.eqb (fst p) l) memo with
  | Some p => ret (memo, snd p)
  | None =>
      o <- deref l ;;
      l' <- alloc o ;;
      ret ((l, l') :: memo, l')
  end.

Fixpoint copy_objs (memo : list (loc * loc)) (ls : list loc)
    : M V (list (loc * loc) * list loc) :=
  match ls with
  | [] => ret (memo, [])
  | l :: rest =>
      r <- copy_obj memo l ;;
      r' <- copy_objs (fst r) rest ;;
      ret (fst r', snd r :: snd r')
  end.

Fixpoint copy_items (memo : list (loc * loc)) (items : list item)
    : M V (list (loc * loc) * list item) :=
  match items with
  | [] => ret (memo, [])
  | i :: rest =>
      r <- match i with
           | Est l => r <- copy_obj memo l ;; ret (fst r, Est (snd r))
           | Level ls => r <- copy_objs memo ls ;; ret (fst r, Level (snd r))
           | Flag b => ret (memo, Flag b)
           end ;;
      r' <- copy_items (fst r) rest ;;
      ret (fst r', snd r :: snd r')
  end.

Definition deepcopy (a : arg) : M V arg :=
  match a with
  | AObj l => r <- copy_obj [] l ;; ret (AObj (snd r))
  | AList items => r <- copy_items [] items ;; ret (AList (snd r))
  | ABool b => ret (ABool b)
  end.

Definition items_of (attr : string) (a : arg) : M V (list item) :=
  match a with
  | AList items => ret items
  | _ => raise (AttributeError attr)
  end.

Definition first_item (items : list item) : M V item :=
  match items with
  | [] => raise IndexError
  | i :: _ => ret i
  end.

Definition is_level (i : item) : bool :=
  match i with Level _ => true | _ => false end.

(** [finalize_model]. *)
Definition finalize_model (estimator : arg) : M V arg :=
  match estimator with
  | AList items =>
      first <- first_item items ;;
      stacker_final <- deepcopy estimator ;;
      stacker_final <- items_of "pop" stacker_final ;;
      r <- pop stacker_final ;;
      let '(stacker_final, stack_restack) := r in
      r <- pop stacker_final ;;
      let '(stacker_final, stack_meta_final) := r in
      model_final <-
        (if is_level first
         then create_stacknet stacker_final (Some stack_meta_final) (Py.Int 10)
                (Py.Int 4) (value_of_item stack_restack) true (Py.Bool false)
         else stack_models stacker_final (Some stack_meta_final) (Py.Int 10)
                (Py.Int 4) (value_of_item stack_restack) true (Py.Bool false)) ;;
      ret (AList model_final)
  | _ =>
      model_final <- deepcopy estimator ;;
      l <- match model_final with
           | AObj l => ret l
           | _ => raise (AttributeError "fit")
           end ;;
      (fun h => match fit_method (objs h l) with
                | None => (Raise (AttributeError "fit"), h)
                | Some _ => (Ok tt, h)
                end) ;;;
      X <- global "X" X ;;
      y <- global "y" y ;;
      fit l X y ;;;
      ret model_final
  end.

(** *** [predict_model] *)

(** [str(i)] for an item. *)
Definition str_of_item (h : heap V) (i : item) : string :=
  match i with
  | Est l => obj_str (objs h l)
  | Level ls => Py.str_list (map (fun l => obj_str (objs h l)) ls)
  | Flag true => "True"
  | Flag false => "False"
  end.

(** Lines 5619-5644: the base column names rebuilt at inference. *)
Definition base_level_fixed_infer (base_model_names : list string) : list string :=
  map (fun '(counter, i) => (i ++ "_" ++ "BaseLevel_" ++ Py.str_nat counter)%string)
      (enumerate (catboost_fixed base_model_names)).

(** Lines 5760-5783: the column names of a single-layer stack rebuilt at
    inference. *)
Definition model_names_infer (model_names : list string) : list string :=
  map (fun '(counter, i) => (i ++ "_" ++ Py.str_nat counter)%string)
      (enumerate (catboost_fixed model_names)).

(** The predictions of a level put side by side. *)
Definition frame_of_preds (preds : list (list V)) : DataFrame V :=
  fold_left (fun df a => concat df (frame_of_array a)) preds empty_frame.

Definition unbound {A} (name : string) (o : option A) : M V A :=
  match o with
  | None => raise (NameError name)
  | Some a => ret a
  end.

(** Lines 5680-5704: the models of one intermediate level at inference. *)
Fixpoint infer_models_loop (level : list loc) (base_pred_df base_pred_df_no_restack : DataFrame V)
    (last_level_df : option (DataFrame V)) (combined_df : DataFrame V)
    (inter_counter model_counter : nat) (inter_pred_df : DataFrame V)
    : M V (DataFrame V) :=
  match level with
  | [] => ret inter_pred_df
  | model :: rest =>
      p <- try_except
             (if Nat.eqb inter_counter 0
              then try_except (predict model base_pred_df)
                              (predict model base_pred_df_no_restack)
              else (d <- unbound "last_level_df" last_level_df ;; predict model d))
             (predict model combined_df) ;;
      o <- deref model ;;
      p <- lift (set_columns (frame_of_array p)
                   [Name (inter_col o inter_counter model_counter)]) ;;
      infer_models_loop rest base_pred_df base_pred_df_no_restack last_level_df
        combined_df inter_counter (S model_counter) (concat inter_pred_df p)
  end.

(** Lines 5674-5710: the intermediate levels at inference.  It returns
    [combined_df] and [inter_pred_df], the latter unbound when there was no
    level to run over. *)
Fixpoint infer_levels_loop (stacker : list item) (base_pred_df base_pred_df_no_restack : DataFrame V)
    (last_level_df : option (DataFrame V)) (combined_df : DataFrame V)
    (inter_counter : nat) (inter_pred_df : option (DataFrame V))
    : M V (DataFrame V * option (DataFrame V)) :=
  match stacker with
  | [] => ret (combined_df, inter_pred_df)
  | level :: rest =>
      level <- as_level level ;;
      inter_pred_df <- infer_models_loop level base_pred_df base_pred_df_no_restack
                         last_level_df combined_df inter_counter 0 empty_frame ;;
      infer_levels_loop rest base_pred_df base_pred_df_no_restack
        (Some inter_pred_df) (concat combined_df inter_pred_df)
        (S inter_counter) (Some inter_pred_df)
  end.

(** "Multiple Layer Stacking", lines 5611-5710: the meta estimator, the
    table [combined_df] and the table [inter_pred_df] of the last level. *)
Definition multi_layer_tables (model : arg) (Xtest : DataFrame V)
    : M V (item * DataFrame V * option (DataFrame V)) :=
  stacker <- items_of "copy" model ;;
  r <- pop stacker ;;
  let '(stacker, restack) := r in
  r <- pop stacker ;;
  let '(stacker, stacker_meta) := r in
  r <- pop0 stacker ;;
  let '(stacker, stacker_base) := r in
  stacker_base <- as_level stacker_base ;;
  h <- (fun h => (Ok h, h)) ;;
  let base_model_names :=
    map (fun i => Py.before_paren (obj_str (objs h i))) stacker_base in
  let base_level_fixed := base_level_fixed_infer base_model_names in
  base_pred <- for_each (fun i => predict i Xtest) stacker_base ;;
  let base_pred_df := frame_of_preds base_pred in
  base_pred_df <- lift (set_columns base_pred_df (map Name base_level_fixed)) ;;
  let base_pred_df_no_restack := base_pred_df in
  let base_pred_df := concat Xtest base_pred_df in
  let combined_df := base_pred_df in
  r <- infer_levels_loop stacker base_pred_df base_pred_df_no_restack None
         combined_df 0 None ;;
  let '(combined_df, inter_pred_df) := r in
  ret (stacker_meta, combined_df, inter_pred_df).

(** Lines 5712-5720: the final meta predictions. *)
Definition predict_multi_layer (model : arg) (Xtest : DataFrame V) : M V (list V) :=
  r <- multi_layer_tables model Xtest ;;
  let '(stacker_meta, combined_df, inter_pred_df) := r in
  try_except
    (m <- as_obj "predict" stacker_meta ;; predict m combined_df)
    (m <- as_obj "predict" stacker_meta ;;
     d <- unbound "inter_pred_df" inter_pred_df ;;
     predict m d).

(** "Single Layer Stacking", lines 5751-5798: the restack flag, the meta
    estimator, the table [df] of the named base predictions and the
    table [df_restack]. *)
Definition single_layer_tables (model : arg) (Xtest : DataFrame V)
    : M V (item * item * DataFrame V * DataFrame V) :=
  stacker <- items_of "copy" model ;;
  r <- pop stacker ;;
  let '(stacker, restack) := r in
  r <- pop stacker ;;
  let '(stacker, meta_model) := r in
  h <- (fun h => (Ok h, h)) ;;
  let model_names := map (fun i => Py.before_paren (str_of_item h i)) stacker in
  let model_names := model_names_infer model_names in
  base_pred <- for_each (fun i => l <- as_obj "predict" i ;; predict l Xtest) stacker ;;
  let df := frame_of_preds base_pred in
  df <- lift (set_columns df (map Name model_names)) ;;
  let df_restack := concat Xtest df in
  ret (restack, meta_model, df, df_restack).

(** Lines 5802-5808: the meta predictions ("restacking check"). *)
Definition predict_single_layer (model : arg) (Xtest : DataFrame V) : M V (list V) :=
  r <- single_layer_tables model Xtest ;;
  let '(restack, meta_model, df, df_restack) := r in
  try_except
    (m <- as_obj "predict" meta_model ;; predict m df)
    (m <- as_obj "predict" meta_model ;; predict m df_restack).

(** Section 4.6 of the spec for a single layer, as it is worded: the
    table is assembled according to the stored flag, the meta estimator
    predicts on it, and only if it refuses is the table without the raw
    features tried. *)
Definition spec_predict_single_layer (model : arg) (Xtest : DataFrame V) : M V (list V) :=
  r <- single_layer_tables model Xtest ;;
  let '(restack, meta_model, df, df_restack) := r in
  let assembled := match restack with Flag true => df_restack | _ => df end in
  try_except
    (m <- as_obj "predict" meta_model ;; predict m assembled)
    (m <- as_obj "predict" meta_model ;; predict m df).

(** Lines 5824-5827 (and their copies in the other branches). *)
Definition label_of (pred_ : list V) (round : Z) : DataFrame V :=
  {| nrows := length pred_; cols := [(Name "Label", map (np_round round) pred_)] |}.

(** [predict_model], for an estimator given as an object or as a list (a
    name to load from disk is resolved by the persistence code first). *)
Definition predict_model (estimator : arg) (data : option (DataFrame V)) (round : Z)
    : M V (DataFrame V) :=
  r <- match data with
       | None =>
           Xtest <- global "X_test" X_test ;;
           ytest <- global "y_test" y_test ;;
           ret (estimator, estimator, Xtest, Some ytest, Xtest)
       | Some data =>
           estimator_ <- deepcopy estimator ;;
           r <- match estimator_ with
                | AList items_ =>
                    first <- first_item items_ ;;
                    h <- (fun h => (Ok h, h)) ;;
                    if Py.contains "sklearn.pipeline.Pipeline" (type_of h first)
                    then
                      r <- pop0 items_ ;;
                      let '(items_, prep_pipe_transformer) := r in
                      m <- first_item items_ ;;
                      ret (prep_pipe_transformer, arg_of_item m)
                    else
                      p <- global "prep_pipe" prep_pipe ;;
                      ret (Est p, estimator)
                | _ =>
                    p <- global "prep_pipe" prep_pipe ;;
                    ret (Est p, estimator)
                end ;;
           let '(prep_pipe_transformer, estimator) := r in
           model <- try_except (finalize_model estimator) (ret estimator) ;;
           t <- as_obj "transform" prep_pipe_transformer ;;
           Xtest <- transform t data ;;
           ret (estimator, model, Xtest, None, data)
       end ;;
  let '(estimator, model, Xtest, ytest, X_test_) := r in
  pred_ <- match estimator with
           | AList items =>
               first <- first_item items ;;
               if is_level first
               then predict_multi_layer model Xtest
               else predict_single_layer model Xtest
           | _ =>
               match model with
               | AObj l => predict l Xtest
               | _ => raise (AttributeError "predict")
               end
           end ;;
  match ytest with
  | Some ytest => metrics ytest pred_
  | None => ret tt
  end ;;;
  let label := label_of pred_ round in
  match ytest with
  | Some ytest => ret (concat (concat Xtest (frame_of_series ytest)) label)
  | None => ret (concat X_test_ label)
  end.

End Stacking.

(** ** Concrete objects *)

Module Demo.

Import sklearn.

(** The tables of the examples hold integers; none of them is ever
    padded, so the value that stands for [NaN] never shows. *)
#[global] Instance missing : Missing Z := 0%Z.

(** An estimator that fits anything and answers, for every row, the
    number of columns it is shown. *)
Definition lenient (type_ name : string) : estimator Z :=
  {| type_str := type_; obj_str := name;
     fit_method := Some (fun _ _ => None);
     predict_method :=
       Some (fun _ X => inr (repeat (Z.of_nat (shape1 X)) (nrows X)));
     transform_method := None;
     fitted_on := None |}.

(** An estimator that refuses a table whose number of columns is not the
    one it was fitted on. *)
Definition strict (type_ name : string) : estimator Z :=
  {| type_str := type_; obj_str := name;
     fit_method := Some (fun _ _ => None);
     predict_method :=
       Some (fun fitted X =>
               match fitted with
               | None => inl "This instance is not fitted yet"
               | Some (Xf, _) =>
                   if Nat.eqb (shape1 X) (shape1 Xf)
                   then inr (repeat (Z.of_nat (shape1 X)) (nrows X))
                   else inl "X has a different number of features than the estimator was fitted on"
               end);
     transform_method := None;
     fitted_on := None |}.

Definition ridge := lenient "<class 'sklearn.linear_model._ridge.Ridge'>" "Ridge(alpha=1.0)".
Definition lasso := lenient "<class 'sklearn.linear_model._coordinate_descent.Lasso'>" "Lasso(alpha=1.0)".
Definition catboost :=
  lenient "<class 'catboost.core.CatBoostRegressor'>"
          "<catboost.core.CatBoostRegressor object at 0x7f3a5c0b1d90>".
Definition knn := strict "<class 'sklearn.neighbors._regression.KNeighborsRegressor'>"
                         "KNeighborsRegressor(n_neighbors=5)".
Definition linreg := strict "<class 'sklearn.linear_model._base.LinearRegression'>"
                            "LinearRegression()".
(** A user-defined class with [fit] and [predict]. *)
Definition my_regressor := lenient "<class '__main__.MyRegressor'>" "MyRegressor()".
(** The preprocessing pipeline of [setup]: here it hands the rows on. *)
Definition pipe : estimator Z :=
  {| type_str := "<class 'sklearn.pipeline.Pipeline'>"; obj_str := "Pipeline(steps=[])";
     fit_method := None; predict_method := None;
     transform_method := Some (fun X => inr X);
     fitted_on := None |}.

Definition h0 : heap Z :=
  {| objs := fun l =>
       match l with
       | 0 => ridge | 1 => lasso | 2 => catboost | 3 => knn
       | 4 => my_regressor | 5 => pipe | _ => linreg
       end;
     next := 8 |}.

Definition rows4 : DataFrame Z :=
  {| nrows := 4; cols := [(Name "age", [1; 2; 3; 4]%Z); (Name "bmi", [5; 6; 7; 8]%Z)] |}.
Definition target4 : Series Z := (Name "medv", [10; 20; 30; 40]%Z).

Definition g : globals (V:=Z) :=
  {| X := rows4; y := target4; X_train := rows4; y_train := target4;
     X_test := rows4; y_test := target4; seed := 123; prep_pipe := 5 |}.

Definition rnd (d : Z) (v : Z) : Z := v.

Definition run {A} (m : M Z A) : result A := fst (m h0).

End Demo.

(** ** [create_model] and [ensemble_model] *)

Section Training.

Context {V : Type} {missing : Missing V}.
(** The object the [elif] chain of [create_model] constructs for an
    estimator name, given the seed of the experiment. *)
Variable construct : string -> Z -> estimator V.
(** [BaggingRegressor(model, bootstrap=True, n_estimators=n, random_state=seed)]
    and [AdaBoostRegressor(model, n_estimators=n, random_state=seed)]: new
    objects built around the estimator they are given; fitting them
    works on clones of it. *)
Variable BaggingRegressor : estimator V -> Z -> Z -> estimator V.
Variable AdaBoostRegressor : estimator V -> Z -> Z -> estimator V.
Variable env : option (globals (V:=V)).

Local Open Scope py_scope.
Import sklearn.

Definition available_estimators : list string :=
  ["lr"; "lasso"; "ridge"; "en"; "lar"; "llar"; "omp"; "br"; "ard"; "par";
   "ransac"; "tr"; "huber"; "kr"; "svm"; "knn"; "dt"; "rf"; "et"; "ada"; "gbr";
   "mlp"; "xgboost"; "lightgbm"; "catboost"].

Definition available_method : list string := ["Bagging"; "Boosting"].

(** [v in xs] for a list of strings [xs]. *)
Definition in_strings (v : Py.value) (xs : list string) : bool :=
  match v with
  | Py.Str s => existsb (String.eqb s) xs
  | _ => false
  end.

Definition is_none (v : Py.value) : bool :=
  match v with Py.NoneV => true | _ => false end.

(** [sys.exit(msg)] when the condition holds. *)
Definition exit_if (b : bool) (msg : string) : M V unit :=
  if b then raise (SystemExit msg) else ret tt.

(** The wrapper [create_model] puts around the model, lines 1085-1093. *)
Definition wrap_by_method (method : Py.value) (model : loc) (seed_ : Z) : M V loc :=
  match method with
  | Py.Str m =>
      if String.eqb m "Bagging"
      then o <- deref model ;; alloc (BaggingRegressor o 10 seed_)
      else if String.eqb m "Boosting"
      then o <- deref model ;; alloc (AdaBoostRegressor o 10 seed_)
      else ret model
  | _ => ret model
  end.

(** [create_model]. *)
Definition create_model (estimator ensemble method fold round verbose : Py.value)
    : M V loc :=
  (* error handling *)
  exit_if (negb (in_strings estimator available_estimators))
    "(Value Error): Estimator Not Available. Please see docstring for list of available estimators." ;;;
  ensemble <- check_bool ensemble
    "(Type Error): Ensemble parameter can only take argument as True or False." ;;
  exit_if (negb ensemble && negb (is_none method))
    "(Type Error): Method parameter only accepts value when ensemble is set to True." ;;;
  exit_if (ensemble && is_none method)
    "(Type Error): Method parameter missing. Pass method = 'Bagging' or 'Boosting'." ;;;
  exit_if (ensemble && negb (in_strings method available_method))
    "(Value Error): Method parameter only accepts two values 'Bagging' or 'Boosting'." ;;;
  fold <- check_int fold "(Type Error): Fold parameter only accepts integer value." ;;
  check_int round "(Type Error): Round parameter only accepts integer value." ;;;
  check_bool verbose
    "(Type Error): Verbose parameter can only take argument as True or False." ;;;
  (* progress bar *)
  IntProgress (fold + 4) ;;;
  (* storing X_train and y_train in data_X and data_y *)
  data_X <- global env "X_train" X_train ;;
  data_y <- global env "y_train" y_train ;;
  (* cross validation setup *)
  seed_ <- global env "seed" seed ;;
  kf <- lift (KFold_init fold (Some seed_)) ;;
  (* selecting the estimator *)
  model <- alloc (construct (match estimator with Py.Str s => s | _ => "" end) seed_) ;;
  model <- wrap_by_method method model seed_ ;;
  folds <- lift (split kf (n_samples data_X)) ;;
  meta_cv_loop model data_X data_y folds ;;;
  (* refitting the model on complete X_train, y_train *)
  fit model data_X data_y ;;;
  ret model.

(** [ensemble_model], for an estimator object. *)
Definition ensemble_model (estimator : loc) (method fold n_estimators round verbose : Py.value)
    : M V loc :=
  (* error handling *)
  exit_if (negb (in_strings method available_method))
    "(Value Error): Method parameter only accepts two values 'Bagging' or 'Boosting'." ;;;
  fold <- check_int fold "(Type Error): Fold parameter only accepts integer value." ;;
  n_estimators <- check_int n_estimators
    "(Type Error): n_estimators parameter only accepts integer value." ;;
  check_int round "(Type Error): Round parameter only accepts integer value." ;;;
  check_bool verbose
    "(Type Error): Verbose parameter can only take argument as True or False." ;;;
  (* progress bar *)
  IntProgress (fold + 4) ;;;
  data_X <- global env "X_train" X_train ;;
  data_y <- global env "y_train" y_train ;;
  (* defining estimator as model *)
  o <- deref estimator ;;
  seed_ <- global env "seed" seed ;;
  model <- alloc (if in_strings method ["Bagging"]
                  then BaggingRegressor o n_estimators seed_
                  else AdaBoostRegressor o n_estimators seed_) ;;
  kf <- lift (KFold_init fold (Some seed_)) ;;
  folds <- lift (split kf (n_samples data_X)) ;;
  meta_cv_loop model data_X data_y folds ;;;
  (* refitting the model on complete X_train, y_train *)
  fit model data_X data_y ;;;
  ret model.

End Training.

(** ** Concrete constructors *)

Module DemoTraining.

(** What the [elif] chain builds for a name: an estimator of the
    library, named after it. *)
Definition construct (name : string) (seed_ : Z) : estimator Z :=
  Demo.lenient ("<class 'sklearn." ++ name ++ "'>") (name ++ "()").

Definition BaggingRegressor (o : estimator Z) (n seed_ : Z) : estimator Z :=
  Demo.strict "<class 'sklearn.ensemble._bagging.BaggingRegressor'>"
              ("BaggingRegressor(base_estimator=" ++ obj_str o ++ ")").

Definition AdaBoostRegressor (o : estimator Z) (n seed_ : Z) : estimator Z :=
  Demo.strict "<class 'sklearn.ensemble._weight_boosting.AdaBoostRegressor'>"
              ("AdaBoostRegressor(base_estimator=" ++ obj_str o ++ ")").

End DemoTraining.

(** * Specifications *)

(** The vocabulary the statements below are written in. *)

Section Vocabulary.

Context {V : Type} {missing : Missing V}.
Variable LinearRegression : estimator V.
Variable env : option (globals (V:=V)).
Local Open Scope py_scope.

(** [raises_only P m]: whatever [m] raises satisfies [P]. *)
Definition raises_only {A} (P : exn -> Prop) (m : M V A) : Prop :=
  forall h e h', m h = (Raise e, h') -> P e.

(** [post Q m]: whatever [m] returns, with the stores before and after,
    satisfies [Q]. *)
Definition post {A} (Q : heap V -> A -> heap V -> Prop) (m : M V A) : Prop :=
  forall h a h', m h = (Ok a, h') -> Q h a h'.

(** An exception that is neither an exit of this module nor the
    splitter's. *)
Definition plain (e : exn) : Prop :=
  match e with
  | SystemExit _ | SplitError _ _ => False
  | _ => True
  end.

(** Not an exit of this module. *)
Definition lib (e : exn) : Prop :=
  match e with
  | SystemExit _ => False
  | _ => True
  end.

(** Not the exit with the message [msg]. *)
Definition other_than (msg : string) (e : exn) : Prop := e <> SystemExit msg.

(** Not an error of the splitter. *)
Definition no_split (e : exn) : Prop := forall k n, e <> SplitError k n.

(** The message of the check on the type of [fold]. *)
Definition fold_msg : string := "(Type Error): Fold parameter only accepts integer value.".

(** The objects a stacking call is given. *)
Definition supplied (estimator_list : list item) (meta_model : option item) : list item :=
  estimator_list ++ match meta_model with Some m => [m] | None => [] end.

(** [same_objs h h']: the objects of [h'] are those of [h], fitted or
    not: this is what [fit] does to a store. *)
Definition same_objs (h h' : heap V) : Prop :=
  forall l, exists d, objs h' l = set_fitted (objs h l) d.

(** [frame h h']: [h'] has the objects of [h] where [h] had any, and
    possibly new ones after them. *)
Definition frame (h h' : heap V) : Prop :=
  next h <= next h' /\ forall l, l < next h -> objs h' l = objs h l.

(** The names [create_stacknet] gives the columns of an intermediate
    level, read off the store [h]. *)
Definition inter_names (h : heap V) (inter_counter : nat) (from : nat) (level : list nat)
    : list label :=
  map (fun '(j, l) => Name (inter_col (objs h l) inter_counter j)) (enumerate_from from level).

(** The training table and target [stack_models] works on. *)
Definition chosen_X (g : globals (V:=V)) (finalize : bool) : DataFrame V :=
  if finalize then X g else X_train g.
Definition chosen_y (g : globals (V:=V)) (finalize : bool) : Series V :=
  if finalize then y g else y_train g.

(** The experiment [g] under another seed. *)
Definition with_seed (g : globals (V:=V)) (s : Z) : globals (V:=V) :=
  {| X := X g; y := y g; X_train := X_train g; y_train := y_train g;
     X_test := X_test g; y_test := y_test g; seed := s; prep_pipe := prep_pipe g |}.

(** The table of the named base predictions [predict_model] builds for a
    single-layer stack. *)
Definition infer_frame (h : heap V) (bases : list nat) (preds : list (list V)) : DataFrame V :=
  {| nrows := nrows (frame_of_preds preds);
     cols := rename
               (map Name (model_names_infer
                            (map (fun l => Py.before_paren (obj_str (objs h l))) bases)))
               (cols (frame_of_preds preds)) |}.

(** The container is neither a list of levels nor a list that carries its
    own preprocessing pipeline in front. *)
Definition single_layer (h : heap V) (items : list item) : Prop :=
  exists first rest,
    items = first :: rest /\ is_level first = false /\
    Py.contains "sklearn.pipeline.Pipeline" (type_of h first) = false.

End Vocabulary.

(** The store after [stack_models] has trained Ridge, Lasso and CatBoost
    under a k-neighbours meta estimator, without restacking. *)
Definition trained_on_three : heap Z :=
  snd (stack_models Demo.linreg (Some Demo.g) [Est 0; Est 1; Est 2] (Some (Est 3))
         (Py.Int 2) (Py.Int 4) (Py.Bool false) false (Py.Bool true) Demo.h0).

(** The store after [stack_models] has trained Lasso and CatBoost under a
    meta estimator that takes a table of any width, with restacking. *)
Definition restacked : heap Z :=
  snd (stack_models Demo.linreg (Some Demo.g) [Est 1; Est 2] (Some (Est 0))
         (Py.Int 2) (Py.Int 4) (Py.Bool true) false (Py.Bool true) Demo.h0).

(** [predict_model] on the container [stack_models] returned, and rows of
    the caller's. *)
Definition labelled : result (DataFrame Z) * heap Z :=
  predict_model Demo.linreg Demo.rnd (Some Demo.g)
    (AList [Est 0; Est 1; Est 2; Est 3; Flag false]) (Some Demo.rows4) 4 trained_on_three.


(** ** Effects on the store *)

Section Effects.

Context {V : Type} {missing : Missing V}.

(** [pure m]: [m] leaves the store as it finds it, whatever it returns
    or raises. *)
Definition pure {A} (m : M V A) : Prop :=
  forall h r h', m h = (r, h') -> h' = h.

(** [writes W m]: [m] changes no object outside [W], provided [W] holds
    every location that is still free when [m] starts; and it frees
    none. *)
Definition writes {A} (W : nat -> Prop) (m : M V A) : Prop :=
  forall h r h',
    m h = (r, h') ->
    (forall l, next h <= l -> W l) ->
    next h <= next h' /\ forall l, ~ W l -> objs h' l = objs h l.

(** The locations an item refers to. *)
Definition locs_of (i : item) : list nat :=
  match i with
  | Est l => [l]
  | Level ls => ls
  | Flag _ => []
  end.

Definition locs_of_arg (a : arg) : list nat :=
  match a with
  | AObj l => [l]
  | AList items => flat_map locs_of items
  | ABool _ => []
  end.

(** Every copy recorded in [memo] sits in [W]. *)
Definition all_in (W : nat -> Prop) (memo : list (nat * nat)) : Prop :=
  forall p, In p memo -> W (snd p).

End Effects.

Definition round_msg : string := "(Type Error): Round parameter only accepts integer value.".
Definition restack_msg : string :=
  "(Type Error): Restack parameter can only take argument as True or False.".
Definition verbose_msg : string :=
  "(Type Error): Verbose parameter can only take argument as True or False.".

(** The message of the first type check of the stacking functions that
    the arguments fail, in the order the checks are written. *)
Definition first_type_error (fold round restack verbose : Py.value) : option string :=
  if negb (Py.is_int fold) then Some fold_msg
  else if negb (Py.is_int round) then Some round_msg
  else if negb (Py.is_bool restack) then Some restack_msg
  else if negb (Py.is_bool verbose) then Some verbose_msg
  else None.

(** [exits_clean m]: when [m] stops with an exit of this module, the store
    is as it was. *)
Definition exits_clean {V A} (m : M V A) : Prop :=
  forall h msg h', m h = (Raise (SystemExit msg), h') -> h' = h.

(** The calls the checks of [create_model] let through. *)
Definition create_model_accepts (estimator ensemble method fold round verbose : Py.value)
    : bool :=
  in_strings estimator available_estimators
  && match ensemble with
     | Py.Bool false => is_none method
     | Py.Bool true => in_strings method available_method
     | _ => false
     end
  && Py.is_int fold && Py.is_int round && Py.is_bool verbose.

(** The calls the checks of [ensemble_model] let through. *)
Definition ensemble_model_accepts (method fold n_estimators round verbose : Py.value) : bool :=
  in_strings method available_method
  && Py.is_int fold && Py.is_int n_estimators && Py.is_int round && Py.is_bool verbose.

Section Wrapped.

Context {V : Type} {missing : Missing V}.
Variable construct : string -> Z -> estimator V.
Variable BaggingRegressor : estimator V -> Z -> Z -> estimator V.
Variable AdaBoostRegressor : estimator V -> Z -> Z -> estimator V.

(** The object [create_model] trains for an estimator name and a
    method. *)
Definition created (name : string) (method : Py.value) (seed_ : Z) : estimator V :=
  let base := construct name seed_ in
  if in_strings method ["Bagging"] then BaggingRegressor base 10 seed_
  else if in_strings method ["Boosting"] then AdaBoostRegressor base 10 seed_
  else base.

(** The object [ensemble_model] trains around an estimator. *)
Definition ensembled (o : estimator V) (method : Py.value) (n seed_ : Z) : estimator V :=
  if in_strings method ["Bagging"] then BaggingRegressor o n seed_
  else AdaBoostRegressor o n seed_.

End Wrapped.

Section HoldOutTable.

Context {V : Type} {missing : Missing V}.
Variable np_round : Z -> V -> V.

(** What [predict_model] makes, on the hold-out set, of the outcome of
    the prediction: the metrics need one prediction per target value; the
    table is [X_test], [y_test] and the rounded predictions. *)
Definition hold_out_table (g : globals (V:=V)) (round : Z) (pred_ : result (list V))
    : result (DataFrame V) :=
  match pred_ with
  | Raise e => Raise e
  | Ok p =>
      if Nat.eqb (length (snd (y_test g))) (length p)
      then Ok (concat (concat (X_test g) (frame_of_series (y_test g)))
                      (label_of np_round p round))
      else Raise (ValueError "Found input variables with inconsistent numbers of samples")
  end.

End HoldOutTable.

(** The text after the last underscore of a string, if it has one. *)
Fixpoint after_last_underscore (s : string) : option string :=
  match s with
  | EmptyString => None
  | String c rest =>
      match after_last_underscore rest with
      | Some t => Some t
      | None => if Ascii.eqb c "_"%char then Some rest else None
      end
  end.

(** The names of the columns of all the intermediate levels, level after
    level, read off the store [h]. *)
Fixpoint inter_names_all {V} (h : heap V) (inter_counter : nat) (levels : list (list nat))
    : list label :=
  match levels with
  | [] => []
  | level :: rest =>
      inter_names h inter_counter 0 level ++ inter_names_all h (S inter_counter) rest
  end.

(** * Properties *)

(** ** Reasoning about computations *)

Section Computations.

Context {V : Type} {missing : Missing V}.
Local Abbreviation raises_only := (@raises_only V).
Local Abbreviation post := (@post V).
Local Open Scope py_scope.

Lemma bind_ok {A B} (m : M V A) (f : A -> M V B) h b h' :
  bind m f h = (Ok b, h') ->
  exists a h1, m h = (Ok a, h1) /\ f a h1 = (Ok b, h').
Proof.
  unfold bind. destruct (m h) as [[a | e] h1] eqn:E; intros H.
  - exists a, h1. split; [reflexivity | exact H].
  - discriminate H.
Qed.

Lemma bind_raise {A B} (m : M V A) (f : A -> M V B) h e h' :
  bind m f h = (Raise e, h') ->
  m h = (Raise e, h') \/ exists a h1, m h = (Ok a, h1) /\ f a h1 = (Raise e, h').
Proof.
  unfold bind. destruct (m h) as [[a | e0] h1] eqn:E; intros H.
  - right. exists a, h1. split; [reflexivity | exact H].
  - left. inversion H; subst. reflexivity.
Qed.

Lemma bind_step {A B} (m : M V A) (f : A -> M V B) h a h1 :
  m h = (Ok a, h1) -> bind m f h = f a h1.
Proof. intros E. unfold bind. rewrite E. reflexivity. Qed.

Lemma bind_fail {A B} (m : M V A) (f : A -> M V B) h e h1 :
  m h = (Raise e, h1) -> bind m f h = (Raise e, h1).
Proof. intros E. unfold bind. rewrite E. reflexivity. Qed.

Lemma ro_ret {A} P (a : A) : raises_only P (ret a).
Proof. intros h e h' H. discriminate H. Qed.

Lemma ro_raise {A} (P : exn -> Prop) e : P e -> raises_only P (@raise V A e).
Proof. intros HP h e' h' H. inversion H; subst. exact HP. Qed.

Lemma ro_bind {A B} P (m : M V A) (f : A -> M V B) :
  raises_only P m -> (forall a, raises_only P (f a)) -> raises_only P (bind m f).
Proof.
  intros Hm Hf h e h' H. apply bind_raise in H as [H | (a & h1 & _ & H)].
  - eapply Hm; eassumption.
  - eapply Hf; eassumption.
Qed.

Lemma ro_bind_post {A B} P (Q : heap V -> A -> heap V -> Prop) (m : M V A) (f : A -> M V B) :
  post Q m -> raises_only P m ->
  (forall a, (exists h h', Q h a h') -> raises_only P (f a)) ->
  raises_only P (bind m f).
Proof.
  intros HQ Hm Hf h e h' H. apply bind_raise in H as [H | (a & h1 & E & H)].
  - eapply Hm; eassumption.
  - eapply Hf; [ | eassumption ]. exists h, h1. apply HQ. exact E.
Qed.

Lemma ro_lift {A} (P : exn -> Prop) (r : result A) :
  (forall e, r = Raise e -> P e) -> raises_only P (@lift V A r).
Proof. intros Hr h e h' H. unfold lift in H. inversion H; subst. apply Hr. reflexivity. Qed.

Lemma ro_try_except {A} P (body handler : M V A) :
  raises_only P handler -> raises_only P (try_except body handler).
Proof.
  intros Hh h e h' H. unfold try_except in H.
  destruct (body h) as [[a | e0] h1]; [discriminate H | ].
  eapply Hh; eassumption.
Qed.

Lemma ro_weaken {A} (P Q : exn -> Prop) (m : M V A) :
  (forall e, P e -> Q e) -> raises_only P m -> raises_only Q m.
Proof. intros HPQ Hm h e h' H. apply HPQ. eapply Hm; eassumption. Qed.

Lemma ro_for_each {A B} P (body : A -> M V B) xs :
  (forall x, raises_only P (body x)) -> raises_only P (for_each body xs).
Proof.
  intros Hb. induction xs as [| x xs IH]; simpl.
  - apply ro_ret.
  - apply ro_bind; [apply Hb | intros b].
    apply ro_bind; [exact IH | intros bs; apply ro_ret].
Qed.

Lemma ro_deref P l : raises_only P (deref (V:=V) l).
Proof. intros h e h' H. discriminate H. Qed.

Lemma ro_alloc P o : raises_only P (alloc (V:=V) o).
Proof. intros h e h' H. discriminate H. Qed.

Lemma ro_fit l (X : DataFrame V) y : raises_only plain (fit l X y).
Proof.
  intros h e h' H. unfold fit in H.
  destruct (fit_method (objs h l)) as [f |]; [ | inversion H; exact I].
  destruct (f X y); inversion H; exact I.
Qed.

Lemma predict_obj_plain (o : estimator V) X e : predict_obj o X = Raise e -> plain e.
Proof.
  unfold predict_obj. destruct (predict_method o) as [p |]; [ | intros H; inversion H; exact I].
  destruct (p (fitted_on o) X); intros H; inversion H; exact I.
Qed.

Lemma ro_predict l (X : DataFrame V) : raises_only plain (predict l X).
Proof.
  intros h e h' H. unfold predict in H. inversion H. eapply predict_obj_plain; eassumption.
Qed.

Lemma ro_transform l (X : DataFrame V) : raises_only plain (transform l X).
Proof.
  intros h e h' H. unfold transform in H.
  destruct (transform_method (objs h l)) as [t |]; [ | inversion H; exact I].
  destruct (t X); inversion H; exact I.
Qed.

Lemma set_columns_plain (df : DataFrame V) names e : set_columns df names = Raise e -> plain e.
Proof.
  unfold set_columns. destruct (Nat.eqb _ _); intros H; inversion H; exact I.
Qed.

Lemma drop_first_plain (df : DataFrame V) e : drop_first df = Raise e -> plain e.
Proof.
  unfold drop_first. destruct (cols df); intros H; inversion H; exact I.
Qed.

End Computations.

Section Raising.

Context {V : Type} {missing : Missing V}.
Local Abbreviation raises_only := (@raises_only V).
Variable LinearRegression : estimator V.
Variable env : option (globals (V:=V)).
Local Open Scope py_scope.
Import sklearn.

Lemma plain_lib e : plain e -> lib e.
Proof. destruct e; simpl; tauto. Qed.

Lemma ro_global {A} P name (proj : globals -> A) :
  P (NameError name) -> raises_only P (global env name proj).
Proof.
  intros HP. unfold global. destruct env; [apply ro_ret | apply ro_raise; exact HP].
Qed.

Lemma ro_as_obj P attr i : P (AttributeError attr) -> raises_only P (as_obj (V:=V) attr i).
Proof. intros HP. destruct i; simpl; first [apply ro_ret | apply ro_raise; exact HP]. Qed.

Lemma ro_as_level P i :
  P (TypeError "object is not iterable") -> raises_only P (as_level (V:=V) i).
Proof. intros HP. destruct i; simpl; first [apply ro_ret | apply ro_raise; exact HP]. Qed.

Lemma ro_check_int P v msg : P (SystemExit msg) -> raises_only P (check_int (V:=V) v msg).
Proof. intros HP. destruct v; simpl; first [apply ro_ret | apply ro_raise; exact HP]. Qed.

Lemma ro_check_bool P v msg : P (SystemExit msg) -> raises_only P (check_bool (V:=V) v msg).
Proof. intros HP. destruct v; simpl; first [apply ro_ret | apply ro_raise; exact HP]. Qed.

Lemma ro_metrics (ytest : Series V) pred_ : raises_only plain (metrics ytest pred_).
Proof.
  unfold metrics. destruct (Nat.eqb _ _); [apply ro_ret | apply ro_raise; exact I].
Qed.

Lemma ro_monitor_name names i : raises_only plain (monitor_name (V:=V) names i).
Proof.
  unfold monitor_name. destruct (nth_error names i); [apply ro_ret | apply ro_raise; exact I].
Qed.

Lemma ro_IntProgress z : raises_only plain (IntProgress (V:=V) z).
Proof.
  unfold IntProgress. destruct (_ <? _)%Z; [apply ro_raise; exact I | apply ro_ret].
Qed.

Lemma ro_pop {A} (xs : list A) : raises_only plain (pop (V:=V) xs).
Proof. unfold pop. destruct (rev xs); [apply ro_raise; exact I | apply ro_ret]. Qed.

Lemma ro_pop0 {A} (xs : list A) : raises_only plain (pop0 (V:=V) xs).
Proof. unfold pop0. destruct xs; [apply ro_raise; exact I | apply ro_ret]. Qed.

Lemma ro_first_item items : raises_only plain (first_item (V:=V) items).
Proof. unfold first_item. destruct items; [apply ro_raise; exact I | apply ro_ret]. Qed.

Lemma ro_unbound {A} name (o : option A) : raises_only plain (unbound (V:=V) name o).
Proof. unfold unbound. destruct o; [apply ro_ret | apply ro_raise; exact I]. Qed.

Lemma ro_items_of attr a : raises_only plain (items_of (V:=V) attr a).
Proof. destruct a; simpl; first [apply ro_ret | apply ro_raise; exact I]. Qed.

Lemma fit_and_predict_plain (o : estimator V) X y fd e :
  fit_and_predict o X y fd = Raise e -> plain e.
Proof.
  unfold fit_and_predict. destruct (fit_method o) as [f |]; [ | intros H; inversion H; exact I].
  destruct (f _ _); [intros H; inversion H; exact I | ].
  apply predict_obj_plain.
Qed.

Lemma oof_with_plain folds (o : estimator V) X y e :
  oof_with folds o X y = Raise e -> plain e.
Proof.
  induction folds as [| fd folds IH]; simpl; [discriminate | ].
  destruct (fit_and_predict o X y fd) eqn:E.
  - destruct (oof_with folds o X y); [discriminate | ].
    intros H; inversion H; subst. apply IH. reflexivity.
  - intros H; inversion H; subst. eapply fit_and_predict_plain; eassumption.
Qed.

Lemma KFold_init_lib k s e : KFold_init k s = Raise e -> lib e.
Proof. unfold KFold_init. destruct (_ <=? _)%Z; intros H; inversion H; exact I. Qed.

Lemma split_lib kf n e : split kf n = Raise e -> lib e.
Proof. unfold split. destruct (_ <? _)%Z; intros H; inversion H; exact I. Qed.

Lemma ro_cross_val_predict l (X : DataFrame V) y k :
  raises_only lib (cross_val_predict l X y k).
Proof.
  unfold cross_val_predict.
  apply ro_bind; [apply ro_deref | intros o].
  apply ro_bind; [apply ro_lift, KFold_init_lib | intros cv].
  apply ro_bind; [apply ro_lift, split_lib | intros folds].
  apply ro_lift. intros e H. apply plain_lib. eapply oof_with_plain; eassumption.
Qed.

End Raising.

(** Decompose a [raises_only] goal along the structure of the computation. *)
Ltac ro_step :=
  match goal with
  | |- raises_only _ (bind _ _) => apply ro_bind; [ | intros ? ]
  | |- raises_only _ (ret _) => apply ro_ret
  | |- raises_only _ (deref _) => apply ro_deref
  | |- raises_only _ (alloc _) => apply ro_alloc
  | |- raises_only _ (try_except _ _) => apply ro_try_except
  | |- raises_only _ (all_objs _) => unfold all_objs
  | |- raises_only _ (for_each _ _) => apply ro_for_each; intros ?
  | |- raises_only _ (fun h => (Ok _, _)) => let H := fresh in intros ? ? ? H; discriminate H
  | |- raises_only _ (let '(_, _) := ?r in _) => destruct r
  | |- raises_only _ (match ?x with _ => _ end) => destruct x
  | |- raises_only _ (if ?b then _ else _) => destruct b
  end.

Ltac ro_leaf tac :=
  match goal with
  | |- raises_only _ (raise _) => apply ro_raise; tac
  | |- raises_only _ (global _ _ _) => apply ro_global; tac
  | |- raises_only _ (as_obj _ _) => apply ro_as_obj; tac
  | |- raises_only _ (as_level _) => apply ro_as_level; tac
  | |- raises_only _ (check_int _ _) => apply ro_check_int; tac
  | |- raises_only _ (check_bool _ _) => apply ro_check_bool; tac
  | |- raises_only _ (fit _ _ _) => eapply ro_weaken; [ | apply ro_fit]; tac
  | |- raises_only _ (predict _ _) => eapply ro_weaken; [ | apply ro_predict]; tac
  | |- raises_only _ (transform _ _) => eapply ro_weaken; [ | apply ro_transform]; tac
  | |- raises_only _ (metrics _ _) => eapply ro_weaken; [ | apply ro_metrics]; tac
  | |- raises_only _ (monitor_name _ _) => eapply ro_weaken; [ | apply ro_monitor_name]; tac
  | |- raises_only _ (IntProgress _) => eapply ro_weaken; [ | apply ro_IntProgress]; tac
  | |- raises_only _ (pop _) => eapply ro_weaken; [ | apply ro_pop]; tac
  | |- raises_only _ (pop0 _) => eapply ro_weaken; [ | apply ro_pop0]; tac
  | |- raises_only _ (first_item _) => eapply ro_weaken; [ | apply ro_first_item]; tac
  | |- raises_only _ (unbound _ _) => eapply ro_weaken; [ | apply ro_unbound]; tac
  | |- raises_only _ (items_of _ _) => eapply ro_weaken; [ | apply ro_items_of]; tac
  | |- raises_only _ (lift (set_columns _ _)) =>
      apply ro_lift; let e := fresh "e" in let H := fresh in
      intros e H; apply set_columns_plain in H; revert e H; tac
  | |- raises_only _ (lift (drop_first _)) =>
      apply ro_lift; let e := fresh "e" in let H := fresh in
      intros e H; apply drop_first_plain in H; revert e H; tac
  end.

Ltac ro_auto tac := repeat first [ro_step | ro_leaf tac].

Section StackModelsRaises.

Context {V : Type} {missing : Missing V}.
Local Abbreviation raises_only := (@raises_only V).
Variable LinearRegression : estimator V.
Variable env : option (globals (V:=V)).
Local Open Scope py_scope.
Import sklearn.

Lemma ro_stack_base_loop estimator_list (data_X : DataFrame V) data_y fold models_ bp :
  raises_only lib (stack_base_loop estimator_list data_X data_y fold models_ bp).
Proof.
  revert models_ bp. induction estimator_list as [| model rest IH]; intros; simpl.
  - apply ro_ret.
  - apply ro_bind; [eapply ro_weaken; [apply plain_lib | apply ro_fit] | intros _].
    apply ro_bind; [apply ro_cross_val_predict | intros base_array]. apply IH.
Qed.

Lemma ro_meta_cv_loop model (data_X : DataFrame V) data_y folds :
  raises_only plain (meta_cv_loop model data_X data_y folds).
Proof.
  induction folds as [| [train_i test_i] rest IH]; simpl.
  - apply ro_ret.
  - apply ro_bind; [apply ro_fit | intros _].
    apply ro_bind; [apply ro_predict | intros pred_].
    apply ro_bind; [apply ro_metrics | intros _]. exact IH.
Qed.

(** What the checks of [stack_models] do on the list. *)
Lemma check_items_spec (items : list item) (h : heap V) :
  for_each check_item items h =
  if existsb (fun i => rejected_type (type_of h i)) items
  then (Raise (SystemExit only_trained), h)
  else (Ok (map (fun _ => tt) items), h).
Proof.
  induction items as [| i items IH]; simpl; [reflexivity | ].
  unfold bind at 1. unfold check_item at 1.
  destruct (rejected_type (type_of h i)); simpl; [reflexivity | ].
  unfold bind. rewrite IH.
  destruct (existsb _ items); reflexivity.
Qed.

End StackModelsRaises.

Section C9.

Context {V : Type} {missing : Missing V}.
Local Abbreviation raises_only := (@raises_only V).
Variable LinearRegression : estimator V.
Variable env : option (globals (V:=V)).
Local Open Scope py_scope.
Import sklearn.

Lemma lib_other_than msg e : lib e -> other_than msg e.
Proof. intros H E. subst. exact H. Qed.

Lemma stack_models_exit_only_trained estimator_list meta_model fold round restack
    finalize verbose (h : heap V) e h' :
  stack_models LinearRegression env estimator_list meta_model fold round restack
    finalize verbose h = (Raise e, h') ->
  e = SystemExit only_trained ->
  exists i, In i (supplied estimator_list meta_model) /\ rejected_type (type_of h i) = true.
Proof.
  intros H He. unfold stack_models, stack_models_features in H.
  apply bind_raise in H as [H | (r & h1 & _ & H)].
  - apply bind_raise in H as [H | (u & h1 & E1 & H)].
    + rewrite check_items_spec in H.
      destruct (existsb _ estimator_list) eqn:Ex; [ | discriminate H].
      apply existsb_exists in Ex as (i & Hi & Hr).
      exists i. split; [unfold supplied; apply in_or_app; left; exact Hi | exact Hr].
    + rewrite check_items_spec in E1.
      destruct (existsb _ estimator_list) eqn:Ex; [discriminate E1 | ].
      inversion E1; subst h1. clear E1.
      apply bind_raise in H as [H | (u' & h1 & E2 & H)].
      * destruct meta_model as [m |]; [ | discriminate H].
        unfold check_item in H. destruct (rejected_type (type_of h m)) eqn:Hr; [ | discriminate H].
        exists m. split; [unfold supplied; apply in_or_app; right; left; reflexivity | exact Hr].
      * exfalso.
        match type of H with ?m h1 = _ =>
          assert (RO : raises_only (other_than only_trained) m) end.
        { ro_auto ltac:(try (intros; apply lib_other_than, plain_lib; assumption);
                        try (intro; discriminate)).
          all: try (eapply ro_weaken; [ | apply ro_stack_base_loop];
                    intros; apply lib_other_than; assumption). }
        subst e. eapply RO; [exact H | reflexivity].
  - exfalso.
    match type of H with ?m h1 = _ =>
      assert (RO : raises_only (other_than only_trained) m) end.
    { ro_auto ltac:(try (intros; apply lib_other_than, plain_lib; assumption);
                    try (intro; discriminate)).
      all: try (eapply ro_weaken; [ | apply ro_meta_cv_loop];
                intros; apply lib_other_than, plain_lib; assumption).
      all: try (apply ro_lift; intros e0 H0;
                first [apply KFold_init_lib in H0 | apply split_lib in H0];
                apply lib_other_than; assumption). }
    subst e. eapply RO; [exact H | reflexivity].
Qed.


Lemma stack_models_rejects estimator_list meta_model fold round restack
    finalize verbose (h : heap V) :
  (exists i, In i (supplied estimator_list meta_model) /\ rejected_type (type_of h i) = true) ->
  stack_models LinearRegression env estimator_list meta_model fold round restack
    finalize verbose h = (Raise (SystemExit only_trained), h).
Proof.
  intros (i & Hi & Hr). unfold stack_models, stack_models_features.
  destruct (existsb (fun i => rejected_type (type_of h i)) estimator_list) eqn:Ex.
  - apply bind_fail. apply bind_fail. rewrite check_items_spec, Ex. reflexivity.
  - apply bind_fail. erewrite bind_step by (rewrite check_items_spec, Ex; reflexivity).
    apply bind_fail.
    unfold supplied in Hi. apply in_app_or in Hi as [Hi | Hi].
    + exfalso. assert (T : existsb (fun i => rejected_type (type_of h i)) estimator_list = true)
        by (apply existsb_exists; exists i; split; assumption).
      congruence.
    + destruct meta_model as [m |]; [ | destruct Hi].
      destruct Hi as [<- | []]. unfold check_item. rewrite Hr. reflexivity.
Qed.

(** The same for the nested list of [create_stacknet]. *)
Lemma check_level_spec (level : list nat) (h : heap V) :
  for_each (fun j : nat => check_item (Est j)) level h =
  if existsb (fun l => rejected_type (type_str (objs h l))) level
  then (Raise (SystemExit only_trained), h)
  else (Ok (map (fun _ => tt) level), h).
Proof.
  induction level as [| j level IHl]; simpl; [reflexivity | ].
  unfold bind at 1. unfold check_item at 1. simpl.
  destruct (rejected_type (type_str (objs h j))); simpl; [reflexivity | ].
  unfold bind. rewrite IHl.
  destruct (existsb _ level); reflexivity.
Qed.

Lemma check_levels_spec (levels : list (list nat)) (h : heap V) :
  for_each (fun i => level <- as_level i ;;
                     for_each (fun j : nat => check_item (Est j)) level ;;;
                     ret level) (map Level levels) h =
  if existsb (fun l => rejected_type (type_str (objs h l))) (List.concat levels)
  then (Raise (SystemExit only_trained), h)
  else (Ok levels, h).
Proof.
  induction levels as [| level levels IH]; [reflexivity | ].
  cbn [map for_each List.concat]. rewrite existsb_app.
  assert (I : (level0 <- as_level (V:=V) (Level level) ;;
               for_each (fun j : nat => check_item (Est j)) level0 ;;; ret level0) h =
              if existsb (fun l => rejected_type (type_str (objs h l))) level
              then (Raise (SystemExit only_trained), h) else (Ok level, h)).
  { erewrite bind_step by reflexivity.
    destruct (existsb (fun l => rejected_type (type_str (objs h l))) level) eqn:E.
    - apply bind_fail. rewrite check_level_spec, E. reflexivity.
    - erewrite bind_step by (rewrite check_level_spec, E; reflexivity). reflexivity. }
  destruct (existsb (fun l => rejected_type (type_str (objs h l))) level) eqn:E; simpl.
  - apply bind_fail. exact I.
  - erewrite bind_step by exact I.
    destruct (existsb (fun l => rejected_type (type_str (objs h l))) (List.concat levels)) eqn:E2.
    + apply bind_fail. exact IH.
    + erewrite bind_step by exact IH. reflexivity.
Qed.

Lemma ro_stacknet_base_loop base_level (data_X : DataFrame V) data_y fold names c bm df :
  raises_only lib (stacknet_base_loop base_level data_X data_y fold names c bm df).
Proof.
  revert c bm df. induction base_level as [| model rest IH]; intros; simpl.
  - apply ro_ret.
  - apply ro_bind; [eapply ro_weaken; [apply plain_lib | apply ro_fit] | intros fitted].
    apply ro_bind; [eapply ro_weaken; [apply plain_lib | apply ro_monitor_name] | intros _].
    apply ro_bind; [apply ro_cross_val_predict | intros base_array]. apply IH.
Qed.

Lemma ro_inter_models_loop level (df : DataFrame V) data_y fold names ic mc inner idf :
  raises_only lib (inter_models_loop level df data_y fold names ic mc inner idf).
Proof.
  revert mc inner idf. induction level as [| model rest IH]; intros; simpl.
  - apply ro_ret.
  - apply ro_bind; [eapply ro_weaken; [apply plain_lib | apply ro_monitor_name] | intros _].
    apply ro_bind; [eapply ro_weaken; [apply plain_lib | apply ro_fit] | intros fitted].
    apply ro_bind; [apply ro_cross_val_predict | intros base_array].
    apply ro_bind; [apply ro_deref | intros o].
    apply ro_bind; [ | intros ba; apply IH].
    apply ro_lift. intros e H. apply plain_lib. eapply set_columns_plain; eassumption.
Qed.

Lemma ro_inter_levels_loop inter_level restack (data_y : Series V) fold names ic models_ df :
  raises_only lib (inter_levels_loop inter_level restack data_y fold names ic models_ df).
Proof.
  revert ic models_ df. induction inter_level as [| level rest IH]; intros; simpl.
  - apply ro_ret.
  - apply ro_bind; [apply ro_inter_models_loop | intros [inter_inner inter_array_df]].
    apply IH.
Qed.

Lemma create_stacknet_exit_only_trained levels meta_model fold round restack
    finalize verbose (h : heap V) e h' :
  create_stacknet LinearRegression env (map Level levels) meta_model fold round restack
    finalize verbose h = (Raise e, h') ->
  e = SystemExit only_trained ->
  exists i, In i (supplied (map Est (List.concat levels)) meta_model)
            /\ rejected_type (type_of h i) = true.
Proof.
  intros H He. unfold create_stacknet, create_stacknet_features in H.
  apply bind_raise in H as [H | (r & h1 & _ & H)].
  - apply bind_raise in H as [H | (u & h1 & E1 & H)].
    + rewrite check_levels_spec in H.
      destruct (existsb _ (List.concat levels)) eqn:Ex; [ | discriminate H].
      apply existsb_exists in Ex as (l & Hl & Hr).
      exists (Est l). split; [ | exact Hr].
      unfold supplied. apply in_or_app. left. apply in_map. exact Hl.
    + rewrite check_levels_spec in E1.
      destruct (existsb _ (List.concat levels)) eqn:Ex; [discriminate E1 | ].
      inversion E1; subst h1 u. clear E1.
      apply bind_raise in H as [H | (u' & h1 & E2 & H)].
      * destruct meta_model as [m |]; [ | discriminate H].
        unfold check_item in H. destruct (rejected_type (type_of h m)) eqn:Hr; [ | discriminate H].
        exists m. split; [unfold supplied; apply in_or_app; right; left; reflexivity | exact Hr].
      * exfalso.
        match type of H with ?m h1 = _ =>
          assert (RO : raises_only (other_than only_trained) m) end.
        { ro_auto ltac:(try (intros; apply lib_other_than, plain_lib; assumption);
                        try (intro; discriminate)).
          all: try (eapply ro_weaken; [ | first [apply ro_stacknet_base_loop
                                                | apply ro_inter_levels_loop]];
                    intros; apply lib_other_than; assumption). }
        subst e. eapply RO; [exact H | reflexivity].
  - exfalso.
    match type of H with ?m h1 = _ =>
      assert (RO : raises_only (other_than only_trained) m) end.
    { ro_auto ltac:(try (intros; apply lib_other_than, plain_lib; assumption);
                    try (intro; discriminate)).
      all: try (eapply ro_weaken; [ | apply ro_meta_cv_loop];
                intros; apply lib_other_than, plain_lib; assumption).
      all: try (apply ro_lift; intros e0 H0;
                first [apply KFold_init_lib in H0 | apply split_lib in H0];
                apply lib_other_than; assumption). }
    subst e. eapply RO; [exact H | reflexivity].
Qed.

Lemma create_stacknet_rejects levels meta_model fold round restack
    finalize verbose (h : heap V) :
  (exists i, In i (supplied (map Est (List.concat levels)) meta_model)
             /\ rejected_type (type_of h i) = true) ->
  create_stacknet LinearRegression env (map Level levels) meta_model fold round restack
    finalize verbose h = (Raise (SystemExit only_trained), h).
Proof.
  intros (i & Hi & Hr). unfold create_stacknet, create_stacknet_features.
  destruct (existsb (fun l => rejected_type (type_str (objs h l))) (List.concat levels)) eqn:Ex.
  - apply bind_fail. apply bind_fail. rewrite check_levels_spec, Ex. reflexivity.
  - apply bind_fail. erewrite bind_step by (rewrite check_levels_spec, Ex; reflexivity).
    apply bind_fail.
    unfold supplied in Hi. apply in_app_or in Hi as [Hi | Hi].
    + exfalso. apply in_map_iff in Hi as (l & <- & Hl).
      assert (T : existsb (fun l => rejected_type (type_str (objs h l))) (List.concat levels) = true)
        by (apply existsb_exists; exists l; split; assumption).
      congruence.
    + destruct meta_model as [m |]; [ | destruct Hi].
      destruct Hi as [<- | []]. unfold check_item. rewrite Hr. reflexivity.
Qed.

End C9.

(** Take a successful run apart, one [bind] at a time. *)
Tactic Notation "inv_ok" hyp(H) "as" ident(a) ident(h1) ident(E) :=
  apply bind_ok in H as (a & h1 & E & H).

Section Shapes.

Context {V : Type} {missing : Missing V}.
Variable LinearRegression : estimator V.
Variable env : option (globals (V:=V)).
Local Open Scope py_scope.
Import sklearn.

Lemma ret_ok {A} (a b : A) (h h' : heap V) : ret a h = (Ok b, h') -> a = b /\ h = h'.
Proof. intros H. inversion H. split; reflexivity. Qed.

Lemma fit_ok l (X : DataFrame V) y h l' h' :
  fit l X y h = (Ok l', h') ->
  l' = l /\ h' = update h l (set_fitted (objs h l) (Some (X, y))).
Proof.
  unfold fit. destruct (fit_method (objs h l)) as [f |]; [ | discriminate].
  destruct (f X y); [discriminate | ]. intros H; inversion H. split; reflexivity.
Qed.

Lemma as_obj_ok attr i (h : heap V) l h' :
  as_obj attr i h = (Ok l, h') -> i = Est l /\ h' = h.
Proof. destruct i; simpl; intros H; inversion H. split; reflexivity. Qed.

Lemma all_objs_ok items (h : heap V) ls h' :
  all_objs items h = (Ok ls, h') -> items = map Est ls /\ h' = h.
Proof.
  unfold all_objs. revert ls h'. induction items as [| i items IH]; simpl; intros ls h' H.
  - inversion H. split; reflexivity.
  - inv_ok H as l h1 E. inv_ok H as ls' h2 E0. apply ret_ok in H as [<- ->].
    apply as_obj_ok in E as [-> ->]. apply IH in E0 as [-> ->]. split; reflexivity.
Qed.

Lemma check_int_ok v msg (h : heap V) z h' :
  check_int v msg h = (Ok z, h') -> v = Py.Int z /\ h' = h.
Proof. destruct v; simpl; intros H; inversion H. split; reflexivity. Qed.

Lemma check_bool_ok v msg (h : heap V) b h' :
  check_bool v msg h = (Ok b, h') -> v = Py.Bool b /\ h' = h.
Proof. destruct v; simpl; intros H; inversion H. split; reflexivity. Qed.

Lemma IntProgress_ok z (h : heap V) u h' :
  IntProgress z h = (Ok u, h') -> (0 <= z)%Z /\ h' = h.
Proof.
  unfold IntProgress. destruct (z <? 0)%Z eqn:Ez; intros H; inversion H.
  apply Z.ltb_ge in Ez. split; [exact Ez | reflexivity].
Qed.

Lemma IntProgress_pass z (h : heap V) : (0 <= z)%Z -> IntProgress z h = (Ok tt, h).
Proof.
  intros Hz. unfold IntProgress. apply Z.ltb_ge in Hz. rewrite Hz. reflexivity.
Qed.

Lemma IntProgress_refuse z (h : heap V) : (z < 0)%Z -> IntProgress z h = (Raise TraitError, h).
Proof.
  intros Hz. unfold IntProgress. apply Z.ltb_lt in Hz. rewrite Hz. reflexivity.
Qed.

Lemma stack_base_loop_models estimator_list (data_X : DataFrame V) data_y fold models_ bp
    h models' bp' h' :
  stack_base_loop estimator_list data_X data_y fold models_ bp h = (Ok (models', bp'), h') ->
  models' = models_ ++ map Est estimator_list.
Proof.
  revert models_ bp h. induction estimator_list as [| model rest IH]; simpl; intros models_ bp h H.
  - inversion H. rewrite app_nil_r. reflexivity.
  - inv_ok H as u h1 E. inv_ok H as ba h2 E0.
    apply IH in H. rewrite H, <- app_assoc. reflexivity.
Qed.

(** What a successful [stack_models] returns. *)
Lemma stack_models_shape estimator_list meta_model fold round restack finalize verbose
    (h : heap V) c h' :
  stack_models LinearRegression env estimator_list meta_model fold round restack
    finalize verbose h = (Ok c, h') ->
  exists ls meta b,
    estimator_list = map Est ls /\ restack = Py.Bool b /\
    (meta_model = Some (Est meta) \/ (meta_model = None /\ meta = next h)) /\
    c = estimator_list ++ [Est meta; Flag b].
Proof.
  intros H. unfold stack_models in H. inv_ok H as r0 hf E.
  destruct r0 as [[[[[models_ meta] data_X] data_y] k] b].
  unfold stack_models_features in E.
  inv_ok E as u0 h1 E0. rewrite check_items_spec in E0.
  destruct (existsb _ estimator_list); [discriminate E0 | ]. inversion E0; subst h1 u0. clear E0.
  inv_ok E as u1 h1 E0. assert (h1 = h) as ->.
  { destruct meta_model as [m |]; [ | inversion E0; reflexivity].
    unfold check_item in E0. destruct (rejected_type _); inversion E0; reflexivity. }
  clear E0 u1.
  inv_ok E as k0 h1 E0. apply check_int_ok in E0 as [-> ->].
  inv_ok E as rd h1 E0. apply check_int_ok in E0 as [_ ->].
  inv_ok E as b0 h1 E0. apply check_bool_ok in E0 as [-> ->].
  inv_ok E as vb h1 E0. apply check_bool_ok in E0 as [_ ->].
  inv_ok E as pg h1 E0. apply IntProgress_ok in E0 as [_ ->].
  inv_ok E as a3 h1 E0. apply all_objs_ok in E0 as [-> ->].
  inv_ok E as a4 h1 E0.
  assert (Hm : (meta_model = Some (Est a4) \/ (meta_model = None /\ a4 = next h))).
  { destruct meta_model as [m |].
    - apply as_obj_ok in E0 as [-> _]. left. reflexivity.
    - inversion E0. right. split; reflexivity. }
  clear E0.
  inv_ok E as data_X0 h2 EX. inv_ok E as data_y0 h3 Ey. inv_ok E as hh h4 Eh.
  inv_ok E as r h5 Eloop. destruct r as [models' bp'].
  apply stack_base_loop_models in Eloop. simpl in Eloop. subst models'.
  inv_ok E as tc h6 Et. inv_ok E as bp1 h7 Es. inv_ok E as bp2 h8 Ed.
  inv_ok E as u h9 Ed2. apply ret_ok in E as [E _].
  inversion E; subst. clear E.
  inv_ok H as u1 h10 Ef. inv_ok H as sd h11 Esd. inv_ok H as kf h12 Ek.
  inv_ok H as folds h13 Esp. inv_ok H as u2 h14 Ecv. apply ret_ok in H as [<- _].
  exists a3, meta, b. repeat split; try assumption.
  rewrite <- app_assoc. reflexivity.
Qed.


Lemma check_item_ok i (h : heap V) u h' : check_item i h = (Ok u, h') -> h' = h.
Proof. unfold check_item. destruct (rejected_type _); intros H; inversion H; reflexivity. Qed.

Lemma check_objs_ok (level : list nat) (h : heap V) us h' :
  for_each (fun j : nat => check_item (Est j)) level h = (Ok us, h') -> h' = h.
Proof.
  revert us. induction level as [| j level IH]; simpl; intros us H.
  - inversion H; reflexivity.
  - inv_ok H as u h1 E. inv_ok H as us' h2 E0. apply ret_ok in H as [_ <-].
    apply check_item_ok in E as ->. eapply IH; eassumption.
Qed.

Lemma check_levels_ok (estimator_list : list item) (h : heap V) levels h' :
  for_each (fun i => level <- as_level i ;;
                     for_each (fun j : nat => check_item (Est j)) level ;;;
                     ret level) estimator_list h = (Ok levels, h') ->
  estimator_list = map Level levels /\ h' = h.
Proof.
  revert levels h'. induction estimator_list as [| i rest IH]; simpl; intros levels h' H.
  - inversion H. split; reflexivity.
  - inv_ok H as level h1 E. inv_ok H as levels' h2 E0. apply ret_ok in H as [<- <-].
    inv_ok E as level0 h3 El. inv_ok E as us h4 Ec. apply ret_ok in E as [<- <-].
    destruct i; simpl in El; inversion El; subst.
    apply check_objs_ok in Ec as ->.
    apply IH in E0 as [-> ->]. split; reflexivity.
Qed.

Lemma stacknet_base_loop_models base_level (data_X : DataFrame V) data_y fold names c bm df
    h bm' df' h' :
  stacknet_base_loop base_level data_X data_y fold names c bm df h = (Ok (bm', df'), h') ->
  bm' = bm ++ base_level.
Proof.
  revert c bm df h. induction base_level as [| model rest IH]; simpl; intros c bm df h H.
  - inversion H. rewrite app_nil_r. reflexivity.
  - inv_ok H as fitted h1 Ef. inv_ok H as u h2 Em. inv_ok H as ba h3 Ec.
    apply fit_ok in Ef as [-> _].
    apply IH in H. rewrite H, <- app_assoc. reflexivity.
Qed.

Lemma inter_models_loop_models level (df : DataFrame V) data_y fold names ic mc inner idf
    h inner' idf' h' :
  inter_models_loop level df data_y fold names ic mc inner idf h = (Ok (inner', idf'), h') ->
  inner' = inner ++ level.
Proof.
  revert mc inner idf h. induction level as [| model rest IH]; simpl; intros mc inner idf h H.
  - inversion H. rewrite app_nil_r. reflexivity.
  - inv_ok H as u h1 Em. inv_ok H as fitted h2 Ef. inv_ok H as ba h3 Ec.
    inv_ok H as o h4 Eo. inv_ok H as ba' h5 Es.
    apply fit_ok in Ef as [-> _].
    apply IH in H. rewrite H, <- app_assoc. reflexivity.
Qed.

Lemma inter_levels_loop_models inter_level restack (data_y : Series V) fold names ic models_ df
    h models' df' h' :
  inter_levels_loop inter_level restack data_y fold names ic models_ df h
    = (Ok (models', df'), h') ->
  models' = models_ ++ map Level inter_level.
Proof.
  revert ic models_ df h. induction inter_level as [| level rest IH]; simpl;
    intros ic models_ df h H.
  - inversion H. rewrite app_nil_r. reflexivity.
  - inv_ok H as r h1 El. destruct r as [inter_inner inter_array_df].
    apply inter_models_loop_models in El. simpl in El. subst inter_inner.
    apply IH in H. rewrite H, <- app_assoc. reflexivity.
Qed.

(** What a successful [create_stacknet] returns. *)
Lemma create_stacknet_shape estimator_list meta_model fold round restack finalize verbose
    (h : heap V) c h' :
  create_stacknet LinearRegression env estimator_list meta_model fold round restack
    finalize verbose h = (Ok c, h') ->
  exists levels meta b,
    estimator_list = map Level levels /\ restack = Py.Bool b /\
    (meta_model = Some (Est meta) \/ (meta_model = None /\ meta = next h)) /\
    c = estimator_list ++ [Est meta; Flag b].
Proof.
  intros H. unfold create_stacknet in H. inv_ok H as r0 hf E.
  destruct r0 as [[[[[models_ meta] data_X] data_y] k] b].
  unfold create_stacknet_features in E.
  inv_ok E as levels h1 E0. apply check_levels_ok in E0 as [-> ->].
  inv_ok E as u1 h1 E0. assert (h1 = h) as ->.
  { destruct meta_model as [m |]; [ | inversion E0; reflexivity].
    eapply check_item_ok; eassumption. }
  clear E0 u1.
  inv_ok E as k0 h1 E0. apply check_int_ok in E0 as [-> ->].
  inv_ok E as rd h1 E0. apply check_int_ok in E0 as [_ ->].
  inv_ok E as b0 h1 E0. apply check_bool_ok in E0 as [-> ->].
  inv_ok E as vb h1 E0. apply check_bool_ok in E0 as [_ ->].
  inv_ok E as pg h1 E0. apply IntProgress_ok in E0 as [_ ->].
  inv_ok E as base_level h1 E0.
  destruct levels as [| base levels]; [discriminate E0 | ].
  apply ret_ok in E0 as [<- <-].
  inv_ok E as hh h1 Eh. inversion Eh; subst hh h1. clear Eh.
  inv_ok E as data_X0 h2 EX. inv_ok E as data_y0 h3 Ey.
  assert (h3 = h) as ->.
  { unfold global in EX, Ey. destruct env; destruct finalize;
      inversion EX; inversion Ey; subst; reflexivity. }
  inv_ok E as a4 h1 E0.
  assert (Hm : (meta_model = Some (Est a4) \/ (meta_model = None /\ a4 = next h))).
  { destruct meta_model as [m |].
    - apply as_obj_ok in E0 as [-> _]. left. reflexivity.
    - inversion E0. right. split; reflexivity. }
  clear E0.
  inv_ok E as r h5 Eloop. destruct r as [base_models_ base_array_df].
  apply stacknet_base_loop_models in Eloop. simpl in Eloop. subst base_models_.
  inv_ok E as df1 h6 Es.
  inv_ok E as r h7 Ei. destruct r as [models' df2].
  apply inter_levels_loop_models in Ei. simpl in Ei. subst models'.
  apply ret_ok in E as [E _]. inversion E; subst. clear E.
  inv_ok H as m' h10 Ef. apply fit_ok in Ef as [-> _].
  inv_ok H as sd h11 Esd. inv_ok H as kf h12 Ek.
  inv_ok H as folds h13 Esp. inv_ok H as u2 h14 Ecv. apply ret_ok in H as [<- _].
  exists (base :: levels), meta, b. repeat split; try assumption.
Qed.

End Shapes.

Section Stores.

Context {V : Type} {missing : Missing V}.
Local Abbreviation same_objs := (@same_objs V).
Local Open Scope py_scope.
Import sklearn.

Lemma set_fitted_id (o : estimator V) : set_fitted o (fitted_on o) = o.
Proof. destruct o; reflexivity. Qed.

Lemma set_fitted_twice (o : estimator V) d d' :
  set_fitted (set_fitted o d) d' = set_fitted o d'.
Proof. reflexivity. Qed.

Lemma same_objs_refl h : same_objs h h.
Proof. intros l. exists (fitted_on (objs h l)). rewrite set_fitted_id. reflexivity. Qed.

Lemma same_objs_trans h1 h2 h3 : same_objs h1 h2 -> same_objs h2 h3 -> same_objs h1 h3.
Proof.
  intros H12 H23 l. destruct (H12 l) as [d E]. destruct (H23 l) as [d' E'].
  exists d'. rewrite E', E. reflexivity.
Qed.

Lemma same_objs_str h h' l : same_objs h h' -> obj_str (objs h' l) = obj_str (objs h l).
Proof. intros H. destruct (H l) as [d E]. rewrite E. reflexivity. Qed.

Lemma fit_same_objs l (X : DataFrame V) y h l' h' :
  fit l X y h = (Ok l', h') -> same_objs h h'.
Proof.
  intros H. apply fit_ok in H as [_ ->]. intros l0. unfold update. simpl.
  destruct (Nat.eqb l0 l) eqn:E.
  - apply Nat.eqb_eq in E. subst l0. eexists. reflexivity.
  - exists (fitted_on (objs h l0)). rewrite set_fitted_id. reflexivity.
Qed.

Lemma predict_heap l (X : DataFrame V) h r h' : predict l X h = (r, h') -> h' = h.
Proof. unfold predict. intros H. inversion H. reflexivity. Qed.

Lemma lift_ok {A} (r : result A) (h : heap V) a h' :
  lift r h = (Ok a, h') -> r = Ok a /\ h' = h.
Proof. unfold lift. intros H. inversion H. split; reflexivity. Qed.

Lemma deref_ok l (h : heap V) o h' : deref l h = (Ok o, h') -> o = objs h l /\ h' = h.
Proof. unfold deref. intros H. inversion H. split; reflexivity. Qed.

(** [cross_val_predict] reads the store and leaves it as it is: on the
    folds the splitter yields it returns the out-of-fold predictions. *)
Lemma cross_val_predict_ok l (X : DataFrame V) y k h p h' :
  cross_val_predict l X y k h = (Ok p, h') ->
  h' = h /\
  exists cv folds, KFold_init k None = Ok cv /\ split cv (n_samples X) = Ok folds /\
                   oof_with folds (objs h l) X y = Ok p.
Proof.
  unfold cross_val_predict. intros H.
  inv_ok H as o h1 Eo. apply deref_ok in Eo as [-> ->].
  inv_ok H as cv h1 Ec. apply lift_ok in Ec as [Ec ->].
  inv_ok H as folds h1 Es. apply lift_ok in Es as [Es ->].
  apply lift_ok in H as [H ->].
  split; [reflexivity | ]. exists cv, folds. repeat split; assumption.
Qed.

Lemma fit_and_predict_set_fitted (o : estimator V) d X y fd :
  fit_and_predict (set_fitted o d) X y fd = fit_and_predict o X y fd.
Proof. reflexivity. Qed.

Lemma oof_with_set_fitted folds (o : estimator V) d X y :
  oof_with folds (set_fitted o d) X y = oof_with folds o X y.
Proof.
  induction folds as [| fd folds IH]; simpl; [reflexivity | ].
  rewrite fit_and_predict_set_fitted, IH. reflexivity.
Qed.

Lemma oof_with_same_objs folds h h' l (X : DataFrame V) y :
  same_objs h h' -> oof_with folds (objs h' l) X y = oof_with folds (objs h l) X y.
Proof. intros H. destruct (H l) as [d E]. rewrite E. apply oof_with_set_fitted. Qed.

End Stores.

Section TableFacts.

Context {V : Type} {missing : Missing V}.

Lemma grow_0 (c : Series V) : grow 0 c = c.
Proof. destruct c as [n a]. unfold grow. simpl. rewrite app_nil_r. reflexivity. Qed.

Lemma grow_grow d d' (c : Series V) : grow d' (grow d c) = grow (d + d') c.
Proof. unfold grow. simpl. rewrite <- app_assoc, repeat_app. reflexivity. Qed.

Lemma map_grow_0 (cs : list (Series V)) : map (grow 0) cs = cs.
Proof. rewrite (map_ext _ (fun c => c) grow_0). apply map_id. Qed.

Lemma map_grow_grow d d' (cs : list (Series V)) :
  map (grow d') (map (grow d) cs) = map (grow (d + d')) cs.
Proof. rewrite map_map. apply map_ext. intros c. apply grow_grow. Qed.

Lemma fst_grow d (c : Series V) : fst (grow d c) = fst c.
Proof. reflexivity. Qed.

Lemma reindex_same (df : DataFrame V) : reindex (nrows df) df = cols df.
Proof. unfold reindex. rewrite Nat.sub_diag. apply map_grow_0. Qed.

Lemma columns_reindex n (df : DataFrame V) : map fst (reindex n df) = columns df.
Proof. unfold reindex, columns. rewrite map_map. reflexivity. Qed.

Lemma length_reindex n (df : DataFrame V) : length (reindex n df) = length (cols df).
Proof. unfold reindex. apply length_map. Qed.

Lemma nrows_concat (a b : DataFrame V) : nrows (concat a b) = Nat.max (nrows a) (nrows b).
Proof. reflexivity. Qed.

Lemma cols_concat (a b : DataFrame V) :
  cols (concat a b)
  = reindex (Nat.max (nrows a) (nrows b)) a ++ reindex (Nat.max (nrows a) (nrows b)) b.
Proof. reflexivity. Qed.

Lemma columns_concat (a b : DataFrame V) : columns (concat a b) = columns a ++ columns b.
Proof.
  unfold columns at 1. rewrite cols_concat, map_app, !columns_reindex. reflexivity.
Qed.

Lemma shape1_concat (a b : DataFrame V) : shape1 (concat a b) = shape1 a + shape1 b.
Proof. unfold shape1. rewrite cols_concat, length_app, !length_reindex. reflexivity. Qed.

(** Side by side, two frames of as many rows keep their columns as they
    are. *)
Lemma concat_same_rows (a b : DataFrame V) :
  nrows a = nrows b ->
  concat a b = {| nrows := nrows a; cols := cols a ++ cols b |}.
Proof.
  intros E. unfold concat. cbv zeta. rewrite <- E, Nat.max_id.
  rewrite reindex_same. unfold reindex. rewrite <- E, Nat.sub_diag, map_grow_0. reflexivity.
Qed.

End TableFacts.

Section Folds.

Context {V : Type} {missing : Missing V}.
Local Abbreviation same_objs := (@same_objs V).
Local Open Scope py_scope.
Import sklearn.

Lemma stack_base_loop_oof cv folds estimator_list (X : DataFrame V) y k ms bp h ms' bp' h' :
  KFold_init k None = Ok cv -> split cv (n_samples X) = Ok folds ->
  stack_base_loop estimator_list X y k ms bp h = (Ok (ms', bp'), h') ->
  same_objs h h' /\
  nrows bp <= nrows bp' /\
  exists oof, cols bp' = map (grow (nrows bp' - nrows bp)) (cols bp) ++ oof /\
              Forall2 (fun l c => exists p,
                           oof_with folds (objs h l) X y = Ok p
                           /\ c = (Pos 0, p ++ repeat NaN (nrows bp' - length p)))
                      estimator_list oof.
Proof.
  intros Hcv Hsp. revert ms bp h.
  induction estimator_list as [| model rest IH]; simpl; intros ms bp h H.
  - inversion H; subst. split; [apply same_objs_refl | ]. split; [apply Nat.le_refl | ].
    exists []. rewrite app_nil_r, Nat.sub_diag, map_grow_0. split; [reflexivity | constructor].
  - inv_ok H as u h1 Ef. apply fit_same_objs in Ef.
    inv_ok H as p h2 Ec. apply cross_val_predict_ok in Ec as [-> (cv' & folds' & Hcv' & Hsp' & Ho)].
    rewrite Hcv in Hcv'. inversion Hcv'; subst cv'.
    rewrite Hsp in Hsp'. inversion Hsp'; subst folds'.
    apply IH in H as (Hs & Hn & oof & Hc & Hf).
    rewrite nrows_concat in Hn, Hc. simpl nrows in Hn, Hc.
    split; [eapply same_objs_trans; eassumption | ].
    split; [lia | ].
    exists ((Pos 0, p ++ repeat NaN (nrows bp' - length p)) :: oof). split.
    + rewrite Hc, cols_concat, map_app. simpl nrows. unfold reindex at 1 2. simpl cols.
      rewrite map_grow_grow. simpl map. rewrite grow_grow. unfold grow at 2. simpl fst. simpl snd.
      rewrite <- app_assoc. simpl app.
      replace (Nat.max (nrows bp) (length p) - nrows bp
               + (nrows bp' - Nat.max (nrows bp) (length p)))
        with (nrows bp' - nrows bp) by lia.
      replace (Nat.max (nrows bp) (length p) - length p
               + (nrows bp' - Nat.max (nrows bp) (length p)))
        with (nrows bp' - length p) by lia.
      reflexivity.
    + constructor.
      * exists p. split; [ | reflexivity].
        rewrite <- Ho. symmetry. apply oof_with_same_objs. exact Ef.
      * eapply Forall2_impl; [ | exact Hf]. intros l c (q & Hq & Hc'). simpl in Hq.
        exists q. split; [ | exact Hc'].
        rewrite <- Hq. symmetry. apply oof_with_same_objs. exact Ef.
Qed.

Lemma stack_base_loop_splits model rest (X : DataFrame V) y k ms bp h r h' :
  stack_base_loop (model :: rest) X y k ms bp h = (Ok r, h') ->
  exists cv folds, KFold_init k None = Ok cv /\ split cv (n_samples X) = Ok folds.
Proof.
  simpl. intros H. inv_ok H as u h1 Ef. inv_ok H as p h2 Ec.
  apply cross_val_predict_ok in Ec as [_ (cv & folds & Hcv & Hsp & _)].
  exists cv, folds. split; assumption.
Qed.

Lemma KFold_init_unseeded k cv : KFold_init k None = Ok cv -> random_state cv = None.
Proof.
  unfold KFold_init. destruct (k <=? 1)%Z; [discriminate | ].
  intros H. inversion H. reflexivity.
Qed.

End Folds.

Section Levels.

Context {V : Type} {missing : Missing V}.
Local Abbreviation same_objs := (@same_objs V).
Local Abbreviation inter_names := (@inter_names V).
Variable LinearRegression : estimator V.
Variable env : option (globals (V:=V)).
Local Open Scope py_scope.
Import sklearn.

Lemma inter_col_str (o o' : estimator V) i j :
  obj_str o = obj_str o' -> inter_col o i j = inter_col o' i j.
Proof. intros E. unfold inter_col. rewrite E. reflexivity. Qed.

Lemma inter_names_same_objs h h' ic from level :
  same_objs h h' -> inter_names h' ic from level = inter_names h ic from level.
Proof.
  intros H. unfold inter_names. apply map_ext. intros [j l].
  f_equal. apply inter_col_str. apply same_objs_str. exact H.
Qed.

Lemma set_columns_one (a : list V) name :
  set_columns (frame_of_array a) [Name name] = Ok {| nrows := length a; cols := [(Name name, a)] |}.
Proof. reflexivity. Qed.

Lemma inter_models_loop_columns level (df : DataFrame V) data_y fold names ic mc inner idf
    h inner' idf' h' :
  inter_models_loop level df data_y fold names ic mc inner idf h = (Ok (inner', idf'), h') ->
  same_objs h h' /\ columns idf' = columns idf ++ inter_names h' ic mc level.
Proof.
  revert mc inner idf h. induction level as [| model rest IH]; simpl; intros mc inner idf h H.
  - inversion H; subst. split; [apply same_objs_refl | ].
    unfold inter_names. simpl. rewrite app_nil_r. reflexivity.
  - inv_ok H as u h1 Em.
    assert (h1 = h) as ->.
    { unfold monitor_name in Em. destruct (nth_error names ic); inversion Em; reflexivity. }
    inv_ok H as fitted h2 Ef. pose proof (fit_same_objs _ _ _ _ _ _ Ef) as S1.
    apply fit_ok in Ef as [-> _].
    inv_ok H as ba h3 Ec. apply cross_val_predict_ok in Ec as [-> _].
    inv_ok H as o h4 Eo. apply deref_ok in Eo as [-> ->].
    inv_ok H as ba' h5 Es. apply lift_ok in Es as [Es ->].
    rewrite set_columns_one in Es. inversion Es; subst ba'. clear Es.
    apply IH in H as [S2 Hc].
    split; [eapply same_objs_trans; eassumption | ].
    rewrite Hc, columns_concat. unfold columns at 2. simpl.
    rewrite <- app_assoc. simpl. f_equal. unfold inter_names. simpl. f_equal.
    f_equal. apply inter_col_str. symmetry. apply same_objs_str. exact S2.
Qed.

Lemma inter_names_length h ic from level : length (inter_names h ic from level) = length level.
Proof.
  unfold inter_names. rewrite length_map. revert from.
  induction level as [| l level IH]; simpl; intros from; [reflexivity | ].
  rewrite IH. reflexivity.
Qed.

(** With [restack = False] the table carried forward after an
    intermediate level holds that level's new columns and nothing else. *)
Lemma inter_levels_loop_no_restack pre level (data_y : Series V) fold names ic models_ df
    h models' df' h' :
  inter_levels_loop (pre ++ [level]) false data_y fold names ic models_ df h
    = (Ok (models', df'), h') ->
  columns df' = inter_names h' (ic + length pre) 0 level.
Proof.
  revert ic models_ df h. induction pre as [| lv pre IH]; simpl; intros ic models_ df h H.
  - inv_ok H as r h1 El. destruct r as [inter_inner inter_array_df].
    apply inter_models_loop_columns in El as [_ Hc]. simpl in Hc.
    apply ret_ok in H as [H <-]. inversion H; subst. clear H.
    rewrite Nat.add_0_r.
    assert (L : length (cols inter_array_df) = length level).
    { transitivity (length (columns inter_array_df)).
      - unfold columns. symmetry. apply length_map.
      - rewrite Hc. apply inter_names_length. }
    unfold columns at 1, iloc_cols_from. simpl cols.
    rewrite shape1_concat. unfold shape1. rewrite L, Nat.add_sub.
    rewrite <- (length_reindex (Nat.max (nrows df) (nrows inter_array_df)) df) at 1.
    rewrite skipn_app, skipn_all, Nat.sub_diag. simpl.
    rewrite columns_reindex. exact Hc.
  - inv_ok H as r h1 El. destruct r as [inter_inner inter_array_df].
    apply IH in H. rewrite H. f_equal. lia.
Qed.

End Levels.

(** Whenever [create_stacknet] with [restack = False] gets as far as the
    table for the meta estimator, that table has exactly the columns of
    the last intermediate level, one per estimator of the level, in their
    order and under the names [create_stacknet] gives them: the columns of
    the base level and of the levels before are dropped. *)
Theorem create_stacknet_no_restack_keeps_last_level :
  forall (V : Type) {missing : Missing V} (LinearRegression : estimator V) (env : option globals)
         (base : list nat) (pre : list (list nat)) (level : list nat)
         (meta_model : option item) (fold round : Py.value) (finalize : bool)
         (verbose : Py.value) (h : heap V)
         (models_ : list item) (m : nat) (table : DataFrame V) (y : Series V) (k : Z)
         (b : bool) (h' : heap V),
    create_stacknet_features LinearRegression env (map Level (base :: pre ++ [level]))
      meta_model fold round (Py.Bool false) finalize verbose h
      = (Ok (models_, m, table, y, k, b), h') ->
    columns table = inter_names h' (length pre) 0 level
    /\ shape1 table = length level.
Proof.
  intros V missing LinearRegression env base pre level meta_model fold round finalize verbose h
         models_ m table y k b h' H.
  assert (C : columns table = inter_names h' (length pre) 0 level).
  { unfold create_stacknet_features in H.
    inv_ok H as levels h1 E0. apply check_levels_ok in E0 as [E0 ->].
    apply (f_equal (map (fun i => match i with Level ls => ls | _ => [] end))) in E0.
    rewrite !map_map in E0. rewrite !map_id in E0. subst levels.
    inv_ok H as u1 h1 E0. clear E0.
    inv_ok H as k0 h2 E0. clear E0.
    inv_ok H as rd h3 E0. clear E0.
    inv_ok H as b0 h4 E0. apply check_bool_ok in E0 as [E0 _]. inversion E0; subst b0. clear E0.
    inv_ok H as vb h5 E0. clear E0.
    inv_ok H as pg hpg E0. clear E0.
    inv_ok H as base_level h6 E0. clear E0.
    inv_ok H as hh h7 Eh. clear Eh.
    inv_ok H as data_X0 h8 EX. clear EX. inv_ok H as data_y0 h9 Ey. clear Ey.
    inv_ok H as a4 h10 E0. clear E0.
    inv_ok H as r h11 Eloop. destruct r as [base_models_ base_array_df]. clear Eloop.
    inv_ok H as df1 h12 Es. clear Es.
    inv_ok H as r h13 Ei. destruct r as [models' df2].
    apply ret_ok in H as [H <-]. inversion H; subst. clear H.
    simpl in Ei. apply inter_levels_loop_no_restack in Ei. exact Ei. }
  split; [exact C | ].
  unfold shape1. rewrite <- (inter_names_length h' (length pre) 0 level), <- C.
  unfold columns. symmetry. apply length_map.
Qed.

Lemma create_stacknet_no_restack_keeps_last_level_witness :
  exists table : DataFrame Z,
    columns table = [Name "KNeighborsRegressor_InterLevel_0_0"] /\ shape1 table = 1.
Proof.
  pose (r := create_stacknet_features Demo.linreg (Some Demo.g)
               (map Level ([2; 0] :: [] ++ [[3]])) None (Py.Int 2) (Py.Int 4)
               (Py.Bool false) false (Py.Bool true) Demo.h0).
  assert (E : r = (fst r, snd r)) by (destruct r; reflexivity).
  destruct (fst r) as [[[[[[models_ m] table] y] k] b] | e] eqn:F; [ | vm_compute in F; discriminate F].
  exists table.
  destruct (create_stacknet_no_restack_keeps_last_level Z Demo.linreg (Some Demo.g) [2; 0] [] [3]
              None (Py.Int 2) (Py.Int 4) false (Py.Bool true) Demo.h0
              models_ m table y k b (snd r) E) as [C S].
  split; [ | exact S].
  rewrite C. vm_compute. reflexivity.
Defined.

(** C4. The layers [[A, B], [C]] of the claim, with [restack = False] and
    two base estimators neither of which is a CatBoost, do not reach the
    table of the meta estimator: the [else] that belongs to the [for] loop
    (lines 4349-4354) leaves one base name for two base estimators, and the
    call stops with an [IndexError] when it reads the name of the second
    (line 4418).  With a CatBoost in front of the base level the same
    layers go through, and the table handed to the meta estimator is the
    one out-of-fold column of C. *)
Lemma C4_scenario_stops_at_the_base_names :
  fst (create_stacknet Demo.linreg (Some Demo.g) [Level [0; 1]; Level [3]] None
         (Py.Int 2) (Py.Int 4) (Py.Bool false) false (Py.Bool true) Demo.h0)
  = Raise IndexError
  /\ base_level_names_of Demo.h0 [0; 1] = ["Ridge"; "Lasso"]
  /\ base_level_fixed_train "" (base_level_names_of Demo.h0 [0; 1]) = ["Lasso"]
  /\ fst (create_stacknet_features Demo.linreg (Some Demo.g) [Level [2; 0]; Level [3]] None
            (Py.Int 2) (Py.Int 4) (Py.Bool false) false (Py.Bool true) Demo.h0)
     = Ok ([Level [2; 0]; Level [3]], 8,
           {| nrows := 4;
              cols := [(Name "KNeighborsRegressor_InterLevel_0_0", [2; 2; 2; 2]%Z)] |},
           Demo.target4, 2%Z, false)
  /\ fst (sklearn.cross_val_predict 3
            {| nrows := 4;
               cols := [(Name "CatBoostRegressor_BaseLevel_0", [2; 2; 2; 2]%Z);
                        (Name "Ridge_BaseLevel_1", [2; 2; 2; 2]%Z)] |}
            Demo.target4 2 Demo.h0)
     = Ok [2; 2; 2; 2]%Z.
Proof. vm_compute. repeat split. Qed.

(** A successful [stack_models] returns the list of the base
    estimators in the order they were supplied, then the meta estimator
    (the one supplied, or the newly built default), then the restack flag;
    a successful [create_stacknet] returns the levels as they were
    supplied, level by level and estimator by estimator, then the meta
    estimator, then the restack flag. *)
Theorem stacking_container_shape :
  forall (V : Type) {missing : Missing V} (LinearRegression : estimator V) (env : option globals),
    (forall estimator_list meta_model fold round restack finalize verbose (h : heap V) c,
        fst (stack_models LinearRegression env estimator_list meta_model fold round restack
               finalize verbose h) = Ok c ->
        exists ls meta b,
          estimator_list = map Est ls /\ restack = Py.Bool b /\
          (meta_model = Some (Est meta) \/ (meta_model = None /\ meta = next h)) /\
          c = map Est ls ++ [Est meta; Flag b])
    /\
    (forall estimator_list meta_model fold round restack finalize verbose (h : heap V) c,
        fst (create_stacknet LinearRegression env estimator_list meta_model fold round restack
               finalize verbose h) = Ok c ->
        exists levels meta b,
          estimator_list = map Level levels /\ restack = Py.Bool b /\
          (meta_model = Some (Est meta) \/ (meta_model = None /\ meta = next h)) /\
          c = map Level levels ++ [Est meta; Flag b]).
Proof.
  intros V missing LinearRegression env. split.
  - intros estimator_list meta_model fold round restack finalize verbose h c H.
    destruct (stack_models _ _ _ _ _ _ _ _ _ h) as [r h'] eqn:E. simpl in H. subst r.
    apply stack_models_shape in E as (ls & meta & b & -> & -> & Hm & ->).
    exists ls, meta, b. repeat split; assumption.
  - intros estimator_list meta_model fold round restack finalize verbose h c H.
    destruct (create_stacknet _ _ _ _ _ _ _ _ _ h) as [r h'] eqn:E. simpl in H. subst r.
    apply create_stacknet_shape in E as (levels & meta & b & -> & -> & Hm & ->).
    exists levels, meta, b. repeat split; assumption.
Qed.

Lemma stacking_container_shape_witness :
  (exists ls meta b,
      [Est 0; Est 1] = map Est ls /\ Py.Bool true = Py.Bool b /\
      (@None item = Some (Est meta) \/ (@None item = None /\ meta = next Demo.h0)) /\
      [Est 0; Est 1; Est 8; Flag true] = map Est ls ++ [Est meta; Flag b])
  /\
  (exists levels meta b,
      [Level [2; 0]; Level [3]] = map Level levels /\ Py.Bool false = Py.Bool b /\
      (Some (Est 6) = Some (Est meta) \/ (Some (Est 6) = None /\ meta = next Demo.h0)) /\
      [Level [2; 0]; Level [3]; Est 6; Flag false] = map Level levels ++ [Est meta; Flag b]).
Proof.
  destruct (stacking_container_shape Z Demo.linreg (Some Demo.g)) as [S N]. split.
  - apply (S [Est 0; Est 1] None (Py.Int 2) (Py.Int 4) (Py.Bool true) false (Py.Bool true)
             Demo.h0).
    vm_compute. reflexivity.
  - apply (N [Level [2; 0]; Level [3]] (Some (Est 6)) (Py.Int 2) (Py.Int 4) (Py.Bool false)
             false (Py.Bool true) Demo.h0).
    vm_compute. reflexivity.
Defined.

(** C6. The containers have the shape the claim gives them, and the base
    estimators in them are fitted on the whole training table, but the
    meta estimator they end in is not the deployable fit.  Both functions
    fit the meta estimator on the whole assembled table and then run the
    cross-validation loop on that same object (lines 3989-4032 and
    4505-4541): the meta estimator returned is fitted on the training rows
    of the last fold, two rows of the four. *)
Lemma C6_meta_estimator_fitted_on_the_last_fold_only :
  let stacked := stack_models Demo.linreg (Some Demo.g) [Est 0; Est 1] (Some (Est 3))
                   (Py.Int 2) (Py.Int 4) (Py.Bool false) false (Py.Bool true) Demo.h0 in
  let netted := create_stacknet Demo.linreg (Some Demo.g) [Level [2; 0]; Level [3]] None
                  (Py.Int 2) (Py.Int 4) (Py.Bool true) false (Py.Bool true) Demo.h0 in
  fst stacked = Ok [Est 0; Est 1; Est 3; Flag false]
  /\ fitted_on (objs (snd stacked) 0) = Some (Demo.rows4, Demo.target4)
  /\ fitted_on (objs (snd stacked) 1) = Some (Demo.rows4, Demo.target4)
  /\ (exists table,
         fst (stack_models_features Demo.linreg (Some Demo.g) [Est 0; Est 1] (Some (Est 3))
                (Py.Int 2) (Py.Int 4) (Py.Bool false) false (Py.Bool true) Demo.h0)
         = Ok ([Est 0; Est 1], 3, table, Demo.target4, 2%Z, false)
         /\ nrows table = 4
         /\ fitted_on (objs (snd stacked) 3)
            = Some (iloc [0; 1] table, iloc_series [0; 1] Demo.target4))
  /\ fst netted = Ok [Level [2; 0]; Level [3]; Est 8; Flag true]
  /\ (exists table,
         fst (create_stacknet_features Demo.linreg (Some Demo.g) [Level [2; 0]; Level [3]]
                None (Py.Int 2) (Py.Int 4) (Py.Bool true) false (Py.Bool true) Demo.h0)
         = Ok ([Level [2; 0]; Level [3]], 8, table, Demo.target4, 2%Z, true)
         /\ nrows table = 4
         /\ fitted_on (objs (snd netted) 8)
            = Some (iloc [0; 1] table, iloc_series [0; 1] Demo.target4)).
Proof.
  cbv zeta. split; [vm_compute; reflexivity | ].
  split; [vm_compute; reflexivity | ]. split; [vm_compute; reflexivity | ].
  split; [eexists; split; [vm_compute; reflexivity | split; vm_compute; reflexivity] | ].
  split; [vm_compute; reflexivity | ].
  eexists. split; [vm_compute; reflexivity | split; vm_compute; reflexivity].
Qed.

(** C9 (as amended). [stack_models] and [create_stacknet] stop at once
    with their "only trained model object" exit exactly when the text of
    the type of some supplied object, in [estimator_list] or as
    [meta_model], contains neither ['sklearn'] nor ['CatBoostRegressor'];
    whether the object has [fit] and [predict] plays no part.  The store is
    then as it was. *)
Theorem C9_rejected_by_type_name :
  forall (V : Type) {missing : Missing V} (LinearRegression : estimator V) (env : option globals),
    (forall estimator_list meta_model fold round restack finalize verbose (h : heap V),
        (fst (stack_models LinearRegression env estimator_list meta_model fold round restack
                finalize verbose h) = Raise (SystemExit only_trained)
         <-> exists i, In i (supplied estimator_list meta_model)
                       /\ rejected_type (type_of h i) = true)
        /\ ((exists i, In i (supplied estimator_list meta_model)
                       /\ rejected_type (type_of h i) = true) ->
            snd (stack_models LinearRegression env estimator_list meta_model fold round
                   restack finalize verbose h) = h))
    /\
    (forall levels meta_model fold round restack finalize verbose (h : heap V),
        (fst (create_stacknet LinearRegression env (map Level levels) meta_model fold round
                restack finalize verbose h) = Raise (SystemExit only_trained)
         <-> exists i, In i (supplied (map Est (List.concat levels)) meta_model)
                       /\ rejected_type (type_of h i) = true)
        /\ ((exists i, In i (supplied (map Est (List.concat levels)) meta_model)
                       /\ rejected_type (type_of h i) = true) ->
            snd (create_stacknet LinearRegression env (map Level levels) meta_model fold round
                   restack finalize verbose h) = h)).
Proof.
  intros V missing LinearRegression env. split.
  - intros estimator_list meta_model fold round restack finalize verbose h. split; [split | ].
    + intros H.
      destruct (stack_models _ _ _ _ _ _ _ _ _ h) as [r h'] eqn:E. simpl in H. subst r.
      eapply stack_models_exit_only_trained; [exact E | reflexivity].
    + intros H. erewrite stack_models_rejects by exact H. reflexivity.
    + intros H. erewrite stack_models_rejects by exact H. reflexivity.
  - intros levels meta_model fold round restack finalize verbose h. split; [split | ].
    + intros H.
      destruct (create_stacknet _ _ _ _ _ _ _ _ _ h) as [r h'] eqn:E. simpl in H. subst r.
      eapply create_stacknet_exit_only_trained; [exact E | reflexivity].
    + intros H. erewrite create_stacknet_rejects by exact H. reflexivity.
    + intros H. erewrite create_stacknet_rejects by exact H. reflexivity.
Qed.

(** C9 as stated fails: an object of a user-defined class that has both
    [fit] and [predict] is refused, and an object of the library without
    [predict] passes the check. *)
Lemma C9_counterexample :
  (fit_method Demo.my_regressor <> None /\ predict_method Demo.my_regressor <> None
   /\ fst (stack_models Demo.linreg (Some Demo.g) [Est 0; Est 4] None (Py.Int 2) (Py.Int 4)
             (Py.Bool false) false (Py.Bool true) Demo.h0)
      = Raise (SystemExit only_trained))
  /\ (predict_method Demo.pipe = None
      /\ fst (stack_models Demo.linreg (Some Demo.g) [Est 0; Est 5] None (Py.Int 2) (Py.Int 4)
                (Py.Bool false) false (Py.Bool true) Demo.h0)
         <> Raise (SystemExit only_trained)).
Proof.
  split.
  - split; [discriminate | ]. split; [discriminate | ]. vm_compute. reflexivity.
  - split; [reflexivity | ]. vm_compute. discriminate.
Qed.

Section FoldCount.

Context {V : Type} {missing : Missing V}.
Local Abbreviation raises_only := (@raises_only V).
Variable LinearRegression : estimator V.
Local Open Scope py_scope.
Import sklearn.

Lemma plain_no_split e : plain e -> no_split e.
Proof. intros H k n E. subst. exact H. Qed.

Lemma exit_no_split msg : no_split (SystemExit msg).
Proof. intros k n E. discriminate E. Qed.

Lemma ro_bind_ret {A B} P (a : A) (f : A -> M V B) :
  raises_only P (f a) -> raises_only P (bind (ret a) f).
Proof. intros Hf h e h' H. unfold bind, ret in H. eapply Hf; eassumption. Qed.

Lemma KFold_init_in_range k s : (2 <= k)%Z -> exists cv, KFold_init k s = Ok cv /\ n_splits cv = k.
Proof.
  intros Hk. unfold KFold_init. destruct (k <=? 1)%Z eqn:E; [apply Z.leb_le in E; lia | ].
  eexists. split; reflexivity.
Qed.

Lemma split_in_range cv n : (n_splits cv <= Z.of_nat n)%Z -> exists folds, split cv n = Ok folds.
Proof.
  intros Hk. unfold split. destruct (Z.of_nat n <? n_splits cv)%Z eqn:E; [apply Z.ltb_lt in E; lia | ].
  eexists. reflexivity.
Qed.

Lemma ro_cross_val_predict_in_range l (X : DataFrame V) y k :
  (2 <= k <= Z.of_nat (n_samples X))%Z ->
  raises_only plain (cross_val_predict l X y k).
Proof.
  intros [Hk Hn]. unfold cross_val_predict.
  apply ro_bind; [apply ro_deref | intros o].
  destruct (KFold_init_in_range k None Hk) as (cv & Ecv & Ek). rewrite Ecv.
  apply ro_bind_ret.
  destruct (split_in_range cv (n_samples X)) as (folds & Es); [rewrite Ek; exact Hn | ].
  rewrite Es. apply ro_bind_ret.
  apply ro_lift. intros e H. eapply oof_with_plain; eassumption.
Qed.

Lemma ro_stack_base_loop_in_range estimator_list (X : DataFrame V) y k ms bp :
  (2 <= k <= Z.of_nat (n_samples X))%Z ->
  raises_only plain (stack_base_loop estimator_list X y k ms bp).
Proof.
  intros Hr. revert ms bp. induction estimator_list as [| model rest IH]; intros; simpl.
  - apply ro_ret.
  - apply ro_bind; [apply ro_fit | intros _].
    apply ro_bind; [apply ro_cross_val_predict_in_range; exact Hr | intros ba]. apply IH.
Qed.

Lemma stack_base_loop_nrows estimator_list (X : DataFrame V) y k ms bp h ms' bp' h' :
  stack_base_loop estimator_list X y k ms bp h = (Ok (ms', bp'), h') ->
  nrows bp <= nrows bp'.
Proof.
  revert ms bp h. induction estimator_list as [| model rest IH]; simpl; intros ms bp h H.
  - inversion H; subst. apply Nat.le_refl.
  - inv_ok H as u h1 Ef. inv_ok H as p h2 Ec. apply IH in H. simpl in H. lia.
Qed.

Lemma set_columns_nrows (df : DataFrame V) names df' :
  set_columns df names = Ok df' -> nrows df' = nrows df.
Proof.
  unfold set_columns. destruct (Nat.eqb _ _); intros H; inversion H. reflexivity.
Qed.

Lemma drop_first_nrows (df df' : DataFrame V) : drop_first df = Ok df' -> nrows df' = nrows df.
Proof. unfold drop_first. destruct (cols df); intros H; inversion H. reflexivity. Qed.

Variable g : globals (V:=V).

Lemma global_some {A} name (proj : globals -> A) :
  global (Some g) name proj = ret (proj g).
Proof. reflexivity. Qed.

(** What the first part of [stack_models] hands to the second. *)
Lemma stack_models_features_ok estimator_list meta_model fold round restack finalize verbose
    (h : heap V) ms m dX dy k b h' :
  stack_models_features LinearRegression (Some g) estimator_list meta_model fold round
    restack finalize verbose h = (Ok (ms, m, dX, dy, k, b), h') ->
  fold = Py.Int k /\ dy = chosen_y g finalize /\
  length (snd (chosen_y g finalize)) <= nrows dX /\
  exists ls, estimator_list = map Est ls /\
             (ls <> [] -> exists cv folds, KFold_init k None = Ok cv /\
                                           split cv (n_samples (chosen_X g finalize)) = Ok folds) /\
             ls <> [].
Proof.
  intros E. unfold stack_models_features in E.
  inv_ok E as u0 h1 E0. clear E0.
  inv_ok E as u1 h2 E0. clear E0.
  inv_ok E as k0 h3 E0. apply check_int_ok in E0 as [-> _].
  inv_ok E as rd h4 E0. clear E0.
  inv_ok E as b0 h5 E0. clear E0.
  inv_ok E as vb h6 E0. clear E0.
  inv_ok E as pg hpg E0. clear E0.
  inv_ok E as ls h7 E0. apply all_objs_ok in E0 as [-> _].
  inv_ok E as a4 h8 E0. clear E0.
  inv_ok E as data_X0 h9 EX.
  assert (data_X0 = chosen_X g finalize) as ->.
  { unfold chosen_X. destruct finalize; rewrite global_some in EX; inversion EX; reflexivity. }
  inv_ok E as data_y0 h10 Ey.
  assert (data_y0 = chosen_y g finalize) as ->.
  { unfold chosen_y. destruct finalize; rewrite global_some in Ey; inversion Ey; reflexivity. }
  inv_ok E as hh h11 Eh.
  inv_ok E as r h12 Eloop. destruct r as [models' bp'].
  pose proof (stack_base_loop_nrows _ _ _ _ _ _ _ _ _ _ Eloop) as Hn. simpl in Hn.
  inv_ok E as tc h13 Et. inv_ok E as bp1 h14 Es. apply lift_ok in Es as [Es _].
  inv_ok E as bp2 h15 Ed. apply lift_ok in Ed as [Ed _].
  inv_ok E as u h16 Ed2. apply lift_ok in Ed2 as [Ed2 _].
  apply ret_ok in E as [E _]. inversion E; subst. clear E.
  pose proof (set_columns_nrows _ _ _ Es) as N1.
  pose proof (drop_first_nrows _ _ Ed) as N2.
  split; [reflexivity | ]. split; [reflexivity | ].
  split.
  { destruct b; simpl; lia. }
  exists ls. split; [reflexivity | ]. split.
  - intros Hne. destruct ls as [| model rest]; [congruence | ].
    eapply stack_base_loop_splits. exact Eloop.
  - intros ->. simpl in Eloop. inversion Eloop; subst. clear Eloop.
    unfold set_columns in Es. simpl in Es. inversion Es; subst bp1. clear Es.
    unfold drop_first in Ed. simpl in Ed. inversion Ed; subst bp2. clear Ed.
    unfold drop_first in Ed2. simpl in Ed2.
    destruct tc as [s | i]; simpl in Ed2.
    + rewrite String.eqb_refl in Ed2. simpl in Ed2. discriminate Ed2.
    + rewrite Nat.eqb_refl in Ed2. simpl in Ed2. discriminate Ed2.
Qed.

End FoldCount.

Section FoldCountInRange.

Context {V : Type} {missing : Missing V}.
Local Abbreviation raises_only := (@raises_only V).
Variable LinearRegression : estimator V.
Variable g : globals (V:=V).
Local Open Scope py_scope.
Import sklearn.

Lemma ro_features_in_range estimator_list meta_model k round restack finalize verbose :
  (2 <= k <= Z.of_nat (n_samples (chosen_X g finalize)))%Z ->
  raises_only no_split
    (stack_models_features LinearRegression (Some g) estimator_list meta_model (Py.Int k)
       round restack finalize verbose).
Proof.
  intros Hr. unfold stack_models_features, chosen_X in *.
  destruct finalize; rewrite !global_some.
  all: repeat first
         [ match goal with
           | |- raises_only _ (bind (ret _) _) => apply ro_bind_ret
           | |- raises_only _ (bind (check_int (Py.Int _) _) _) => apply ro_bind_ret
           | |- raises_only _ (stack_base_loop _ _ _ _ _ _) =>
               eapply ro_weaken; [apply plain_no_split | apply ro_stack_base_loop_in_range; exact Hr]
           | |- raises_only _ (check_item _) =>
               let h := fresh in let e := fresh in let h' := fresh in let H := fresh in
               intros h e h' H; unfold check_item in H;
               destruct (rejected_type _); inversion H; apply exit_no_split
           end
         | ro_step
         | ro_leaf ltac:(first [apply exit_no_split
                               | intros; apply plain_no_split; solve [assumption | exact I]]) ].
Qed.

Lemma ro_stack_models_in_range estimator_list meta_model k round restack finalize verbose :
  length (snd (chosen_y g finalize)) = n_samples (chosen_X g finalize) ->
  (2 <= k <= Z.of_nat (n_samples (chosen_X g finalize)))%Z ->
  raises_only no_split
    (stack_models LinearRegression (Some g) estimator_list meta_model (Py.Int k)
       round restack finalize verbose).
Proof.
  intros Hy Hr. unfold stack_models.
  eapply ro_bind_post with
    (Q := fun _ r _ => let '(ms, m, dX, dy, k', b) := r in
                       k' = k /\ length (snd (chosen_y g finalize)) <= nrows dX).
  - intros h r h' E. destruct r as [[[[[ms m] dX] dy] k'] b].
    apply stack_models_features_ok in E as (Ek & _ & Hn & _).
    inversion Ek. split; [reflexivity | exact Hn].
  - apply ro_features_in_range. exact Hr.
  - intros r (h & h' & HQ). destruct r as [[[[[ms m] dX] dy] k'] b].
    destruct HQ as [-> Hn].
    apply ro_bind; [eapply ro_weaken; [apply plain_no_split | apply ro_fit] | intros _].
    rewrite global_some. apply ro_bind_ret.
    destruct (KFold_init_in_range k (Some (seed g))) as (cv & Ecv & Ek); [lia | ].
    rewrite Ecv. apply ro_bind_ret.
    destruct (split_in_range cv (n_samples dX)) as (folds & Es).
    { rewrite Ek. unfold n_samples in *. lia. }
    rewrite Es. apply ro_bind_ret.
    apply ro_bind; [ | intros _; apply ro_ret].
    eapply ro_weaken; [apply plain_no_split | apply ro_meta_cv_loop].
Qed.

Lemma ro_stack_models_fold_int estimator_list meta_model k round restack finalize verbose env :
  raises_only (other_than fold_msg)
    (stack_models LinearRegression env estimator_list meta_model (Py.Int k)
       round restack finalize verbose).
Proof.
  unfold stack_models, stack_models_features.
  repeat first
    [ match goal with
      | |- raises_only _ (bind (check_int (Py.Int _) _) _) => apply ro_bind_ret
      | |- raises_only _ (stack_base_loop _ _ _ _ _ _) =>
          eapply ro_weaken; [ | apply ro_stack_base_loop];
          intros; apply lib_other_than; assumption
      | |- raises_only _ (meta_cv_loop _ _ _ _) =>
          eapply ro_weaken; [ | apply ro_meta_cv_loop];
          intros; apply lib_other_than, plain_lib; assumption
      | |- raises_only _ (check_item _) =>
          let h := fresh in let e := fresh in let h' := fresh in let H := fresh in
          intros h e h' H; unfold check_item in H;
          destruct (rejected_type _); inversion H; intro; discriminate
      | |- raises_only _ (lift (KFold_init _ _)) =>
          apply ro_lift; let e0 := fresh in let H0 := fresh in
          intros e0 H0; apply KFold_init_lib in H0; apply lib_other_than; assumption
      | |- raises_only _ (lift (split _ _)) =>
          apply ro_lift; let e0 := fresh in let H0 := fresh in
          intros e0 H0; apply split_lib in H0; apply lib_other_than; assumption
      end
    | ro_step
    | ro_leaf ltac:(first [ intro; discriminate
                          | intros; apply lib_other_than, plain_lib; assumption ]) ].
Qed.

End FoldCountInRange.

Section FoldOutOfRange.

Context {V : Type} {missing : Missing V}.
Variable LinearRegression : estimator V.
Variable g : globals (V:=V).
Local Open Scope py_scope.
Import sklearn.

Lemma all_objs_map_Est ls (h : heap V) : all_objs (map Est ls) h = (Ok ls, h).
Proof.
  unfold all_objs. induction ls as [| x xs IH]; [reflexivity | ].
  simpl. erewrite bind_step by reflexivity. cbv beta.
  erewrite bind_step by exact IH. reflexivity.
Qed.

Lemma cross_val_predict_out_of_range l (X : DataFrame V) y K (h : heap V) :
  (K < 2 \/ K > Z.of_nat (n_samples X))%Z ->
  cross_val_predict l X y K h
  = (Raise (SplitError K (if (K <=? 1)%Z then 0 else n_samples X)), h).
Proof.
  intros HK. unfold cross_val_predict, bind, deref, lift, KFold_init.
  destruct (K <=? 1)%Z eqn:E1; [reflexivity | ].
  apply Z.leb_gt in E1. unfold split. simpl.
  assert (E2 : (Z.of_nat (n_samples X) <? K)%Z = true) by (apply Z.ltb_lt; lia).
  rewrite E2. reflexivity.
Qed.

(** A fold count out of range, once the checks have passed and the
    progress bar is built: the first base estimator is fitted on the whole
    table, and the splitter then refuses the fold count. *)
Lemma stack_models_out_of_range l rest meta_model K r b v finalize (h : heap V) f :
  (forall i, In i (supplied (map Est (l :: rest)) meta_model) ->
             rejected_type (type_of h i) = false /\ exists m, i = Est m) ->
  l < next h ->
  fit_method (objs h l) = Some f ->
  f (chosen_X g finalize) (chosen_y g finalize) = None ->
  (0 <= Z.of_nat (length (l :: rest)) + K + 4)%Z ->
  (K < 2 \/ K > Z.of_nat (n_samples (chosen_X g finalize)))%Z ->
  let run := stack_models LinearRegression (Some g) (map Est (l :: rest)) meta_model
               (Py.Int K) (Py.Int r) (Py.Bool b) finalize (Py.Bool v) h in
  fst run = Raise (SplitError K (if (K <=? 1)%Z then 0
                                 else n_samples (chosen_X g finalize)))
  /\ fitted_on (objs (snd run) l) = Some (chosen_X g finalize, chosen_y g finalize).
Proof.
  intros Hs Hl Hf Hfx Hpg HK.
  assert (E1 : for_each check_item (map Est (l :: rest)) h
               = (Ok (map (fun _ => tt) (map Est (l :: rest))), h)).
  { rewrite check_items_spec.
    destruct (existsb _ (map Est (l :: rest))) eqn:E; [ | reflexivity].
    apply existsb_exists in E as (i & Hi & Hr).
    destruct (Hs i) as [Hr' _]; [unfold supplied; apply in_or_app; left; exact Hi | ].
    rewrite Hr' in Hr. discriminate Hr. }
  assert (E2 : match meta_model with None => ret tt | Some m => check_item m end h
               = (Ok tt, h)).
  { destruct meta_model as [m | ]; [ | reflexivity].
    unfold check_item.
    destruct (Hs m) as [Hr' _]; [unfold supplied; apply in_or_app; right; left; reflexivity | ].
    rewrite Hr'. reflexivity. }
  assert (Em : exists m0 h0,
             match meta_model with
             | None => alloc LinearRegression
             | Some m => as_obj "fit" m
             end h = (Ok m0, h0) /\ objs h0 l = objs h l).
  { destruct meta_model as [i | ].
    - destruct (Hs i) as [_ [m ->]]; [unfold supplied; apply in_or_app; right; left; reflexivity | ].
      exists m, h. split; reflexivity.
    - eexists. eexists. split; [reflexivity | ]. simpl.
      destruct (Nat.eqb l (next h)) eqn:En; [ | reflexivity].
      apply Nat.eqb_eq in En. lia. }
  destruct Em as (m0 & h0 & Em & Ho).
  assert (Efit : fit l (chosen_X g finalize) (chosen_y g finalize) h0
                 = (Ok l, update h0 l (set_fitted (objs h0 l)
                                         (Some (chosen_X g finalize, chosen_y g finalize))))).
  { unfold fit. rewrite Ho, Hf, Hfx. reflexivity. }
  assert (EX : (if finalize then global (Some g) "X" X else global (Some g) "X_train" X_train) h0
               = (Ok (chosen_X g finalize), h0)) by (destruct finalize; reflexivity).
  assert (Ey : (if finalize then global (Some g) "y" y else global (Some g) "y_train" y_train) h0
               = (Ok (chosen_y g finalize), h0)) by (destruct finalize; reflexivity).
  assert (EF : stack_models_features LinearRegression (Some g) (map Est (l :: rest)) meta_model
                 (Py.Int K) (Py.Int r) (Py.Bool b) finalize (Py.Bool v) h
               = (Raise (SplitError K (if (K <=? 1)%Z then 0
                                       else n_samples (chosen_X g finalize))),
                  update h0 l (set_fitted (objs h0 l)
                                 (Some (chosen_X g finalize, chosen_y g finalize))))).
  { unfold stack_models_features.
    erewrite bind_step by exact E1. cbv beta.
    erewrite bind_step by exact E2. cbv beta.
    do 4 (erewrite bind_step by reflexivity; cbv beta).
    erewrite bind_step by (apply IntProgress_pass; rewrite length_map; exact Hpg). cbv beta.
    erewrite bind_step by apply all_objs_map_Est. cbv beta.
    erewrite bind_step by exact Em. cbv beta.
    erewrite bind_step by exact EX. cbv beta.
    erewrite bind_step by exact Ey. cbv beta.
    erewrite bind_step by reflexivity. cbv beta.
    apply bind_fail. simpl stack_base_loop.
    erewrite bind_step by exact Efit. cbv beta.
    apply bind_fail. apply cross_val_predict_out_of_range. exact HK. }
  cbv zeta. unfold stack_models. rewrite (bind_fail _ _ _ _ _ EF). simpl.
  split; [reflexivity | ]. rewrite Nat.eqb_refl. reflexivity.
Qed.

(** Once the checks have passed, a fold count that makes the length of
    the progress bar negative stops the call there. *)
Lemma stack_models_progress_refused env estimator_list meta_model K r b v finalize (h : heap V) :
  (forall i, In i (supplied estimator_list meta_model) -> rejected_type (type_of h i) = false) ->
  (Z.of_nat (length estimator_list) + K + 4 < 0)%Z ->
  stack_models LinearRegression env estimator_list meta_model (Py.Int K) (Py.Int r)
    (Py.Bool b) finalize (Py.Bool v) h = (Raise TraitError, h).
Proof.
  intros Hs Hpg.
  assert (E1 : for_each check_item estimator_list h
               = (Ok (map (fun _ => tt) estimator_list), h)).
  { rewrite check_items_spec.
    destruct (existsb _ estimator_list) eqn:E; [ | reflexivity].
    apply existsb_exists in E as (i & Hi & Hr).
    rewrite Hs in Hr; [discriminate | ]. unfold supplied. apply in_or_app. left. exact Hi. }
  assert (E2 : match meta_model with None => ret tt | Some m => check_item m end h
               = (Ok tt, h)).
  { destruct meta_model as [m | ]; [ | reflexivity].
    unfold check_item. rewrite Hs; [reflexivity | ].
    unfold supplied. apply in_or_app. right. left. reflexivity. }
  unfold stack_models, stack_models_features.
  apply bind_fail.
  erewrite bind_step by exact E1. cbv beta.
  erewrite bind_step by exact E2. cbv beta.
  do 4 (erewrite bind_step by reflexivity; cbv beta).
  apply bind_fail. apply IntProgress_refuse. exact Hpg.
Qed.

End FoldOutOfRange.

(** C8 (as amended). [stack_models] has no check of its own on the range of
    an integer fold count: its fold check never fires on an integer.  A
    call with K < 2 or K > N does not succeed, but it does not fail at
    once.  When the checks have passed, a K that makes the length of the
    progress bar negative stops the call there, before anything is
    fitted; otherwise, when the list is not empty and its first estimator
    fits the training table, the call fails with the error of the
    library's splitter, raised inside [cross_val_predict] after that
    estimator has been fitted on the whole table.  A call with
    2 <= K <= N, on a target with one value per row, never fails with the
    splitter's error. *)
Theorem C8_fold_count_left_to_the_splitter :
  forall (V : Type) {missing : Missing V} (LinearRegression : estimator V) (g : globals)
         (estimator_list : list item) (meta_model : option item) (K : Z)
         (round restack : Py.value) (finalize : bool) (verbose : Py.value) (h : heap V),
    let N := n_samples (chosen_X g finalize) in
    let run := stack_models LinearRegression (Some g) estimator_list meta_model (Py.Int K)
                 round restack finalize verbose h in
    let r := fst run in
    r <> Raise (SystemExit fold_msg)
    /\ ((K < 2 \/ K > Z.of_nat N)%Z -> is_ok r = false)
    /\ (length (snd (chosen_y g finalize)) = N -> (2 <= K <= Z.of_nat N)%Z ->
        forall k n, r <> Raise (SplitError k n))
    /\ (forall rd b v,
           round = Py.Int rd -> restack = Py.Bool b -> verbose = Py.Bool v ->
           (forall i, In i (supplied estimator_list meta_model) ->
                      rejected_type (type_of h i) = false /\ exists m, i = Est m) ->
           ((Z.of_nat (length estimator_list) + K + 4 < 0)%Z -> run = (Raise TraitError, h))
           /\ (forall l ls f,
                  estimator_list = map Est (l :: ls) ->
                  l < next h ->
                  fit_method (objs h l) = Some f ->
                  f (chosen_X g finalize) (chosen_y g finalize) = None ->
                  (0 <= Z.of_nat (length estimator_list) + K + 4)%Z ->
                  (K < 2 \/ K > Z.of_nat N)%Z ->
                  r = Raise (SplitError K (if (K <=? 1)%Z then 0 else N))
                  /\ fitted_on (objs (snd run) l)
                     = Some (chosen_X g finalize, chosen_y g finalize))).
Proof.
  intros V missing LinearRegression g estimator_list meta_model K round restack finalize verbose
    h N run r.
  split; [ | split; [ | split]].
  - subst r run.
    destruct (stack_models LinearRegression (Some g) estimator_list meta_model (Py.Int K)
                round restack finalize verbose h) as [r0 h'] eqn:E. simpl.
    intros ->. eapply ro_stack_models_fold_int; [exact E | reflexivity].
  - subst r run.
    destruct (stack_models LinearRegression (Some g) estimator_list meta_model (Py.Int K)
                round restack finalize verbose h) as [r0 h'] eqn:E. simpl.
    intros HK. destruct r0 as [c | e]; [ | reflexivity]. exfalso.
    unfold stack_models in E. inv_ok E as r0 h1 Ef.
    destruct r0 as [[[[[ms m] dX] dy] k] b].
    apply stack_models_features_ok in Ef as (Ek & _ & _ & ls & _ & Hs & Hne).
    inversion Ek; subst k. destruct (Hs Hne) as (cv & folds & Hcv & Hsp).
    unfold sklearn.KFold_init in Hcv. destruct (K <=? 1)%Z eqn:E1; [discriminate Hcv | ].
    inversion Hcv; subst cv. unfold sklearn.split in Hsp. simpl in Hsp.
    destruct (Z.of_nat (n_samples (chosen_X g finalize)) <? K)%Z eqn:E2; [discriminate Hsp | ].
    apply Z.leb_gt in E1. apply Z.ltb_ge in E2. subst N. lia.
  - subst r run.
    destruct (stack_models LinearRegression (Some g) estimator_list meta_model (Py.Int K)
                round restack finalize verbose h) as [r0 h'] eqn:E. simpl.
    intros Hy Hr k n ->.
    eapply (ro_stack_models_in_range LinearRegression g); [exact Hy | exact Hr | exact E | reflexivity].
  - intros rd b v -> -> -> Hs. split.
    + intros Hpg. subst run. apply stack_models_progress_refused; [ | exact Hpg].
      intros i Hi. apply Hs. exact Hi.
    + intros l ls f -> Hl Hf Hfx Hpg HK. subst r run N. rewrite length_map in Hpg.
      eapply stack_models_out_of_range; eassumption.
Qed.

Lemma C8_witness :
  (let r := fst (stack_models Demo.linreg (Some Demo.g) [Est 0; Est 1] None (Py.Int 2)
                   (Py.Int 4) (Py.Bool false) false (Py.Bool true) Demo.h0) in
   r <> Raise (SystemExit fold_msg) /\ forall k n, r <> Raise (SplitError k n))
  /\ (let run := stack_models Demo.linreg (Some Demo.g) [Est 0; Est 1] None (Py.Int 5)
                   (Py.Int 4) (Py.Bool false) false (Py.Bool true) Demo.h0 in
      is_ok (fst run) = false
      /\ fst run = Raise (SplitError 5 4)
      /\ fitted_on (objs (snd run) 0) = Some (Demo.rows4, Demo.target4))
  /\ stack_models Demo.linreg (Some Demo.g) [Est 0; Est 1] None (Py.Int (-7))
       (Py.Int 4) (Py.Bool false) false (Py.Bool true) Demo.h0
     = (Raise TraitError, Demo.h0).
Proof.
  assert (Hs : forall i, In i (supplied [Est 0; Est 1] None) ->
                 rejected_type (type_of Demo.h0 i) = false /\ exists m, i = Est m).
  { intros i [<- | [<- | []]]; (split; [reflexivity | eexists; reflexivity]). }
  split; [ | split].
  - destruct (C8_fold_count_left_to_the_splitter Z Demo.linreg Demo.g [Est 0; Est 1] None 2
                (Py.Int 4) (Py.Bool false) false (Py.Bool true) Demo.h0) as (A & _ & C & _).
    split; [exact A | ].
    apply C; [reflexivity | vm_compute; split; discriminate].
  - destruct (C8_fold_count_left_to_the_splitter Z Demo.linreg Demo.g [Est 0; Est 1] None 5
                (Py.Int 4) (Py.Bool false) false (Py.Bool true) Demo.h0) as (_ & B & _ & D).
    cbv zeta. split; [apply B; right; vm_compute; reflexivity | ].
    destruct (D 4%Z false true eq_refl eq_refl eq_refl Hs) as [_ D2].
    apply (D2 0 [1] (fun _ _ => None)); try reflexivity.
    + vm_compute. apply le_n_S, le_0_n.
    + vm_compute. discriminate.
    + right. vm_compute. reflexivity.
  - destruct (C8_fold_count_left_to_the_splitter Z Demo.linreg Demo.g [Est 0; Est 1] None (-7)
                (Py.Int 4) (Py.Bool false) false (Py.Bool true) Demo.h0) as (_ & _ & _ & D).
    destruct (D 4%Z false true eq_refl eq_refl eq_refl Hs) as [D1 _].
    apply D1. vm_compute. reflexivity.
Defined.

(** C8 as stated fails: with K = 1 the call passes the checks of
    [stack_models], fits the first base estimator on the whole table, and
    only then fails, with the error of the library's splitter. *)
Lemma C8_counterexample :
  let run := stack_models Demo.linreg (Some Demo.g) [Est 0; Est 1] None (Py.Int 1)
               (Py.Int 4) (Py.Bool false) false (Py.Bool true) Demo.h0 in
  fst run = Raise (SplitError 1 0)
  /\ fitted_on (objs Demo.h0 0) = None
  /\ fitted_on (objs (snd run) 0) = Some (Demo.rows4, Demo.target4).
Proof. vm_compute. repeat split. Qed.

Section MetaRefit.

Context {V : Type} {missing : Missing V}.
Local Open Scope py_scope.
Import sklearn.

Lemma metrics_heap (ytest : Series V) pred_ h r h' : metrics ytest pred_ h = (r, h') -> h' = h.
Proof.
  unfold metrics. destruct (Nat.eqb _ _); intros H; inversion H; reflexivity.
Qed.

Lemma fit_fitted_on l (X : DataFrame V) y h l' h' :
  fit l X y h = (Ok l', h') -> fitted_on (objs h' l) = Some (X, y).
Proof.
  intros H. apply fit_ok in H as [_ ->]. unfold update. simpl.
  rewrite Nat.eqb_refl. reflexivity.
Qed.

(** After the cross-validation loop the object [model] is as its last
    [fit] left it: fitted on the training rows of the last fold. *)
Lemma meta_cv_loop_last_fit model (data_X : DataFrame V) data_y folds h h' :
  folds <> [] ->
  meta_cv_loop model data_X data_y folds h = (Ok tt, h') ->
  fitted_on (objs h' model)
  = Some (iloc (fst (last folds ([], []))) data_X,
          iloc_series (fst (last folds ([], []))) data_y).
Proof.
  revert h. induction folds as [| [train_i test_i] rest IH]; intros h Hne H; [congruence | ].
  simpl in H. inv_ok H as u h1 Ef. pose proof (fit_fitted_on _ _ _ _ _ _ Ef) as F.
  inv_ok H as pred_ h2 Ep. apply predict_heap in Ep. subst h2.
  inv_ok H as u2 h3 Em. apply metrics_heap in Em. subst h3.
  destruct rest as [| fd rest'].
  - simpl in H. inversion H; subst. exact F.
  - change (last ((train_i, test_i) :: fd :: rest') ([], []))
      with (last (fd :: rest') ([] : list nat, [] : list nat)).
    apply (IH h1); [discriminate | exact H].
Qed.

End MetaRefit.

(** C5: [stack_models] fits the meta estimator on the whole assembled table
    and appends it to the container, and then cross-validates with the very
    same object: at the return the meta estimator of the container is
    fitted on the training rows of the last fold, not on the whole table. *)
Lemma C5_meta_estimator_refitted_by_cross_validation :
  let run := stack_models Demo.linreg (Some Demo.g) [Est 0; Est 1] (Some (Est 3)) (Py.Int 2)
               (Py.Int 4) (Py.Bool false) false (Py.Bool true) Demo.h0 in
  let table : DataFrame Z :=
    {| nrows := 4;
       cols := [(Name "Ridge_0", [2; 2; 2; 2]%Z); (Name "Lasso_1", [2; 2; 2; 2]%Z)] |} in
  fst (stack_models_features Demo.linreg (Some Demo.g) [Est 0; Est 1] (Some (Est 3)) (Py.Int 2)
         (Py.Int 4) (Py.Bool false) false (Py.Bool true) Demo.h0)
  = Ok ([Est 0; Est 1], 3, table, Demo.target4, 2%Z, false)
  /\ fst run = Ok [Est 0; Est 1; Est 3; Flag false]
  /\ fitted_on (objs (snd run) 3)
     = Some (iloc [0; 1] table, iloc_series [0; 1] Demo.target4)
  /\ fitted_on (objs (snd run) 3) <> Some (table, Demo.target4).
Proof.
  vm_compute. repeat split. discriminate.
Qed.

Section BaseNames.

Lemma base_level_fixed_train_length stale names :
  length (base_level_fixed_train stale names)
  = S (length (filter (Py.contains "CatBoostRegressor") names)).
Proof.
  unfold base_level_fixed_train. rewrite length_app, length_map. simpl. lia.
Qed.

Lemma enumerate_from_length {A} i (xs : list A) : length (enumerate_from i xs) = length xs.
Proof. revert i. induction xs as [| x xs IH]; simpl; intros i; [ | rewrite IH]; reflexivity. Qed.

Lemma base_level_fixed_infer_length names :
  length (base_level_fixed_infer names) = length names.
Proof.
  unfold base_level_fixed_infer, enumerate, catboost_fixed.
  rewrite length_map, enumerate_from_length, length_map. reflexivity.
Qed.

End BaseNames.

(** C1: the base column names of [create_stacknet] are not those
    [predict_model] rebuilds.  For the base level [Ridge, CatBoost] training
    succeeds and names the two base columns ["CatBoostRegressor_BaseLevel_0"]
    and the raw CatBoost text followed by ["_BaseLevel_1"]; inference on the
    container it returned names them ["Ridge_BaseLevel_0"] and
    ["CatBoostRegressor_BaseLevel_1"].  For a base level of two estimators
    neither of which is a CatBoost, training builds one name for two columns
    and stops. *)
Lemma C1_base_level_names_differ :
  let train := create_stacknet Demo.linreg (Some Demo.g) [Level [0; 2]; Level [3]] None
                 (Py.Int 2) (Py.Int 4) (Py.Bool true) false (Py.Bool true) Demo.h0 in
  let container := [Level [0; 2]; Level [3]; Est 8; Flag true] in
  fst train = Ok container
  /\ (exists ms m table y k b,
        fst (create_stacknet_features Demo.linreg (Some Demo.g) [Level [0; 2]; Level [3]] None
               (Py.Int 2) (Py.Int 4) (Py.Bool true) false (Py.Bool true) Demo.h0)
        = Ok (ms, m, table, y, k, b)
        /\ columns table
           = [Name "age"; Name "bmi"; Name "CatBoostRegressor_BaseLevel_0";
              Name "<catboost.core.CatBoostRegressor object at 0x7f3a5c0b1d90>_BaseLevel_1";
              Name "KNeighborsRegressor_InterLevel_0_0"])
  /\ (exists meta combined_df inter_pred_df,
        fst (multi_layer_tables (AList container) Demo.rows4 (snd train))
        = Ok (meta, combined_df, inter_pred_df)
        /\ columns combined_df
           = [Name "age"; Name "bmi"; Name "Ridge_BaseLevel_0";
              Name "CatBoostRegressor_BaseLevel_1";
              Name "KNeighborsRegressor_InterLevel_0_0"])
  /\ base_level_fixed_2
       (base_level_fixed_train "[KNeighborsRegressor(n_neighbors=5)]"
          (base_level_names_of Demo.h0 [0; 1]))
     = ["Lasso_BaseLevel_0"]
  /\ base_level_fixed_infer (base_level_names_of Demo.h0 [0; 1])
     = ["Ridge_BaseLevel_0"; "Lasso_BaseLevel_1"]
  /\ fst (create_stacknet Demo.linreg (Some Demo.g) [Level [0; 1]; Level [3]] None
            (Py.Int 2) (Py.Int 4) (Py.Bool true) false (Py.Bool true) Demo.h0)
     = Raise IndexError.
Proof.
  cbv zeta. split; [vm_compute; reflexivity | ].
  split; [do 6 eexists; split; [vm_compute; reflexivity | vm_compute; reflexivity] | ].
  split; [do 3 eexists; split; [vm_compute; reflexivity | vm_compute; reflexivity] | ].
  split; [vm_compute; reflexivity | ].
  split; vm_compute; reflexivity.
Qed.

Section SingleLayer.

Context {V : Type} {missing : Missing V}.
Local Abbreviation infer_frame := (@infer_frame V missing).
Local Open Scope py_scope.

Lemma pop_last {A} (xs : list A) (a : A) : pop (V:=V) (xs ++ [a]) = ret (xs, a).
Proof. unfold pop. rewrite rev_app_distr. simpl. rewrite rev_involutive. reflexivity. Qed.

Lemma frame_of_preds_from (preds : list (list V)) (df : DataFrame V) :
  shape1 (fold_left (fun df a => concat df (frame_of_array a)) preds df)
  = shape1 df + length preds.
Proof.
  revert df. induction preds as [| p preds IH]; simpl; intros df.
  - rewrite Nat.add_0_r. reflexivity.
  - rewrite IH, shape1_concat. unfold shape1 at 2. simpl. lia.
Qed.

Lemma frame_of_preds_cols (preds : list (list V)) :
  length (cols (frame_of_preds preds)) = length preds.
Proof. unfold frame_of_preds. apply (frame_of_preds_from preds empty_frame). Qed.

Lemma model_names_infer_length names : length (model_names_infer names) = length names.
Proof.
  unfold model_names_infer, enumerate, catboost_fixed.
  rewrite length_map, enumerate_from_length, length_map. reflexivity.
Qed.

Lemma predict_bases bases (Xtest : DataFrame V) preds h :
  Forall2 (fun l p => predict_obj (objs h l) Xtest = Ok p) bases preds ->
  for_each (fun i => l <- as_obj "predict" i ;; predict l Xtest) (map Est bases) h
  = (Ok preds, h).
Proof.
  induction 1 as [| l p bases preds Hp _ IH]; simpl; [reflexivity | ].
  erewrite bind_step
    by (unfold bind, as_obj, ret, predict; simpl; rewrite Hp; reflexivity).
  erewrite bind_step by exact IH. reflexivity.
Qed.

Lemma single_layer_tables_spec bases meta flag (Xtest : DataFrame V) preds h :
  Forall2 (fun l p => predict_obj (objs h l) Xtest = Ok p) bases preds ->
  single_layer_tables (AList (map Est bases ++ [meta; flag])) Xtest h
  = (Ok (flag, meta, infer_frame h bases preds, concat Xtest (infer_frame h bases preds)), h).
Proof.
  intros Hp. unfold single_layer_tables.
  erewrite bind_step by reflexivity. cbv beta iota.
  change (map Est bases ++ [meta; flag]) with (map Est bases ++ [meta] ++ [flag]).
  rewrite app_assoc.
  erewrite bind_step by (rewrite pop_last; reflexivity). cbv beta iota.
  erewrite bind_step by (rewrite pop_last; reflexivity). cbv beta iota.
  erewrite bind_step by reflexivity. cbv beta iota.
  erewrite bind_step by (apply predict_bases; exact Hp). cbv beta iota.
  assert (L : length (map Name (model_names_infer
               (map (fun i => Py.before_paren (str_of_item h i)) (map Est bases))))
              = length (cols (frame_of_preds preds))).
  { rewrite length_map, model_names_infer_length, !length_map, frame_of_preds_cols.
    eapply Forall2_length. exact Hp. }
  unfold set_columns. apply Nat.eqb_eq in L. rewrite L.
  erewrite bind_step by reflexivity. cbv beta iota.
  unfold ret, infer_frame. rewrite map_map. reflexivity.
Qed.

End SingleLayer.

(** On a single-layer stack container [predict_model] names the base
    predictions, asks the meta estimator for its predictions on the table
    of these columns alone, and only if that raises asks it again on the
    table that puts the raw features before them; the restack flag stored
    in the container is taken off the list and not consulted. *)
Theorem single_layer_tries_the_plain_table_first :
  forall (V : Type) {missing : Missing V} (h : heap V) (bases : list nat) (meta : nat) (b : bool)
         (Xtest : DataFrame V) (preds : list (list V)),
    Forall2 (fun l p => predict_obj (objs h l) Xtest = Ok p) bases preds ->
    predict_single_layer (AList (map Est bases ++ [Est meta; Flag b])) Xtest h
    = (match predict_obj (objs h meta) (infer_frame h bases preds) with
       | Ok p => Ok p
       | Raise _ => predict_obj (objs h meta) (concat Xtest (infer_frame h bases preds))
       end, h).
Proof.
  intros V missing h bases meta b Xtest preds Hp. unfold predict_single_layer.
  erewrite bind_step by (apply single_layer_tables_spec; exact Hp). cbv beta iota.
  unfold try_except, bind, as_obj, ret, predict.
  destruct (predict_obj (objs h meta) (infer_frame h bases preds)); reflexivity.
Qed.

Lemma single_layer_tries_the_plain_table_first_witness :
  predict_single_layer (AList (map Est [1; 2] ++ [Est 0; Flag true])) Demo.rows4 Demo.h0
  = (Ok [2; 2; 2; 2]%Z, Demo.h0).
Proof.
  rewrite (single_layer_tries_the_plain_table_first Z Demo.h0 [1; 2] 0 true Demo.rows4
             [[2; 2; 2; 2]%Z; [2; 2; 2; 2]%Z]).
  - reflexivity.
  - repeat constructor.
Defined.

(** C2. The restack flag stored in the container is not consulted at
    inference.  [stack_models] with [restack = True] returns a container
    that ends in the flag [True], with a meta estimator trained on the raw
    features and the base predictions together (four columns); on that
    container [predict_model] asks the meta estimator on the table of the
    two base predictions alone, and a meta estimator that takes a table of
    either width answers there: the predictions are made on the table
    without the raw features, where the procedure of the spec makes them
    on the restacked one. *)
Lemma C2_restack_flag_ignored_at_inference :
  let container := AList [Est 1; Est 2; Est 0; Flag true] in
  fst (stack_models Demo.linreg (Some Demo.g) [Est 1; Est 2] (Some (Est 0))
         (Py.Int 2) (Py.Int 4) (Py.Bool true) false (Py.Bool true) Demo.h0)
  = Ok [Est 1; Est 2; Est 0; Flag true]
  /\ option_map (fun d => shape1 (fst d)) (fitted_on (objs restacked 0)) = Some 4
  /\ option_map (fun t => (shape1 (snd (fst t)), shape1 (snd t)))
       (match fst (single_layer_tables container Demo.rows4 restacked) with
        | Ok t => Some t | Raise _ => None end) = Some (2, 4)
  /\ fst (predict_single_layer container Demo.rows4 restacked) = Ok [2; 2; 2; 2]%Z
  /\ fst (spec_predict_single_layer container Demo.rows4 restacked) = Ok [4; 4; 4; 4]%Z
  /\ fst (predict_model Demo.linreg Demo.rnd (Some Demo.g) container None 4 restacked)
     = Ok {| nrows := 4;
             cols := [(Name "age", [1; 2; 3; 4]%Z); (Name "bmi", [5; 6; 7; 8]%Z);
                      (Name "medv", [10; 20; 30; 40]%Z);
                      (Name "Label", [2; 2; 2; 2]%Z)] |}.
Proof. vm_compute. repeat split. Qed.

Section Inference.

Context {V : Type} {missing : Missing V}.
Local Abbreviation raises_only := (@raises_only V).
Variable LinearRegression : estimator V.
Variable np_round : Z -> V -> V.
Variable env : option (globals (V:=V)).
Local Open Scope py_scope.

Ltac plain_lib_tac := first [exact I | intros; apply plain_lib; assumption].

Lemma ro_copy_obj P memo l : raises_only P (copy_obj (V:=V) memo l).
Proof. unfold copy_obj. destruct (find _ memo); ro_auto idtac. Qed.

Lemma ro_copy_objs P memo ls : raises_only P (copy_objs (V:=V) memo ls).
Proof.
  revert memo. induction ls as [| l ls IH]; intros memo; simpl; [apply ro_ret | ].
  apply ro_bind; [apply ro_copy_obj | intros r].
  apply ro_bind; [apply IH | intros r']. apply ro_ret.
Qed.

Lemma ro_copy_items P memo items : raises_only P (copy_items (V:=V) memo items).
Proof.
  revert memo. induction items as [| i items IH]; intros memo; simpl; [apply ro_ret | ].
  apply ro_bind.
  - destruct i.
    + apply ro_bind; [apply ro_copy_obj | intros r; apply ro_ret].
    + apply ro_bind; [apply ro_copy_objs | intros r; apply ro_ret].
    + apply ro_ret.
  - intros r. apply ro_bind; [apply IH | intros r']. apply ro_ret.
Qed.

Lemma ro_deepcopy P a : raises_only P (deepcopy (V:=V) a).
Proof.
  destruct a; simpl.
  - apply ro_bind; [apply ro_copy_obj | intros r; apply ro_ret].
  - apply ro_bind; [apply ro_copy_items | intros r; apply ro_ret].
  - apply ro_ret.
Qed.

Lemma ro_infer_models_loop level (bp bpn : DataFrame V) last combined ic mc ipd :
  raises_only lib (infer_models_loop level bp bpn last combined ic mc ipd).
Proof.
  revert mc ipd. induction level as [| model rest IH]; intros mc ipd; simpl; [apply ro_ret | ].
  apply ro_bind.
  - apply ro_try_except. eapply ro_weaken; [apply plain_lib | apply ro_predict].
  - intros p. apply ro_bind; [apply ro_deref | intros o].
    apply ro_bind; [ | intros p'; apply IH].
    apply ro_lift. intros e H. apply plain_lib. eapply set_columns_plain; eassumption.
Qed.

Lemma ro_infer_levels_loop stacker (bp bpn : DataFrame V) last combined ic ipd :
  raises_only lib (infer_levels_loop stacker bp bpn last combined ic ipd).
Proof.
  revert last combined ic ipd.
  induction stacker as [| level rest IH]; intros last combined ic ipd; simpl; [apply ro_ret | ].
  apply ro_bind; [apply ro_as_level; exact I | intros lv].
  apply ro_bind; [apply ro_infer_models_loop | intros d]. apply IH.
Qed.

Lemma ro_predict_multi_layer model (Xtest : DataFrame V) :
  raises_only lib (predict_multi_layer model Xtest).
Proof.
  unfold predict_multi_layer, multi_layer_tables.
  repeat first
    [ match goal with
      | |- raises_only _ (infer_levels_loop _ _ _ _ _ _ _) => apply ro_infer_levels_loop
      end
    | ro_step
    | ro_leaf plain_lib_tac ].
Qed.

Lemma ro_predict_single_layer model (Xtest : DataFrame V) :
  raises_only lib (predict_single_layer model Xtest).
Proof.
  unfold predict_single_layer, single_layer_tables.
  repeat first [ ro_step | ro_leaf plain_lib_tac ].
Qed.

(** [predict_model] has no check of its own: whatever it raises is not
    an exit of this module. *)
Lemma ro_predict_model estimator data round :
  raises_only lib (predict_model LinearRegression np_round env estimator data round).
Proof.
  unfold predict_model.
  repeat first
    [ match goal with
      | |- raises_only _ (deepcopy _) => apply ro_deepcopy
      | |- raises_only _ (predict_multi_layer _ _) => apply ro_predict_multi_layer
      | |- raises_only _ (predict_single_layer _ _) => apply ro_predict_single_layer
      end
    | ro_step
    | ro_leaf plain_lib_tac ].
Qed.

Lemma single_layer_falls_through model (Xtest : DataFrame V) h flag m df dfr h' e1 e2 :
  single_layer_tables model Xtest h = (Ok (flag, Est m, df, dfr), h') ->
  predict_obj (objs h' m) df = Raise e1 ->
  predict_obj (objs h' m) dfr = Raise e2 ->
  predict_single_layer model Xtest h = (Raise e2, h').
Proof.
  intros Ht H1 H2. unfold predict_single_layer.
  erewrite bind_step by exact Ht. cbv beta iota.
  unfold try_except, bind, as_obj, ret, predict. rewrite H1, H2. reflexivity.
Qed.

Lemma multi_layer_falls_through model (Xtest : DataFrame V) h m combined inter h' e1 e2 :
  multi_layer_tables model Xtest h = (Ok (Est m, combined, Some inter), h') ->
  predict_obj (objs h' m) combined = Raise e1 ->
  predict_obj (objs h' m) inter = Raise e2 ->
  predict_multi_layer model Xtest h = (Raise e2, h').
Proof.
  intros Ht H1 H2. unfold predict_multi_layer.
  erewrite bind_step by exact Ht. cbv beta iota.
  unfold try_except, bind, as_obj, ret, predict, unbound. rewrite H1.
  unfold ret. cbv beta iota. rewrite H2. reflexivity.
Qed.

End Inference.

(** C3 (as amended). [predict_model] does not compare the number of
    columns of the table it rebuilds with what the meta estimator was
    trained on: it never fails with an error of this module.  When the meta
    estimator refuses the table it is first given and the fallback table as
    well, the call fails with the error the meta estimator raised on the
    fallback table. *)
Theorem C3_no_shape_check_in_predict_model :
  forall (V : Type) {missing : Missing V} (LinearRegression : estimator V) (np_round : Z -> V -> V)
         (env : option globals),
    (forall estimator data round (h : heap V) msg,
        fst (predict_model LinearRegression np_round env estimator data round h)
        <> Raise (SystemExit msg))
    /\ (forall model Xtest (h : heap V) flag m df dfr h' e1 e2,
           single_layer_tables model Xtest h = (Ok (flag, Est m, df, dfr), h') ->
           predict_obj (objs h' m) df = Raise e1 ->
           predict_obj (objs h' m) dfr = Raise e2 ->
           predict_single_layer model Xtest h = (Raise e2, h'))
    /\ (forall model Xtest (h : heap V) m combined inter h' e1 e2,
           multi_layer_tables model Xtest h = (Ok (Est m, combined, Some inter), h') ->
           predict_obj (objs h' m) combined = Raise e1 ->
           predict_obj (objs h' m) inter = Raise e2 ->
           predict_multi_layer model Xtest h = (Raise e2, h')).
Proof.
  intros V missing LinearRegression np_round env. split; [ | split].
  - intros estimator data round h msg H.
    destruct (predict_model LinearRegression np_round env estimator data round h)
      as [r h'] eqn:E. simpl in H. subst r.
    apply (ro_predict_model LinearRegression np_round env) in E. exact E.
  - intros. eapply single_layer_falls_through; eassumption.
  - intros. eapply multi_layer_falls_through; eassumption.
Qed.

Section Copies.

Context {V : Type} {missing : Missing V}.
Local Abbreviation frame := (@frame V).
Local Open Scope py_scope.

Lemma frame_refl h : frame h h.
Proof. split; [apply Nat.le_refl | reflexivity]. Qed.

Lemma frame_trans h1 h2 h3 : frame h1 h2 -> frame h2 h3 -> frame h1 h3.
Proof.
  intros [N1 O1] [N2 O2]. split; [lia | ].
  intros l Hl. rewrite O2 by lia. apply O1. exact Hl.
Qed.

Lemma alloc_ok (o : estimator V) h l h' :
  alloc o h = (Ok l, h') -> l = next h /\ objs h' l = o /\ next h' = S (next h) /\ frame h h'.
Proof.
  unfold alloc. intros H. inversion H; subst. clear H. simpl.
  rewrite Nat.eqb_refl. repeat split; [simpl; lia | ].
  intros l Hl. simpl in *. destruct (Nat.eqb l (next h)) eqn:E; [ | reflexivity].
  apply Nat.eqb_eq in E. lia.
Qed.

Lemma copy_obj_frame memo l (h : heap V) r h' :
  copy_obj memo l h = (Ok r, h') -> frame h h'.
Proof.
  unfold copy_obj. destruct (find _ memo).
  - intros H. inversion H. apply frame_refl.
  - intros H. inv_ok H as o h1 Eo. apply deref_ok in Eo as [-> ->].
    inv_ok H as l' h2 Ea. apply alloc_ok in Ea as (_ & _ & _ & F).
    apply ret_ok in H as [_ <-]. exact F.
Qed.

Lemma copy_objs_frame memo ls (h : heap V) r h' :
  copy_objs memo ls h = (Ok r, h') -> frame h h'.
Proof.
  revert memo h r h'. induction ls as [| l ls IH]; simpl; intros memo h r h' H.
  - inversion H. apply frame_refl.
  - inv_ok H as r1 h1 E1. apply copy_obj_frame in E1.
    inv_ok H as r2 h2 E2. apply IH in E2. apply ret_ok in H as [_ <-].
    eapply frame_trans; eassumption.
Qed.

Lemma copy_items_frame memo items (h : heap V) r h' :
  copy_items memo items h = (Ok r, h') -> frame h h'.
Proof.
  revert memo h r h'. induction items as [| i items IH]; simpl; intros memo h r h' H.
  - inversion H. apply frame_refl.
  - inv_ok H as r1 h1 E1. inv_ok H as r2 h2 E2. apply IH in E2.
    apply ret_ok in H as [_ <-].
    eapply frame_trans; [ | exact E2].
    destruct i.
    + inv_ok E1 as r0 h0 E0. apply copy_obj_frame in E0.
      apply ret_ok in E1 as [_ <-]. exact E0.
    + inv_ok E1 as r0 h0 E0. apply copy_objs_frame in E0.
      apply ret_ok in E1 as [_ <-]. exact E0.
    + inversion E1. apply frame_refl.
Qed.

(** The first element of the copy of a list is of the type of the first
    element of the list. *)
Lemma deepcopy_first first rest (h : heap V) a h' :
  deepcopy (AList (first :: rest)) h = (Ok a, h') ->
  exists first' rest', a = AList (first' :: rest') /\ type_of h' first' = type_of h first.
Proof.
  simpl. intros H. inv_ok H as r h1 Ec. apply ret_ok in H as [<- <-].
  simpl in Ec. inv_ok Ec as r1 h2 E1. inv_ok Ec as r2 h3 E2.
  apply ret_ok in Ec as [<- <-]. simpl.
  exists (snd r1), (snd r2). split; [reflexivity | ].
  apply copy_items_frame in E2 as [_ O].
  destruct first as [l | ls | b].
  - inv_ok E1 as r0 h0 E0. apply ret_ok in E1 as [<- <-]. simpl.
    unfold copy_obj in E0. simpl in E0.
    inv_ok E0 as o h4 Eo. apply deref_ok in Eo as [-> ->].
    inv_ok E0 as l' h5 Ea. apply alloc_ok in Ea as (-> & Ho & Hn & _).
    apply ret_ok in E0 as [<- <-]. simpl.
    rewrite O by lia. rewrite Ho. reflexivity.
  - inv_ok E1 as r0 h0 E0. apply ret_ok in E1 as [<- <-]. reflexivity.
  - inversion E1. reflexivity.
Qed.

Lemma for_each_heap {A B} (body : A -> M V B) xs h r h' :
  (forall x h r h', body x h = (r, h') -> h' = h) ->
  for_each body xs h = (r, h') -> h' = h.
Proof.
  intros Hb. revert r. induction xs as [| x xs IH]; simpl; intros r H.
  - inversion H. reflexivity.
  - unfold bind at 1 in H. destruct (body x h) as [[b | e] h1] eqn:E1.
    + apply Hb in E1. subst h1. unfold bind in H.
      destruct (for_each body xs h) as [[bs | e] h2] eqn:E2.
      * inversion H; subst. eapply IH. reflexivity.
      * inversion H; subst. eapply IH. reflexivity.
    + apply Hb in E1. inversion H; subst. reflexivity.
Qed.

Lemma pop_ok {A} (xs : list A) (h : heap V) ys a h' :
  pop xs h = (Ok (ys, a), h') -> xs = ys ++ [a] /\ h' = h.
Proof.
  unfold pop. destruct (rev xs) as [| x r] eqn:E; [discriminate | ].
  intros H. inversion H; subst. split; [ | reflexivity].
  rewrite <- (rev_involutive xs), E. reflexivity.
Qed.

(** What a successful single-layer prediction is. *)
Lemma predict_single_layer_ok model (Xtest : DataFrame V) h p h' :
  predict_single_layer model Xtest h = (Ok p, h') ->
  h' = h /\
  exists stacker flag m df dfr,
    model = AList (stacker ++ [Est m; flag]) /\
    single_layer_tables model Xtest h = (Ok (flag, Est m, df, dfr), h) /\
    (predict_obj (objs h m) df = Ok p \/
     (is_ok (predict_obj (objs h m) df) = false /\ predict_obj (objs h m) dfr = Ok p)).
Proof.
  intros H. unfold predict_single_layer in H.
  inv_ok H as r h1 Et. destruct r as [[[flag meta] df] dfr].
  assert (Hh : h1 = h /\ exists stacker, model = AList (stacker ++ [meta; flag])).
  { unfold single_layer_tables in Et.
    inv_ok Et as stacker h2 E0.
    assert (model = AList stacker /\ h2 = h) as [-> ->]
      by (destruct model; simpl in E0; inversion E0; split; reflexivity).
    inv_ok Et as r1 h3 E1. destruct r1 as [stacker1 restack].
    apply pop_ok in E1 as [-> ->].
    inv_ok Et as r2 h4 E2. destruct r2 as [stacker2 meta_model].
    apply pop_ok in E2 as [-> ->].
    inv_ok Et as hh h5 E3. inversion E3; subst hh h5. clear E3.
    inv_ok Et as base_pred h6 E4.
    apply for_each_heap in E4.
    2:{ intros x h0 r h0' Hx. unfold bind in Hx. destruct x; simpl in Hx;
        inversion Hx; reflexivity. }
    subst h6.
    inv_ok Et as df0 h7 E5. apply lift_ok in E5 as [_ ->].
    apply ret_ok in Et as [Et <-]. inversion Et; subst.
    split; [reflexivity | ]. exists stacker2. rewrite <- app_assoc. reflexivity. }
  destruct Hh as [-> [stacker ->]].
  unfold try_except in H.
  destruct meta as [m | ls | b].
  - unfold bind, as_obj, ret, predict in H.
    destruct (predict_obj (objs h m) df) as [p1 | e1] eqn:P1.
    + inversion H; subst. split; [reflexivity | ].
      exists stacker, flag, m, df, dfr.
      split; [reflexivity | ]. split; [exact Et | left; exact P1].
    + destruct (predict_obj (objs h m) dfr) as [p2 | e2] eqn:P2; inversion H; subst.
      split; [reflexivity | ].
      exists stacker, flag, m, df, dfr.
      split; [reflexivity | ].
      split; [exact Et | right; split; [rewrite P1; reflexivity | exact P2]].
  - simpl in H. discriminate H.
  - simpl in H. discriminate H.
Qed.

End Copies.

Section Labels.

Context {V : Type} {missing : Missing V}.
Local Abbreviation single_layer := (@single_layer V).
Variable LinearRegression : estimator V.
Variable np_round : Z -> V -> V.
Variable env : option (globals (V:=V)).
Local Open Scope py_scope.

Lemma concat_label (data : DataFrame V) pred_ round :
  columns (concat data (label_of np_round pred_ round)) = columns data ++ [Name "Label"]
  /\ (length pred_ = nrows data ->
      concat data (label_of np_round pred_ round)
      = {| nrows := nrows data;
           cols := cols data ++ [(Name "Label", map (np_round round) pred_)] |}).
Proof.
  split; [apply columns_concat | ].
  intros E. apply concat_same_rows. simpl. symmetry. exact E.
Qed.


End Labels.

Lemma C3_witness :
  predict_single_layer (AList [Est 0; Est 1; Est 3; Flag false]) Demo.rows4 trained_on_three
  = (Raise (Foreign "X has a different number of features than the estimator was fitted on"),
     trained_on_three).
Proof.
  apply (proj1 (proj2 (C3_no_shape_check_in_predict_model Z Demo.linreg Demo.rnd (Some Demo.g)))
           (AList [Est 0; Est 1; Est 3; Flag false]) Demo.rows4 trained_on_three (Flag false) 3
           {| nrows := 4;
              cols := [(Name "Ridge_0", [2; 2; 2; 2]%Z); (Name "Lasso_1", [2; 2; 2; 2]%Z)] |}
           {| nrows := 4;
              cols := [(Name "age", [1; 2; 3; 4]%Z); (Name "bmi", [5; 6; 7; 8]%Z);
                       (Name "Ridge_0", [2; 2; 2; 2]%Z); (Name "Lasso_1", [2; 2; 2; 2]%Z)] |}
           trained_on_three
           (Foreign "X has a different number of features than the estimator was fitted on")).
  - vm_compute. reflexivity.
  - vm_compute. reflexivity.
  - vm_compute. reflexivity.
Defined.

(** C3 as stated fails: a container whose meta estimator was trained on
    three columns and that lists two base estimators makes [predict_model]
    rebuild tables of two and of four columns; the call fails with the
    error of the estimator, and no error of this module is raised. *)
Lemma C3_counterexample :
  let container := AList [Est 0; Est 1; Est 3; Flag false] in
  option_map (fun f => shape1 (fst f)) (fitted_on (objs trained_on_three 3)) = Some 3
  /\ option_map (fun t => (shape1 (snd (fst t)), shape1 (snd t)))
       (match fst (single_layer_tables container Demo.rows4 trained_on_three) with
        | Ok t => Some t | Raise _ => None end) = Some (2, 4)
  /\ fst (predict_model Demo.linreg Demo.rnd (Some Demo.g) container (Some Demo.rows4) 4
            trained_on_three)
     = Raise (Foreign "X has a different number of features than the estimator was fitted on").
Proof. vm_compute. repeat split. Qed.


(** * Further properties of the code *)

Section PureComputations.

Context {V : Type} {missing : Missing V}.
Local Abbreviation pure := (@pure V).
Local Open Scope py_scope.

Lemma pure_ret {A} (a : A) : pure (ret a).
Proof. intros h r h' H. inversion H. reflexivity. Qed.

Lemma pure_raise {A} e : pure (@raise V A e).
Proof. intros h r h' H. inversion H. reflexivity. Qed.

Lemma pure_lift {A} (r : result A) : pure (lift r).
Proof. intros h r0 h' H. inversion H. reflexivity. Qed.

Lemma pure_bind {A B} (m : M V A) (f : A -> M V B) :
  pure m -> (forall a, pure (f a)) -> pure (bind m f).
Proof.
  intros Hm Hf h r h' H. unfold bind in H.
  destruct (m h) as [[a | e] h1] eqn:E.
  - apply Hm in E. subst h1. eapply Hf. exact H.
  - apply Hm in E. inversion H; subst. reflexivity.
Qed.

Lemma pure_try_except {A} (body handler : M V A) :
  pure body -> pure handler -> pure (try_except body handler).
Proof.
  intros Hb Hh h r h' H. unfold try_except in H.
  destruct (body h) as [[a | e] h1] eqn:E.
  - apply Hb in E. inversion H; subst. reflexivity.
  - apply Hb in E. subst h1. eapply Hh. exact H.
Qed.

Lemma pure_for_each {A B} (body : A -> M V B) xs :
  (forall x, pure (body x)) -> pure (for_each body xs).
Proof.
  intros Hb. induction xs as [| x xs IH]; simpl.
  - apply pure_ret.
  - apply pure_bind; [apply Hb | intros b].
    apply pure_bind; [exact IH | intros bs; apply pure_ret].
Qed.

Lemma pure_get : pure (fun h : heap V => (Ok h, h)).
Proof. intros h r h' H. inversion H. reflexivity. Qed.

Lemma pure_deref l : pure (deref (V:=V) l).
Proof. intros h r h' H. inversion H. reflexivity. Qed.

Lemma pure_predict l (X : DataFrame V) : pure (predict l X).
Proof. intros h r h' H. inversion H. reflexivity. Qed.

Lemma pure_transform l (X : DataFrame V) : pure (transform l X).
Proof. intros h r h' H. inversion H. reflexivity. Qed.

Lemma pure_global {A} env name (proj : globals -> A) : pure (global (V:=V) env name proj).
Proof. unfold global. destruct env; [apply pure_ret | apply pure_raise]. Qed.

Lemma pure_check_item i : pure (check_item (V:=V) i).
Proof.
  intros h r h' H. unfold check_item in H.
  destruct (rejected_type _); inversion H; reflexivity.
Qed.

Lemma pure_cross_val_predict l (X : DataFrame V) y k : pure (sklearn.cross_val_predict l X y k).
Proof.
  unfold sklearn.cross_val_predict.
  apply pure_bind; [apply pure_deref | intros o].
  apply pure_bind; [apply pure_lift | intros cv].
  apply pure_bind; [apply pure_lift | intros folds]. apply pure_lift.
Qed.

End PureComputations.

Ltac pure_step :=
  match goal with
  | |- pure (bind _ _) => apply pure_bind; [ | intros ? ]
  | |- pure (ret _) => apply pure_ret
  | |- pure (raise _) => apply pure_raise
  | |- pure (lift _) => apply pure_lift
  | |- pure (deref _) => apply pure_deref
  | |- pure (predict _ _) => apply pure_predict
  | |- pure (transform _ _) => apply pure_transform
  | |- pure (global _ _ _) => apply pure_global
  | |- pure (check_item _) => apply pure_check_item
  | |- pure (sklearn.cross_val_predict _ _ _ _) => apply pure_cross_val_predict
  | |- pure (try_except _ _) => apply pure_try_except
  | |- pure (for_each _ _) => apply pure_for_each; intros ?
  | |- pure (fun h => (Ok h, h)) => apply pure_get
  | |- pure (as_obj _ _) => unfold as_obj
  | |- pure (as_level _) => unfold as_level
  | |- pure (check_int _ _) => unfold check_int
  | |- pure (check_bool _ _) => unfold check_bool
  | |- pure (exit_if _ _) => unfold exit_if
  | |- pure (metrics _ _) => unfold metrics
  | |- pure (monitor_name _ _) => unfold monitor_name
  | |- pure (IntProgress _) => unfold IntProgress
  | |- pure (pop _) => unfold pop
  | |- pure (pop0 _) => unfold pop0
  | |- pure (first_item _) => unfold first_item
  | |- pure (unbound _ _) => unfold unbound
  | |- pure (items_of _ _) => unfold items_of
  | |- pure (let '(_, _) := ?r in _) => destruct r
  | |- pure (match ?x with _ => _ end) => destruct x
  | |- pure (if ?b then _ else _) => destruct b
  end.

Ltac pure_auto := repeat pure_step.

Section PurePrediction.

Context {V : Type} {missing : Missing V}.
Local Abbreviation pure := (@pure V).
Local Open Scope py_scope.

Lemma pure_metrics (ytest : Series V) pred_ : pure (metrics ytest pred_).
Proof. pure_auto. Qed.

Lemma pure_infer_models_loop level (bp bpn : DataFrame V) last combined ic mc ipd :
  pure (infer_models_loop level bp bpn last combined ic mc ipd).
Proof.
  revert mc ipd. induction level as [| model rest IH]; intros mc ipd; simpl.
  - apply pure_ret.
  - apply pure_bind; [pure_auto | intros p].
    apply pure_bind; [pure_auto | intros o].
    apply pure_bind; [pure_auto | intros p']. apply IH.
Qed.

Lemma pure_infer_levels_loop stacker (bp bpn : DataFrame V) last combined ic ipd :
  pure (infer_levels_loop stacker bp bpn last combined ic ipd).
Proof.
  revert last combined ic ipd.
  induction stacker as [| level rest IH]; intros last combined ic ipd; simpl.
  - apply pure_ret.
  - apply pure_bind; [pure_auto | intros lv].
    apply pure_bind; [apply pure_infer_models_loop | intros d]. apply IH.
Qed.

Lemma pure_multi_layer_tables model (Xtest : DataFrame V) : pure (multi_layer_tables model Xtest).
Proof.
  unfold multi_layer_tables.
  apply pure_bind; [pure_auto | intros stacker].
  apply pure_bind; [pure_auto | intros [s1 restack]].
  apply pure_bind; [pure_auto | intros [s2 meta]].
  apply pure_bind; [pure_auto | intros [s3 base]].
  apply pure_bind; [pure_auto | intros ls].
  apply pure_bind; [pure_auto | intros h0].
  apply pure_bind; [pure_auto | intros preds].
  apply pure_bind; [pure_auto | intros df].
  apply pure_bind; [apply pure_infer_levels_loop | intros [c i]]. apply pure_ret.
Qed.

Lemma pure_predict_multi_layer model (Xtest : DataFrame V) :
  pure (predict_multi_layer model Xtest).
Proof.
  unfold predict_multi_layer.
  apply pure_bind; [apply pure_multi_layer_tables | intros [[meta c] i]].
  pure_auto.
Qed.

Lemma pure_single_layer_tables model (Xtest : DataFrame V) :
  pure (single_layer_tables model Xtest).
Proof.
  unfold single_layer_tables.
  apply pure_bind; [pure_auto | intros stacker].
  apply pure_bind; [pure_auto | intros [s1 restack]].
  apply pure_bind; [pure_auto | intros [s2 meta]].
  pure_auto.
Qed.

Lemma pure_predict_single_layer model (Xtest : DataFrame V) :
  pure (predict_single_layer model Xtest).
Proof.
  unfold predict_single_layer.
  apply pure_bind; [apply pure_single_layer_tables | intros [[[f meta] df] dfr]].
  pure_auto.
Qed.

End PurePrediction.

Section Writes.

Context {V : Type} {missing : Missing V}.
Local Abbreviation pure := (@pure V).
Local Abbreviation writes := (@writes V).
Local Open Scope py_scope.

Lemma pure_writes {A} W (m : M V A) : pure m -> writes W m.
Proof.
  intros Hp h r h' H _. apply Hp in H. subst h'. split; [apply Nat.le_refl | reflexivity].
Qed.

(** What follows a step may rely on what the step returned. *)
Lemma writes_bind_run {A B} W (m : M V A) (f : A -> M V B) :
  writes W m ->
  (forall a h h1, (forall l, next h <= l -> W l) -> m h = (Ok a, h1) -> writes W (f a)) ->
  writes W (bind m f).
Proof.
  intros Hm Hf h r h' H HW. unfold bind in H.
  destruct (m h) as [[a | e] h1] eqn:E.
  - destruct (Hm _ _ _ E HW) as [N1 O1].
    assert (HW1 : forall l, next h1 <= l -> W l) by (intros l Hl; apply HW; lia).
    destruct (Hf a h h1 HW E _ _ _ H HW1) as [N2 O2].
    split; [lia | ]. intros l Hl. rewrite O2, O1 by exact Hl. reflexivity.
  - inversion H; subst. exact (Hm _ _ _ E HW).
Qed.

Lemma writes_bind {A B} W (m : M V A) (f : A -> M V B) :
  writes W m -> (forall a, writes W (f a)) -> writes W (bind m f).
Proof. intros Hm Hf. apply writes_bind_run; [exact Hm | intros; apply Hf]. Qed.

Lemma writes_try_except {A} W (body handler : M V A) :
  writes W body -> writes W handler -> writes W (try_except body handler).
Proof.
  intros Hb Hh h r h' H HW. unfold try_except in H.
  destruct (body h) as [[a | e] h1] eqn:E.
  - inversion H; subst. exact (Hb _ _ _ E HW).
  - destruct (Hb _ _ _ E HW) as [N1 O1].
    assert (HW1 : forall l, next h1 <= l -> W l) by (intros l Hl; apply HW; lia).
    destruct (Hh _ _ _ H HW1) as [N2 O2].
    split; [lia | ]. intros l Hl. rewrite O2, O1 by exact Hl. reflexivity.
Qed.

Lemma writes_alloc W (o : estimator V) : writes W (alloc o).
Proof.
  intros h r h' H HW. unfold alloc in H. inversion H; subst. clear H. simpl.
  split; [lia | ]. intros l Hl.
  destruct (Nat.eqb l (next h)) eqn:E; [ | reflexivity].
  apply Nat.eqb_eq in E. subst l. exfalso. apply Hl, HW, Nat.le_refl.
Qed.

Lemma writes_fit W l (X : DataFrame V) y : W l -> writes W (fit l X y).
Proof.
  intros Hl h r h' H _. unfold fit in H.
  destruct (fit_method (objs h l)) as [f | ].
  - destruct (f X y).
    + inversion H; subst. split; [apply Nat.le_refl | reflexivity].
    + inversion H; subst. clear H. unfold update. simpl.
      split; [apply Nat.le_refl | ]. intros l0 Hl0.
      destruct (Nat.eqb l0 l) eqn:E; [ | reflexivity].
      apply Nat.eqb_eq in E. subst l0. contradiction.
  - inversion H; subst. split; [apply Nat.le_refl | reflexivity].
Qed.

Lemma writes_meta_cv_loop W model (data_X : DataFrame V) data_y folds :
  W model -> writes W (meta_cv_loop model data_X data_y folds).
Proof.
  intros Hm. induction folds as [| [train_i test_i] rest IH]; simpl.
  - apply pure_writes, pure_ret.
  - apply writes_bind; [apply writes_fit, Hm | intros _].
    apply writes_bind; [apply pure_writes, pure_predict | intros p].
    apply writes_bind; [apply pure_writes, pure_metrics | intros _]. exact IH.
Qed.

Lemma writes_stack_base_loop W estimator_list (data_X : DataFrame V) data_y fold models_ bp :
  (forall l, In l estimator_list -> W l) ->
  writes W (stack_base_loop estimator_list data_X data_y fold models_ bp).
Proof.
  revert models_ bp. induction estimator_list as [| model rest IH]; intros models_ bp HW; simpl.
  - apply pure_writes, pure_ret.
  - apply writes_bind; [apply writes_fit, HW; left; reflexivity | intros _].
    apply writes_bind; [apply pure_writes, pure_cross_val_predict | intros a].
    apply IH. intros l Hl. apply HW. right. exact Hl.
Qed.

Lemma writes_stacknet_base_loop W base_level (data_X : DataFrame V) data_y fold names c bm df :
  (forall l, In l base_level -> W l) ->
  writes W (stacknet_base_loop base_level data_X data_y fold names c bm df).
Proof.
  revert c bm df. induction base_level as [| model rest IH]; intros c bm df HW; simpl.
  - apply pure_writes, pure_ret.
  - apply writes_bind; [apply writes_fit, HW; left; reflexivity | intros fitted].
    apply writes_bind; [apply pure_writes; pure_auto | intros _].
    apply writes_bind; [apply pure_writes, pure_cross_val_predict | intros a].
    apply IH. intros l Hl. apply HW. right. exact Hl.
Qed.

Lemma fit_returns l (X : DataFrame V) y h l' h' : fit l X y h = (Ok l', h') -> l' = l.
Proof.
  unfold fit. destruct (fit_method (objs h l)) as [f | ]; [ | discriminate].
  destruct (f X y); [discriminate | ]. intros H. inversion H. reflexivity.
Qed.

Lemma writes_inter_models_loop W level (df : DataFrame V) data_y fold names ic mc inner idf :
  (forall l, In l level -> W l) ->
  writes W (inter_models_loop level df data_y fold names ic mc inner idf).
Proof.
  revert mc inner idf. induction level as [| model rest IH]; intros mc inner idf HW; simpl.
  - apply pure_writes, pure_ret.
  - apply writes_bind; [apply pure_writes; pure_auto | intros _].
    apply writes_bind; [apply writes_fit, HW; left; reflexivity | intros fitted].
    apply writes_bind; [apply pure_writes, pure_cross_val_predict | intros a].
    apply writes_bind; [apply pure_writes, pure_deref | intros o].
    apply writes_bind; [apply pure_writes, pure_lift | intros a'].
    apply IH. intros l Hl. apply HW. right. exact Hl.
Qed.

Lemma writes_inter_levels_loop W inter_level restack (data_y : Series V) fold names ic models_ df :
  (forall l, In l (List.concat inter_level) -> W l) ->
  writes W (inter_levels_loop inter_level restack data_y fold names ic models_ df).
Proof.
  revert ic models_ df.
  induction inter_level as [| level rest IH]; intros ic models_ df HW; simpl.
  - apply pure_writes, pure_ret.
  - apply writes_bind.
    + apply writes_inter_models_loop. intros l Hl. apply HW. simpl. apply in_or_app. left. exact Hl.
    + intros [inner idf]. apply IH. intros l Hl. apply HW. simpl. apply in_or_app. right. exact Hl.
Qed.

End Writes.

Section WritesStacking.

Context {V : Type} {missing : Missing V}.
Local Abbreviation pure := (@pure V).
Local Abbreviation writes := (@writes V).
Variable LinearRegression : estimator V.
Variable env : option (globals (V:=V)).
Local Open Scope py_scope.

Lemma supplied_locs (W : nat -> Prop) estimator_list meta_model :
  (forall i, In i (supplied estimator_list meta_model) -> forall l, In l (locs_of i) -> W l) ->
  (forall ls, estimator_list = map Est ls -> forall l, In l ls -> W l)
  /\ (forall m, meta_model = Some (Est m) -> W m).
Proof.
  intros HS. split.
  - intros ls -> l Hl. apply (HS (Est l)); [ | left; reflexivity].
    unfold supplied. apply in_or_app. left. apply in_map. exact Hl.
  - intros m ->. apply (HS (Est m)); [ | left; reflexivity].
    unfold supplied. apply in_or_app. right. left. reflexivity.
Qed.

Lemma meta_choice_writes (W : nat -> Prop) (meta_model : option item) :
  writes W (match meta_model with
            | None => alloc LinearRegression
            | Some m => as_obj "fit" m
            end).
Proof.
  destruct meta_model as [m | ]; [apply pure_writes; pure_auto | apply writes_alloc].
Qed.

Lemma meta_choice_ok (W : nat -> Prop) (meta_model : option item) h m h' :
  (forall m0, meta_model = Some (Est m0) -> W m0) ->
  (forall l, next h <= l -> W l) ->
  match meta_model with
  | None => alloc LinearRegression
  | Some m => as_obj "fit" m
  end h = (Ok m, h') ->
  W m.
Proof.
  intros Hm HW H. destruct meta_model as [i | ].
  - apply as_obj_ok in H as [-> _]. apply Hm. reflexivity.
  - apply alloc_ok in H as (-> & _). apply HW, Nat.le_refl.
Qed.

Lemma writes_stack_models_features W estimator_list meta_model fold round restack finalize verbose :
  (forall i, In i (supplied estimator_list meta_model) -> forall l, In l (locs_of i) -> W l) ->
  writes W (stack_models_features LinearRegression env estimator_list meta_model fold round
              restack finalize verbose).
Proof.
  intros HS. destruct (supplied_locs W _ _ HS) as [Hls Hm].
  unfold stack_models_features.
  apply writes_bind; [apply pure_writes; pure_auto | intros _].
  apply writes_bind; [apply pure_writes; pure_auto | intros _].
  apply writes_bind; [apply pure_writes; pure_auto | intros k].
  apply writes_bind; [apply pure_writes; pure_auto | intros _].
  apply writes_bind; [apply pure_writes; pure_auto | intros b].
  apply writes_bind; [apply pure_writes; pure_auto | intros _].
  apply writes_bind; [apply pure_writes; pure_auto | intros _].
  apply writes_bind_run; [apply pure_writes; unfold all_objs; pure_auto | ].
  intros ls h h1 _ Els. apply all_objs_ok in Els as [Els _].
  apply writes_bind; [apply meta_choice_writes | intros m].
  apply writes_bind; [apply pure_writes; pure_auto | intros dX].
  apply writes_bind; [apply pure_writes; pure_auto | intros dy].
  apply writes_bind; [apply pure_writes; pure_auto | intros h0].
  apply writes_bind; [apply writes_stack_base_loop, (Hls ls Els) | intros [ms bp]].
  apply pure_writes. pure_auto.
Qed.

Lemma stack_models_features_meta (W : nat -> Prop) estimator_list meta_model fold round restack finalize verbose
    h ms m dX dy k b h' :
  (forall i, In i (supplied estimator_list meta_model) -> forall l, In l (locs_of i) -> W l) ->
  (forall l, next h <= l -> W l) ->
  stack_models_features LinearRegression env estimator_list meta_model fold round
    restack finalize verbose h = (Ok (ms, m, dX, dy, k, b), h') ->
  W m.
Proof.
  intros HS HW H. destruct (supplied_locs W _ _ HS) as [_ Hm].
  unfold stack_models_features in H.
  inv_ok H as u1 h1 E1. apply for_each_heap in E1; [ | intros; eapply pure_check_item; eassumption].
  subst h1.
  inv_ok H as u2 h2 E2.
  assert (h2 = h) as ->.
  { destruct meta_model; [eapply pure_check_item; eassumption | inversion E2; reflexivity]. }
  inv_ok H as k0 h3 E3. apply check_int_ok in E3 as [_ ->].
  inv_ok H as r0 h4 E4. apply check_int_ok in E4 as [_ ->].
  inv_ok H as b0 h5 E5. apply check_bool_ok in E5 as [_ ->].
  inv_ok H as v0 h6 E6. apply check_bool_ok in E6 as [_ ->].
  inv_ok H as pg h6 E6. apply IntProgress_ok in E6 as [_ ->].
  inv_ok H as ls h7 E7. apply all_objs_ok in E7 as [_ ->].
  inv_ok H as m0 h8 E8. pose proof (meta_choice_ok W _ _ _ _ Hm HW E8) as Wm.
  inv_ok H as dX0 h9 E9. inv_ok H as dy0 h10 E10. inv_ok H as hh h11 E11.
  inv_ok H as r h12 E12. destruct r as [ms0 bp].
  inv_ok H as t h13 E13. inv_ok H as bp1 h14 E14. inv_ok H as bp2 h15 E15.
  inv_ok H as u h16 E16. apply ret_ok in H as [H _]. inversion H; subst. exact Wm.
Qed.

Lemma writes_stack_models W estimator_list meta_model fold round restack finalize verbose :
  (forall i, In i (supplied estimator_list meta_model) -> forall l, In l (locs_of i) -> W l) ->
  writes W (stack_models LinearRegression env estimator_list meta_model fold round
              restack finalize verbose).
Proof.
  intros HS. unfold stack_models.
  apply writes_bind_run; [apply writes_stack_models_features, HS | ].
  intros [[[[[ms m] dX] dy] k] b] h h1 HW E.
  pose proof (stack_models_features_meta W _ _ _ _ _ _ _ _ _ _ _ _ _ _ _ HS HW E) as Wm.
  apply writes_bind; [apply writes_fit, Wm | intros _].
  apply writes_bind; [apply pure_writes; pure_auto | intros s].
  apply writes_bind; [apply pure_writes; pure_auto | intros kf].
  apply writes_bind; [apply pure_writes; pure_auto | intros folds].
  apply writes_bind; [apply writes_meta_cv_loop, Wm | intros _].
  apply pure_writes, pure_ret.
Qed.

End WritesStacking.

Section WritesStacknet.

Context {V : Type} {missing : Missing V}.
Local Abbreviation pure := (@pure V).
Local Abbreviation writes := (@writes V).
Variable LinearRegression : estimator V.
Variable env : option (globals (V:=V)).
Local Open Scope py_scope.

Lemma supplied_levels (W : nat -> Prop) estimator_list meta_model :
  (forall i, In i (supplied estimator_list meta_model) -> forall l, In l (locs_of i) -> W l) ->
  (forall levels, estimator_list = map Level levels ->
                  forall l, In l (List.concat levels) -> W l).
Proof.
  intros HS levels -> l Hl. apply in_concat in Hl as (ls & Hls & Hl).
  apply (HS (Level ls)); [ | exact Hl].
  unfold supplied. apply in_or_app. left. apply in_map. exact Hls.
Qed.

Lemma pure_level_checks (estimator_list : list item) :
  pure (for_each (fun i => level <- as_level i ;;
                           for_each (fun j : nat => check_item (Est j)) level ;;;
                           ret level) estimator_list).
Proof. pure_auto. Qed.

Lemma writes_create_stacknet_features W estimator_list meta_model fold round restack
    finalize verbose :
  (forall i, In i (supplied estimator_list meta_model) -> forall l, In l (locs_of i) -> W l) ->
  writes W (create_stacknet_features LinearRegression env estimator_list meta_model fold round
              restack finalize verbose).
Proof.
  intros HS. pose proof (supplied_levels W _ _ HS) as Hlv.
  unfold create_stacknet_features.
  apply writes_bind_run; [apply pure_writes, pure_level_checks | ].
  intros levels h h1 _ El. apply check_levels_ok in El as [El _].
  specialize (Hlv levels El).
  apply writes_bind; [apply pure_writes; pure_auto | intros _].
  apply writes_bind; [apply pure_writes; pure_auto | intros k].
  apply writes_bind; [apply pure_writes; pure_auto | intros _].
  apply writes_bind; [apply pure_writes; pure_auto | intros b].
  apply writes_bind; [apply pure_writes; pure_auto | intros _].
  apply writes_bind; [apply pure_writes; pure_auto | intros _].
  apply writes_bind_run; [apply pure_writes; pure_auto | ].
  intros bl h2 h3 _ Eb.
  assert (exists inter, levels = bl :: inter) as [inter ->].
  { destruct levels as [| b0 inter]; [discriminate Eb | ].
    apply ret_ok in Eb as [-> _]. exists inter. reflexivity. }
  simpl concat in Hlv. simpl tl.
  apply writes_bind; [apply pure_writes; pure_auto | intros h0].
  apply writes_bind; [apply pure_writes; pure_auto | intros dX].
  apply writes_bind; [apply pure_writes; pure_auto | intros dy].
  apply writes_bind; [apply meta_choice_writes | intros m].
  apply writes_bind.
  { apply writes_stacknet_base_loop. intros l Hl. apply Hlv, in_or_app. left. exact Hl. }
  intros [bm df].
  apply writes_bind; [apply pure_writes; pure_auto | intros df'].
  apply writes_bind.
  { apply writes_inter_levels_loop. intros l Hl. apply Hlv, in_or_app. right. exact Hl. }
  intros [ms df2]. apply pure_writes, pure_ret.
Qed.

Lemma create_stacknet_features_meta (W : nat -> Prop) estimator_list meta_model fold round
    restack finalize verbose h ms m dX dy k b h' :
  (forall i, In i (supplied estimator_list meta_model) -> forall l, In l (locs_of i) -> W l) ->
  (forall l, next h <= l -> W l) ->
  create_stacknet_features LinearRegression env estimator_list meta_model fold round
    restack finalize verbose h = (Ok (ms, m, dX, dy, k, b), h') ->
  W m.
Proof.
  intros HS HW H. destruct (supplied_locs W _ _ HS) as [_ Hm].
  unfold create_stacknet_features in H.
  inv_ok H as levels h1 E1. apply check_levels_ok in E1 as [_ ->].
  inv_ok H as u2 h2 E2.
  assert (h2 = h) as ->.
  { destruct meta_model; [eapply pure_check_item; eassumption | inversion E2; reflexivity]. }
  inv_ok H as k0 h3 E3. apply check_int_ok in E3 as [_ ->].
  inv_ok H as r0 h4 E4. apply check_int_ok in E4 as [_ ->].
  inv_ok H as b0 h5 E5. apply check_bool_ok in E5 as [_ ->].
  inv_ok H as v0 h6 E6. apply check_bool_ok in E6 as [_ ->].
  inv_ok H as pg h6 E6. apply IntProgress_ok in E6 as [_ ->].
  inv_ok H as bl h7 E7.
  assert (h7 = h) as -> by (destruct levels; [discriminate E7 | inversion E7; reflexivity]).
  inv_ok H as hh h8 E8. inversion E8; subst hh h8. clear E8.
  inv_ok H as dX0 h9 E9.
  assert (h9 = h) as -> by (destruct finalize; eapply pure_global; eassumption).
  inv_ok H as dy0 h10 E10.
  assert (h10 = h) as -> by (destruct finalize; eapply pure_global; eassumption).
  inv_ok H as m0 h11 E11. pose proof (meta_choice_ok LinearRegression W _ _ _ _ Hm HW E11) as Wm.
  inv_ok H as r h12 E12. destruct r as [bm df].
  inv_ok H as df1 h13 E13. inv_ok H as r2 h14 E14. destruct r2 as [ms2 df2].
  apply ret_ok in H as [H _]. inversion H; subst. exact Wm.
Qed.

Lemma writes_create_stacknet W estimator_list meta_model fold round restack finalize verbose :
  (forall i, In i (supplied estimator_list meta_model) -> forall l, In l (locs_of i) -> W l) ->
  writes W (create_stacknet LinearRegression env estimator_list meta_model fold round
              restack finalize verbose).
Proof.
  intros HS. unfold create_stacknet.
  apply writes_bind_run; [apply writes_create_stacknet_features, HS | ].
  intros [[[[[ms m] dX] dy] k] b] h h1 HW E.
  pose proof (create_stacknet_features_meta W _ _ _ _ _ _ _ _ _ _ _ _ _ _ _ HS HW E) as Wm.
  apply writes_bind; [apply writes_fit, Wm | intros m'].
  apply writes_bind; [apply pure_writes; pure_auto | intros s].
  apply writes_bind; [apply pure_writes; pure_auto | intros kf].
  apply writes_bind; [apply pure_writes; pure_auto | intros folds].
  apply writes_bind; [apply writes_meta_cv_loop, Wm | intros _].
  apply pure_writes, pure_ret.
Qed.

End WritesStacknet.

Section WritesCopies.

Context {V : Type} {missing : Missing V}.
Local Abbreviation pure := (@pure V).
Local Abbreviation writes := (@writes V).
Local Abbreviation frame := (@frame V).
Variable LinearRegression : estimator V.
Variable np_round : Z -> V -> V.
Variable env : option (globals (V:=V)).
Local Open Scope py_scope.

Lemma writes_copy_obj W memo l : writes W (copy_obj (V:=V) memo l).
Proof.
  unfold copy_obj. destruct (find _ memo); [apply pure_writes, pure_ret | ].
  apply writes_bind; [apply pure_writes, pure_deref | intros o].
  apply writes_bind; [apply writes_alloc | intros l']. apply pure_writes, pure_ret.
Qed.

Lemma writes_copy_objs W memo ls : writes W (copy_objs (V:=V) memo ls).
Proof.
  revert memo. induction ls as [| l ls IH]; intros memo; simpl.
  - apply pure_writes, pure_ret.
  - apply writes_bind; [apply writes_copy_obj | intros r].
    apply writes_bind; [apply IH | intros r']. apply pure_writes, pure_ret.
Qed.

Lemma writes_copy_items W memo items : writes W (copy_items (V:=V) memo items).
Proof.
  revert memo. induction items as [| i items IH]; intros memo; simpl.
  - apply pure_writes, pure_ret.
  - apply writes_bind.
    + destruct i.
      * apply writes_bind; [apply writes_copy_obj | intros r]. apply pure_writes, pure_ret.
      * apply writes_bind; [apply writes_copy_objs | intros r]. apply pure_writes, pure_ret.
      * apply pure_writes, pure_ret.
    + intros r. apply writes_bind; [apply IH | intros r']. apply pure_writes, pure_ret.
Qed.

Lemma writes_deepcopy W a : writes W (deepcopy (V:=V) a).
Proof.
  destruct a; simpl.
  - apply writes_bind; [apply writes_copy_obj | intros r]. apply pure_writes, pure_ret.
  - apply writes_bind; [apply writes_copy_items | intros r]. apply pure_writes, pure_ret.
  - apply pure_writes, pure_ret.
Qed.

Lemma free_after (W : nat -> Prop) (h h' : heap V) :
  frame h h' -> (forall l, next h <= l -> W l) -> forall l, next h' <= l -> W l.
Proof. intros [N _] HW l Hl. apply HW. lia. Qed.

Lemma copy_obj_new (W : nat -> Prop) memo l (h : heap V) r h' :
  copy_obj memo l h = (Ok r, h') ->
  (forall l, next h <= l -> W l) -> all_in W memo ->
  W (snd r) /\ all_in W (fst r).
Proof.
  unfold copy_obj. intros H HW Hm. destruct (find _ memo) as [p | ] eqn:F.
  - apply ret_ok in H as [<- _]. simpl. split; [ | exact Hm].
    apply find_some in F as [F _]. apply Hm. exact F.
  - inv_ok H as o h1 Eo. apply deref_ok in Eo as [-> ->].
    inv_ok H as l' h2 Ea. apply alloc_ok in Ea as (-> & _).
    apply ret_ok in H as [<- _]. simpl.
    assert (Wn : W (next h)) by apply HW, Nat.le_refl.
    split; [exact Wn | ]. intros p [<- | Hp]; [exact Wn | apply Hm, Hp].
Qed.

Lemma copy_objs_new (W : nat -> Prop) memo ls (h : heap V) r h' :
  copy_objs memo ls h = (Ok r, h') ->
  (forall l, next h <= l -> W l) -> all_in W memo ->
  (forall l, In l (snd r) -> W l) /\ all_in W (fst r).
Proof.
  revert memo h r h'. induction ls as [| l ls IH]; simpl; intros memo h r h' H HW Hm.
  - apply ret_ok in H as [<- _]. simpl. split; [intros l [] | exact Hm].
  - inv_ok H as r1 h1 E1. pose proof (copy_obj_frame _ _ _ _ _ E1) as F1.
    apply (copy_obj_new W) in E1 as [W1 M1]; [ | exact HW | exact Hm].
    inv_ok H as r2 h2 E2.
    apply IH in E2 as [W2 M2]; [ | exact (free_after W _ _ F1 HW) | exact M1].
    apply ret_ok in H as [<- _]. simpl. split; [ | exact M2].
    intros l0 [<- | Hl0]; [exact W1 | apply W2, Hl0].
Qed.

Lemma copy_items_new (W : nat -> Prop) memo items (h : heap V) r h' :
  copy_items memo items h = (Ok r, h') ->
  (forall l, next h <= l -> W l) -> all_in W memo ->
  (forall i, In i (snd r) -> forall l, In l (locs_of i) -> W l) /\ all_in W (fst r).
Proof.
  revert memo h r h'. induction items as [| i items IH]; simpl; intros memo h r h' H HW Hm.
  - apply ret_ok in H as [<- _]. simpl. split; [intros i [] | exact Hm].
  - inv_ok H as r1 h1 E1.
    assert (frame h h1 /\ (forall l, In l (locs_of (snd r1)) -> W l) /\ all_in W (fst r1))
      as (F1 & W1 & M1).
    { destruct i as [l | ls | b].
      - inv_ok E1 as r0 h0 E0. apply ret_ok in E1 as [<- <-]. simpl.
        split; [eapply copy_obj_frame; exact E0 | ].
        apply (copy_obj_new W) in E0 as [W0 M0]; [ | exact HW | exact Hm].
        split; [intros l0 [<- | []]; exact W0 | exact M0].
      - inv_ok E1 as r0 h0 E0. apply ret_ok in E1 as [<- <-]. simpl.
        split; [eapply copy_objs_frame; exact E0 | ].
        apply (copy_objs_new W) in E0 as [W0 M0]; [ | exact HW | exact Hm].
        split; [exact W0 | exact M0].
      - apply ret_ok in E1 as [<- <-]. simpl.
        split; [apply frame_refl | ]. split; [intros l [] | exact Hm]. }
    inv_ok H as r2 h2 E2.
    apply IH in E2 as [W2 M2]; [ | exact (free_after W _ _ F1 HW) | exact M1].
    apply ret_ok in H as [<- _]. simpl. split; [ | exact M2].
    intros i0 [<- | Hi0]; [exact W1 | apply W2, Hi0].
Qed.

Lemma deepcopy_new (W : nat -> Prop) a (h : heap V) a' h' :
  deepcopy a h = (Ok a', h') ->
  (forall l, next h <= l -> W l) ->
  forall l, In l (locs_of_arg a') -> W l.
Proof.
  intros H HW. destruct a as [l0 | items | b]; simpl in H.
  - inv_ok H as r h1 E. apply ret_ok in H as [<- _].
    apply (copy_obj_new W) in E as [W0 _]; [ | exact HW | intros p []].
    intros l [<- | []]. exact W0.
  - inv_ok H as r h1 E. apply ret_ok in H as [<- _].
    apply (copy_items_new W) in E as [W0 _]; [ | exact HW | intros p []].
    intros l Hl. simpl in Hl. apply in_flat_map in Hl as (i & Hi & Hl). exact (W0 i Hi l Hl).
  - apply ret_ok in H as [<- _]. intros l [].
Qed.

Lemma writes_finalize_model W estimator :
  writes W (finalize_model LinearRegression env estimator).
Proof.
  unfold finalize_model. destruct estimator as [l0 | items | b].
  - apply writes_bind_run; [apply writes_deepcopy | ].
    intros a h h1 HW Ea. pose proof (deepcopy_new W _ _ _ _ Ea HW) as Wa.
    apply writes_bind_run; [apply pure_writes; pure_auto | ].
    intros l h2 h3 _ El.
    assert (Wl : W l).
    { destruct a; try discriminate El. apply ret_ok in El as [<- _].
      apply Wa. left. reflexivity. }
    apply writes_bind.
    { apply pure_writes. intros h4 r h5 H.
      destruct (fit_method (objs h4 l)); inversion H; reflexivity. }
    intros _.
    apply writes_bind; [apply pure_writes; pure_auto | intros dX].
    apply writes_bind; [apply pure_writes; pure_auto | intros dy].
    apply writes_bind; [apply writes_fit, Wl | intros _]. apply pure_writes, pure_ret.
  - apply writes_bind; [apply pure_writes; pure_auto | intros first].
    apply writes_bind_run; [apply writes_deepcopy | ].
    intros a h h1 HW Ea. pose proof (deepcopy_new W _ _ _ _ Ea HW) as Wa.
    apply writes_bind_run; [apply pure_writes; pure_auto | ].
    intros its h2 h3 _ Ei.
    assert (a = AList its) as ->
      by (destruct a; try discriminate Ei; apply ret_ok in Ei as [<- _]; reflexivity).
    apply writes_bind_run; [apply pure_writes; pure_auto | ].
    intros [sf flag] h4 h5 _ Ep. apply pop_ok in Ep as [-> _].
    apply writes_bind_run; [apply pure_writes; pure_auto | ].
    intros [sf' meta] h6 h7 _ Ep. apply pop_ok in Ep as [-> _].
    assert (HS : forall i, In i (supplied sf' (Some meta)) ->
                           forall l, In l (locs_of i) -> W l).
    { intros i Hi l Hl. apply Wa. simpl. apply in_flat_map. exists i. split; [ | exact Hl].
      unfold supplied in Hi. apply in_or_app. left. exact Hi. }
    apply writes_bind; [ | intros c; apply pure_writes, pure_ret].
    destruct (is_level first).
    + apply writes_create_stacknet, HS.
    + apply writes_stack_models, HS.
  - apply writes_bind_run; [apply writes_deepcopy | ].
    intros a h h1 HW Ea.
    apply writes_bind_run; [apply pure_writes; pure_auto | ].
    intros l h2 h3 _ El. simpl in Ea. apply ret_ok in Ea as [<- _]. discriminate El.
Qed.

Lemma writes_predict_model W estimator data round :
  writes W (predict_model LinearRegression np_round env estimator data round).
Proof.
  unfold predict_model.
  apply writes_bind.
  - destruct data as [data | ]; [ | apply pure_writes; pure_auto].
    apply writes_bind; [apply writes_deepcopy | intros a].
    apply writes_bind; [apply pure_writes; pure_auto | intros [prep est]].
    apply writes_bind.
    { apply writes_try_except; [apply writes_finalize_model | apply pure_writes, pure_ret]. }
    intros model. apply pure_writes. pure_auto.
  - intros [[[[est model] Xtest] ytest] Xt].
    apply pure_writes.
    apply pure_bind.
    { destruct est as [l | items | b].
      - pure_auto.
      - apply pure_bind; [pure_auto | intros first].
        destruct (is_level first);
          [apply pure_predict_multi_layer | apply pure_predict_single_layer].
      - pure_auto. }
    intros p. apply pure_bind; [destruct ytest; [apply pure_metrics | apply pure_ret] | intros _].
    destruct ytest; apply pure_ret.
Qed.

End WritesCopies.

Section HoldOut.

Context {V : Type} {missing : Missing V}.
Local Abbreviation pure := (@pure V).
Variable LinearRegression : estimator V.
Variable np_round : Z -> V -> V.
Variable env : option (globals (V:=V)).
Local Open Scope py_scope.

Lemma pure_predict_with estimator model (Xtest : DataFrame V) :
  pure (match estimator with
        | AList items =>
            first <- first_item items ;;
            if is_level first
            then predict_multi_layer model Xtest
            else predict_single_layer model Xtest
        | _ =>
            match model with
            | AObj l => predict l Xtest
            | _ => raise (AttributeError "predict")
            end
        end).
Proof.
  destruct estimator as [l | items | b].
  - pure_auto.
  - apply pure_bind; [pure_auto | intros first].
    destruct (is_level first); [apply pure_predict_multi_layer | apply pure_predict_single_layer].
  - pure_auto.
Qed.

Lemma pure_predict_model_hold_out estimator round :
  pure (predict_model LinearRegression np_round env estimator None round).
Proof.
  unfold predict_model.
  apply pure_bind; [pure_auto | intros [[[[est model] Xtest] ytest] Xt]].
  apply pure_bind; [apply pure_predict_with | intros p].
  apply pure_bind; [destruct ytest; [apply pure_metrics | apply pure_ret] | intros _].
  destruct ytest; apply pure_ret.
Qed.

End HoldOut.

(** [finalize_model] works on a deep copy of the estimators: whatever it
    returns or raises, every estimator object that existed before the call
    is afterwards exactly as it was (in particular as fitted as it was),
    and none is removed.  (The experiment log the function appends to is
    not an estimator object; it is outside this statement.) *)
Theorem finalize_model_keeps_given_objects :
  forall (V : Type) {missing : Missing V} (LinearRegression : estimator V) (env : option globals)
         (estimator : arg) (h : heap V),
    frame h (snd (finalize_model LinearRegression env estimator h)).
Proof.
  intros V missing LinearRegression env estimator h.
  destruct (finalize_model LinearRegression env estimator h) as [r h'] eqn:E. simpl.
  destruct (writes_finalize_model LinearRegression env (fun l => next h <= l) estimator h r h' E)
    as [N O]; [intros l Hl; exact Hl | ].
  split; [exact N | ]. intros l Hl. apply O. lia.
Qed.

(** [predict_model] never changes an estimator it is given: on the
    hold-out set the store is left exactly as it was, and with a table of
    new rows every estimator object that existed before the call is as it
    was (the copies it makes and re-fits are new objects). *)
Theorem predict_model_keeps_given_objects :
  forall (V : Type) {missing : Missing V} (LinearRegression : estimator V) (np_round : Z -> V -> V)
         (env : option globals) (estimator : arg) (round : Z) (h : heap V),
    snd (predict_model LinearRegression np_round env estimator None round h) = h
    /\ forall data,
        frame h (snd (predict_model LinearRegression np_round env estimator (Some data) round h)).
Proof.
  intros V missing LinearRegression np_round env estimator round h. split.
  - destruct (predict_model LinearRegression np_round env estimator None round h)
      as [r h'] eqn:E. simpl.
    eapply pure_predict_model_hold_out. exact E.
  - intros data.
    destruct (predict_model LinearRegression np_round env estimator (Some data) round h)
      as [r h'] eqn:E. simpl.
    destruct (writes_predict_model LinearRegression np_round env (fun l => next h <= l)
                estimator (Some data) round h r h' E) as [N O]; [intros l Hl; exact Hl | ].
    split; [exact N | ]. intros l Hl. apply O. lia.
Qed.

Section StackModelsRun.

Context {V : Type} {missing : Missing V}.
Local Abbreviation same_objs := (@same_objs V).
Variable LinearRegression : estimator V.
Variable env : option (globals (V:=V)).
Local Open Scope py_scope.
Import sklearn.

Lemma global_ok {A} name (proj : globals -> A) (h : heap V) a h' :
  global env name proj h = (Ok a, h') -> exists g, env = Some g /\ a = proj g /\ h' = h.
Proof.
  unfold global. destruct env as [g | ]; [ | discriminate].
  intros H. apply ret_ok in H as [<- <-]. exists g. repeat split.
Qed.

(** A successful run of the first part of [stack_models], step by
    step. *)
Lemma stack_models_features_inv estimator_list meta_model fold round restack finalize verbose
    (h : heap V) ms m table dy k b h1 :
  stack_models_features LinearRegression env estimator_list meta_model fold round
    restack finalize verbose h = (Ok (ms, m, table, dy, k, b), h1) ->
  exists g ls h0 bp bp1 bp2 target,
    env = Some g /\ estimator_list = map Est ls /\ ms = map Est ls /\
    fold = Py.Int k /\ restack = Py.Bool b /\ dy = chosen_y g finalize /\
    ((meta_model = Some (Est m) /\ h0 = h)
     \/ (meta_model = None /\ alloc LinearRegression h = (Ok m, h0))) /\
    stack_base_loop ls (chosen_X g finalize) dy k [] (frame_of_series dy) h0
      = (Ok (ms, bp), h1) /\
    columns bp = target :: tl (columns bp) /\
    set_columns bp (target :: map Name (model_names_fixed (model_names_of h0 ls))) = Ok bp1 /\
    drop_first bp1 = Ok bp2 /\
    table = (if b then concat (chosen_X g finalize) bp2 else bp2).
Proof.
  intros H. unfold stack_models_features in H.
  inv_ok H as u1 h2 E1. apply for_each_heap in E1; [ | intros; eapply pure_check_item; eassumption].
  subst h2.
  inv_ok H as u2 h2 E2.
  assert (h2 = h) as ->.
  { destruct meta_model; [eapply pure_check_item; eassumption | inversion E2; reflexivity]. }
  inv_ok H as k0 h3 E3. apply check_int_ok in E3 as [-> ->].
  inv_ok H as r0 h4 E4. apply check_int_ok in E4 as [_ ->].
  inv_ok H as b0 h5 E5. apply check_bool_ok in E5 as [-> ->].
  inv_ok H as v0 h6 E6. apply check_bool_ok in E6 as [_ ->].
  inv_ok H as pg h6 E6. apply IntProgress_ok in E6 as [_ ->].
  inv_ok H as ls h7 E7. apply all_objs_ok in E7 as [-> ->].
  inv_ok H as m0 h0 E8.
  inv_ok H as dX0 h9 E9.
  assert (exists g, env = Some g /\ dX0 = chosen_X g finalize /\ h9 = h0) as (g & Hg & -> & ->).
  { destruct finalize; apply global_ok in E9 as (g & Hg & -> & ->); exists g; repeat split;
      exact Hg. }
  inv_ok H as dy0 h10 E10.
  assert (dy0 = chosen_y g finalize /\ h10 = h0) as (-> & ->).
  { destruct finalize; apply global_ok in E10 as (g' & Hg' & -> & ->);
      rewrite Hg in Hg'; inversion Hg'; subst g'; split; reflexivity. }
  inv_ok H as hh h11 E11. inversion E11; subst hh h11. clear E11.
  inv_ok H as r h12 E12. destruct r as [ms0 bp].
  inv_ok H as t h13 E13.
  assert (columns bp = t :: tl (columns bp) /\ h13 = h12) as (Hc & ->).
  { destruct (columns bp) as [| c cs]; [discriminate E13 | ].
    apply ret_ok in E13 as [-> ->]. split; reflexivity. }
  inv_ok H as bp1 h14 E14. apply lift_ok in E14 as [E14 ->].
  inv_ok H as bp2 h15 E15. apply lift_ok in E15 as [E15 ->].
  inv_ok H as u h16 E16. apply lift_ok in E16 as [_ ->].
  apply ret_ok in H as [H <-]. inversion H; subst. clear H.
  pose proof (stack_base_loop_models _ _ _ _ _ _ _ _ _ _ E12) as Hms. simpl in Hms. subst ms.
  exists g, ls, h0, bp, bp1, bp2, t.
  repeat split; try assumption; try reflexivity.
  destruct meta_model as [i | ].
  - left. apply as_obj_ok in E8 as [-> ->]. split; reflexivity.
  - right. split; [reflexivity | exact E8].
Qed.

Lemma fit_other l (X : DataFrame V) y h r h' l0 :
  fit l X y h = (r, h') -> l0 <> l -> objs h' l0 = objs h l0.
Proof.
  unfold fit. intros H Hl. destruct (fit_method (objs h l)) as [f | ].
  - destruct (f X y); inversion H; subst; [reflexivity | ].
    unfold update. simpl. apply Nat.eqb_neq in Hl. rewrite Hl. reflexivity.
  - inversion H; subst. reflexivity.
Qed.

Lemma meta_cv_loop_other model (data_X : DataFrame V) data_y folds h r h' l0 :
  meta_cv_loop model data_X data_y folds h = (r, h') -> l0 <> model ->
  objs h' l0 = objs h l0.
Proof.
  intros H Hl. revert h H. induction folds as [| [train_i test_i] rest IH]; intros h H; simpl in H.
  - inversion H. reflexivity.
  - unfold bind at 1 in H.
    destruct (fit model (iloc train_i data_X) (iloc_series train_i data_y) h)
      as [[a | e] h1] eqn:E1.
    + pose proof (fit_other _ _ _ _ _ _ l0 E1 Hl) as O1.
      unfold bind at 1 in H.
      destruct (predict model (iloc test_i data_X) h1) as [[p | e] h2] eqn:E2.
      * apply predict_heap in E2. subst h2. unfold bind at 1 in H.
        destruct (metrics (iloc_series test_i data_y) p h1) as [[u | e] h3] eqn:E3.
        -- apply metrics_heap in E3. subst h3. rewrite (IH _ H). exact O1.
        -- apply metrics_heap in E3. inversion H; subst. exact O1.
      * apply predict_heap in E2. inversion H; subst. exact O1.
    + inversion H; subst. eapply fit_other; eassumption.
Qed.

Lemma meta_cv_loop_same_objs model (data_X : DataFrame V) data_y folds h u h' :
  meta_cv_loop model data_X data_y folds h = (Ok u, h') -> same_objs h h'.
Proof.
  revert h. induction folds as [| [train_i test_i] rest IH]; intros h H; simpl in H.
  - inversion H. apply same_objs_refl.
  - inv_ok H as a h1 E1. apply fit_same_objs in E1.
    inv_ok H as p h2 E2. apply predict_heap in E2. subst h2.
    inv_ok H as v h3 E3. apply metrics_heap in E3. subst h3.
    eapply same_objs_trans; [exact E1 | apply IH; exact H].
Qed.

Lemma stack_base_loop_keeps_fit estimator_list (X : DataFrame V) y k ms bp h r h' l :
  stack_base_loop estimator_list X y k ms bp h = (Ok r, h') ->
  fitted_on (objs h l) = Some (X, y) -> fitted_on (objs h' l) = Some (X, y).
Proof.
  revert ms bp h. induction estimator_list as [| model rest IH]; intros ms bp h H Hf; simpl in H.
  - inversion H; subst. exact Hf.
  - inv_ok H as a h1 E1. inv_ok H as p h2 E2.
    apply cross_val_predict_ok in E2 as [-> _].
    apply (IH _ _ _ H).
    destruct (Nat.eq_dec l model) as [-> | Hne].
    + eapply fit_fitted_on. exact E1.
    + rewrite (fit_other _ _ _ _ _ _ l E1 Hne). exact Hf.
Qed.

Lemma stack_base_loop_fits estimator_list (X : DataFrame V) y k ms bp h r h' :
  stack_base_loop estimator_list X y k ms bp h = (Ok r, h') ->
  forall l, In l estimator_list -> fitted_on (objs h' l) = Some (X, y).
Proof.
  revert ms bp h. induction estimator_list as [| model rest IH]; intros ms bp h H l Hl; simpl in H.
  - destruct Hl.
  - inv_ok H as a h1 E1. inv_ok H as p h2 E2.
    apply cross_val_predict_ok in E2 as [-> _].
    destruct Hl as [<- | Hl].
    + eapply stack_base_loop_keeps_fit; [exact H | ]. eapply fit_fitted_on. exact E1.
    + eapply IH; eassumption.
Qed.

(** A successful run of [stack_models], step by step. *)
Lemma stack_models_inv estimator_list meta_model fold round restack finalize verbose
    (h : heap V) c h' :
  stack_models LinearRegression env estimator_list meta_model fold round
    restack finalize verbose h = (Ok c, h') ->
  exists ms m table dy k b h1 h2 g kf folds,
    stack_models_features LinearRegression env estimator_list meta_model fold round
      restack finalize verbose h = (Ok (ms, m, table, dy, k, b), h1) /\
    fit m table dy h1 = (Ok m, h2) /\
    env = Some g /\
    KFold_init k (Some (seed g)) = Ok kf /\ split kf (n_samples table) = Ok folds /\
    meta_cv_loop m table dy folds h2 = (Ok tt, h') /\
    c = ms ++ [Est m; Flag b].
Proof.
  intros H. unfold stack_models in H.
  inv_ok H as r h1 E1. destruct r as [[[[[ms m] table] dy] k] b].
  inv_ok H as m' h2 E2. pose proof (fit_returns _ _ _ _ _ _ E2) as ->.
  inv_ok H as s h3 E3. apply global_ok in E3 as (g & Hg & -> & ->).
  inv_ok H as kf h4 E4. apply lift_ok in E4 as [E4 ->].
  inv_ok H as folds h5 E5. apply lift_ok in E5 as [E5 ->].
  inv_ok H as u h6 E6. destruct u. apply ret_ok in H as [<- <-].
  exists ms, m, table, dy, k, b, h1, h2, g, kf, folds.
  repeat split; try assumption. rewrite <- app_assoc. reflexivity.
Qed.

Lemma test_blocks_length sizes c : length (test_blocks sizes c) = length sizes.
Proof.
  revert c. induction sizes as [| x xs IH]; intros c; simpl; [ | rewrite IH]; reflexivity.
Qed.

Lemma split_length kf n folds :
  split kf n = Ok folds -> length folds = Z.to_nat (n_splits kf).
Proof.
  unfold split. destruct (Z.of_nat n <? n_splits kf)%Z; [discriminate | ].
  intros H. inversion H.
  rewrite length_map, test_blocks_length. unfold fold_sizes.
  rewrite length_map, length_seq. reflexivity.
Qed.

Lemma KFold_init_ok k s kf : KFold_init k s = Ok kf -> (2 <= k)%Z /\ n_splits kf = k.
Proof.
  unfold KFold_init. destruct (k <=? 1)%Z eqn:E; [discriminate | ].
  intros H. inversion H. simpl. apply Z.leb_gt in E. split; [lia | reflexivity].
Qed.

Lemma stack_models_last_fit estimator_list meta_model fold round restack finalize verbose
    (h : heap V) c h' :
  stack_models LinearRegression env estimator_list meta_model fold round
    restack finalize verbose h = (Ok c, h') ->
  exists ms m table dy k b h1 h2 g folds,
    stack_models_features LinearRegression env estimator_list meta_model fold round
      restack finalize verbose h = (Ok (ms, m, table, dy, k, b), h1) /\
    c = ms ++ [Est m; Flag b] /\ env = Some g /\
    fit m table dy h1 = (Ok m, h2) /\
    meta_cv_loop m table dy folds h2 = (Ok tt, h') /\
    fitted_on (objs h' m)
    = Some (iloc (fst (last folds ([], []))) table,
            iloc_series (fst (last folds ([], []))) dy).
Proof.
  intros H. apply stack_models_inv in H
    as (ms & m & table & dy & k & b & h1 & h2 & g & kf & folds
        & Ef & Efit & Hg & Ekf & Esp & Ecv & Hc).
  exists ms, m, table, dy, k, b, h1, h2, g, folds.
  repeat split; try assumption.
  pose proof (KFold_init_ok _ _ _ Ekf) as [Hk Hn].
  pose proof (split_length _ _ _ Esp) as Hlen. rewrite Hn in Hlen.
  eapply meta_cv_loop_last_fit; [ | exact Ecv].
  intros ->. simpl in Hlen. lia.
Qed.

Lemma create_stacknet_inv estimator_list meta_model fold round restack finalize verbose
    (h : heap V) c h' :
  create_stacknet LinearRegression env estimator_list meta_model fold round
    restack finalize verbose h = (Ok c, h') ->
  exists ms m table dy k b h1 h2 g kf folds,
    create_stacknet_features LinearRegression env estimator_list meta_model fold round
      restack finalize verbose h = (Ok (ms, m, table, dy, k, b), h1) /\
    fit m table dy h1 = (Ok m, h2) /\
    env = Some g /\
    KFold_init k (Some (seed g)) = Ok kf /\ split kf (n_samples table) = Ok folds /\
    meta_cv_loop m table dy folds h2 = (Ok tt, h') /\
    c = ms ++ [Est m; Flag b].
Proof.
  intros H. unfold create_stacknet in H.
  inv_ok H as r h1 E1. destruct r as [[[[[ms m] table] dy] k] b].
  inv_ok H as m' h2 E2. pose proof (fit_returns _ _ _ _ _ _ E2) as ->.
  inv_ok H as s h3 E3. apply global_ok in E3 as (g & Hg & -> & ->).
  inv_ok H as kf h4 E4. apply lift_ok in E4 as [E4 ->].
  inv_ok H as folds h5 E5. apply lift_ok in E5 as [E5 ->].
  inv_ok H as u h6 E6. destruct u. apply ret_ok in H as [<- <-].
  exists ms, m, table, dy, k, b, h1, h2, g, kf, folds.
  repeat split; assumption.
Qed.

End StackModelsRun.

(** C7 (as amended). [stack_models] generates no partition of its own for
    the base estimators and the seed of the experiment plays no part in
    the table it assembles: under any other seed the call computes the
    same.  For every base estimator the loop hands the same table, the same
    target and the fold count to [cross_val_predict], which builds a
    splitter that carries no seed; so every out-of-fold column (filled
    with [NaN] up to the rows of the table) is computed on one and the
    same partition, the one that splitter yields for the fold count and
    the number of rows. *)
Theorem C7_one_partition_for_every_base_estimator :
  forall (V : Type) {missing : Missing V} (LinearRegression : estimator V) (g : globals)
         (estimator_list : list item) (meta_model : option item)
         (fold round restack : Py.value) (finalize : bool) (verbose : Py.value)
         (h : heap V) (ms : list item) (m : loc) (table : DataFrame V) (dy : Series V)
         (k : Z) (b : bool) (h' : heap V),
    stack_models_features LinearRegression (Some g) estimator_list meta_model fold round
      restack finalize verbose h = (Ok (ms, m, table, dy, k, b), h') ->
    estimator_list <> [] ->
    (forall s : Z,
        stack_models_features LinearRegression (Some (with_seed g s)) estimator_list
          meta_model fold round restack finalize verbose h
        = stack_models_features LinearRegression (Some g) estimator_list
            meta_model fold round restack finalize verbose h)
    /\ exists ls h0 bp cv folds,
         estimator_list = map Est ls
         /\ fold = Py.Int k
         /\ stack_base_loop ls (chosen_X g finalize) (chosen_y g finalize) k []
              (frame_of_series (chosen_y g finalize)) h0 = (Ok (ms, bp), h')
         /\ sklearn.KFold_init k None = Ok cv
         /\ sklearn.random_state cv = None
         /\ sklearn.split cv (n_samples (chosen_X g finalize)) = Ok folds
         /\ exists oof,
              cols bp = grow (nrows bp - length (snd (chosen_y g finalize)))
                          (chosen_y g finalize) :: oof
              /\ Forall2 (fun l c => exists p,
                              sklearn.oof_with folds (objs h0 l) (chosen_X g finalize)
                                (chosen_y g finalize) = Ok p
                              /\ c = (Pos 0, p ++ repeat NaN (nrows bp - length p)))
                         ls oof.
Proof.
  intros V missing LinearRegression g estimator_list meta_model fold round restack finalize
    verbose h ms m table dy k b h' Hrun Hne.
  split.
  - intros s. unfold stack_models_features.
    destruct finalize; reflexivity.
  - apply stack_models_features_inv in Hrun
      as (g' & ls & h0 & bp & bp1 & bp2 & target & Hg & Hl & _ & Hf & _ & Hy & _ & Hloop & _).
    inversion Hg; subst g'. subst dy.
    destruct ls as [| model rest]; [exfalso; apply Hne; rewrite Hl; reflexivity | ].
    destruct (stack_base_loop_splits _ _ _ _ _ _ _ _ _ _ Hloop) as (cv & folds & Hcv & Hsp).
    exists (model :: rest), h0, bp, cv, folds.
    split; [exact Hl | ]. split; [exact Hf | ]. split; [exact Hloop | ].
    split; [exact Hcv | ].
    split; [eapply KFold_init_unseeded; exact Hcv | ]. split; [exact Hsp | ].
    destruct (stack_base_loop_oof _ _ _ _ _ _ _ _ _ _ _ _ Hcv Hsp Hloop) as (_ & _ & oof & Hc & Hf2).
    exists oof. split; [exact Hc | exact Hf2].
Qed.

Lemma C7_witness :
  exists cv folds,
    sklearn.KFold_init 2 None = Ok cv
    /\ sklearn.random_state cv = None
    /\ sklearn.split cv (n_samples Demo.rows4) = Ok folds
    /\ folds = [([2; 3], [0; 1]); ([0; 1], [2; 3])].
Proof.
  edestruct (C7_one_partition_for_every_base_estimator Z Demo.linreg Demo.g
               [Est 0; Est 1] (Some (Est 3)) (Py.Int 2) (Py.Int 4) (Py.Bool false) false
               (Py.Bool true) Demo.h0)
    as (_ & ls & h0 & bp & cv & folds & _ & Hf & _ & Hcv & Hrs & Hsp & _).
  - vm_compute. reflexivity.
  - discriminate.
  - inversion Hf; subst.
    exists cv, folds. split; [exact Hcv | ]. split; [exact Hrs | ]. split; [exact Hsp | ].
    vm_compute in Hcv. inversion Hcv; subst cv. vm_compute in Hsp. inversion Hsp. reflexivity.
Defined.

(** C7 as it is worded fails on the experiment with seed 123: the splitter
    behind the out-of-fold columns is built by [cross_val_predict] from
    the fold count alone and carries no seed, the seeded splitter of the
    call is built only after the table has been assembled (a call whose
    meta estimator cannot be fitted stops before it, with the out-of-fold
    columns already computed), and the same call under the seed 7
    assembles the same table. *)
Lemma C7_counterexample :
  seed Demo.g = 123%Z
  /\ (exists cv folds,
         sklearn.KFold_init 2 None = Ok cv /\ sklearn.random_state cv = None
         /\ sklearn.split cv 4 = Ok folds
         /\ sklearn.cross_val_predict 0 Demo.rows4 Demo.target4 2 Demo.h0
            = (sklearn.oof_with folds (objs Demo.h0 0) Demo.rows4 Demo.target4, Demo.h0))
  /\ stack_models_features Demo.linreg (Some (with_seed Demo.g 7)) [Est 0; Est 1]
       (Some (Est 3)) (Py.Int 2) (Py.Int 4) (Py.Bool false) false (Py.Bool true) Demo.h0
     = stack_models_features Demo.linreg (Some Demo.g) [Est 0; Est 1]
         (Some (Est 3)) (Py.Int 2) (Py.Int 4) (Py.Bool false) false (Py.Bool true) Demo.h0
  /\ (exists table, fst (stack_models_features Demo.linreg (Some Demo.g) [Est 0; Est 1]
                           (Some (Est 5)) (Py.Int 2) (Py.Int 4) (Py.Bool false) false
                           (Py.Bool true) Demo.h0)
                    = Ok ([Est 0; Est 1], 5, table, Demo.target4, 2%Z, false)
                    /\ columns table = [Name "Ridge_0"; Name "Lasso_1"])
  /\ fst (stack_models Demo.linreg (Some Demo.g) [Est 0; Est 1]
            (Some (Est 5)) (Py.Int 2) (Py.Int 4) (Py.Bool false) false (Py.Bool true) Demo.h0)
     = Raise (AttributeError "fit").
Proof.
  split; [reflexivity | ]. split.
  - eexists. eexists. split; [reflexivity | ]. split; [reflexivity | ].
    split; [reflexivity | ]. reflexivity.
  - split; [vm_compute; reflexivity | ]. split.
    + eexists. split; [vm_compute; reflexivity | vm_compute; reflexivity].
    + vm_compute. reflexivity.
Qed.

(** [stack_models] leaves every base estimator of the container fitted on
    the whole training table and target (the complete data when
    [finalize] is set), provided the meta estimator is not one of the base
    estimators. *)
Theorem stack_models_base_estimators_fitted_on_whole_table :
  forall (V : Type) {missing : Missing V} (LinearRegression : estimator V) (g : globals)
         (ls : list nat) (meta_model : option item) (fold round restack : Py.value)
         (finalize : bool) (verbose : Py.value) (h : heap V) (c : list item) (h' : heap V),
    stack_models LinearRegression (Some g) (map Est ls) meta_model fold round restack
      finalize verbose h = (Ok c, h') ->
    match meta_model with
    | Some i => forall m, i = Est m -> ~ In m ls
    | None => forall l, In l ls -> l < next h
    end ->
    forall l, In l ls ->
      fitted_on (objs h' l) = Some (chosen_X g finalize, chosen_y g finalize).
Proof.
  intros V missing LinearRegression g ls meta_model fold round restack finalize verbose h c h' H Hm l Hl.
  apply stack_models_inv in H
    as (ms & m & table & dy & k & b & h1 & h2 & g0 & kf & folds & Ef & Efit & Hg & _ & _ & Ecv & _).
  apply stack_models_features_inv in Ef
    as (g1 & ls0 & h0 & bp & bp1 & bp2 & target & Hg1 & Els & _ & _ & _ & -> & Hmeta & Eloop & _).
  inversion Hg1; subst g1. clear Hg1 Hg.
  assert (ls0 = ls) as ->.
  { clear - Els. revert ls0 Els. induction ls as [| x xs IH]; intros [| y ys] E;
      try discriminate; [reflexivity | ].
    simpl in E. inversion E. f_equal. apply IH. assumption. }
  assert (Hne : l <> m).
  { destruct Hmeta as [[-> _] | [-> Ea]].
    - intros ->. exact (Hm m eq_refl Hl).
    - apply alloc_ok in Ea as (-> & _). specialize (Hm l Hl). lia. }
  rewrite (meta_cv_loop_other _ _ _ _ _ _ _ l Ecv Hne).
  rewrite (fit_other _ _ _ _ _ _ l Efit Hne).
  eapply stack_base_loop_fits; eassumption.
Qed.

Lemma stack_models_base_estimators_fitted_on_whole_table_witness :
  fitted_on (objs (snd (stack_models Demo.linreg (Some Demo.g) (map Est [0; 1]) (Some (Est 3))
                          (Py.Int 2) (Py.Int 4) (Py.Bool false) false (Py.Bool true) Demo.h0)) 1)
  = Some (chosen_X Demo.g false, chosen_y Demo.g false).
Proof.
  eapply (stack_models_base_estimators_fitted_on_whole_table Z Demo.linreg Demo.g [0; 1]
            (Some (Est 3)) (Py.Int 2) (Py.Int 4) (Py.Bool false) false (Py.Bool true) Demo.h0
            [Est 0; Est 1; Est 3; Flag false]).
  - vm_compute. reflexivity.
  - intros m E. inversion E. subst m. simpl. intros [F | [F | []]]; discriminate F.
  - right. left. reflexivity.
Defined.

(** The meta estimator [stack_models] returns is the object the
    cross-validation loop fitted last: at the return it is fitted on the
    training rows of the last fold of the assembled table, and there are
    as many folds as the fold count, at least two. *)
Theorem stack_models_meta_left_as_last_fold_fitted_it :
  forall (V : Type) {missing : Missing V} (LinearRegression : estimator V) (env : option globals)
         (estimator_list : list item) (meta_model : option item) (fold round restack : Py.value)
         (finalize : bool) (verbose : Py.value) (h : heap V) (c : list item) (h' : heap V),
    stack_models LinearRegression env estimator_list meta_model fold round restack
      finalize verbose h = (Ok c, h') ->
    exists ms m table dy k b h1 g kf folds,
      stack_models_features LinearRegression env estimator_list meta_model fold round restack
        finalize verbose h = (Ok (ms, m, table, dy, k, b), h1)
      /\ c = ms ++ [Est m; Flag b]
      /\ env = Some g
      /\ sklearn.KFold_init k (Some (seed g)) = Ok kf
      /\ sklearn.split kf (n_samples table) = Ok folds
      /\ (2 <= k)%Z /\ length folds = Z.to_nat k
      /\ fitted_on (objs h' m)
         = Some (iloc (fst (last folds ([], []))) table,
                 iloc_series (fst (last folds ([], []))) dy).
Proof.
  intros V missing LinearRegression env estimator_list meta_model fold round restack finalize verbose
    h c h' H.
  apply stack_models_inv in H
    as (ms & m & table & dy & k & b & h1 & h2 & g & kf & folds & Ef & Efit & Hg & Ekf & Esp & Ecv & Hc).
  exists ms, m, table, dy, k, b, h1, g, kf, folds.
  pose proof (KFold_init_ok _ _ _ Ekf) as [Hk Hn].
  pose proof (split_length _ _ _ Esp) as Hlen. rewrite Hn in Hlen.
  repeat split; try assumption.
  eapply meta_cv_loop_last_fit; [ | exact Ecv].
  intros ->. simpl in Hlen. lia.
Qed.

Lemma stack_models_meta_left_as_last_fold_fitted_it_witness :
  exists ms m table dy k b h1 g kf folds,
    stack_models_features Demo.linreg (Some Demo.g) [Est 0; Est 1] (Some (Est 3)) (Py.Int 2)
      (Py.Int 4) (Py.Bool false) false (Py.Bool true) Demo.h0 = (Ok (ms, m, table, dy, k, b), h1)
    /\ [Est 0; Est 1; Est 3; Flag false] = ms ++ [Est m; Flag b]
    /\ Some Demo.g = Some g
    /\ sklearn.KFold_init k (Some (seed g)) = Ok kf
    /\ sklearn.split kf (n_samples table) = Ok folds
    /\ (2 <= k)%Z /\ length folds = Z.to_nat k
    /\ fitted_on (objs (snd (stack_models Demo.linreg (Some Demo.g) [Est 0; Est 1] (Some (Est 3))
                               (Py.Int 2) (Py.Int 4) (Py.Bool false) false (Py.Bool true)
                               Demo.h0)) m)
       = Some (iloc (fst (last folds ([], []))) table,
               iloc_series (fst (last folds ([], []))) dy).
Proof.
  apply (stack_models_meta_left_as_last_fold_fitted_it Z Demo.linreg (Some Demo.g)
           [Est 0; Est 1] (Some (Est 3)) (Py.Int 2) (Py.Int 4) (Py.Bool false) false
           (Py.Bool true) Demo.h0 [Est 0; Est 1; Est 3; Flag false]).
  vm_compute. reflexivity.
Defined.

(** [create_stacknet] leaves its meta estimator as [stack_models] does:
    the object it returns at the end of the container is the one the
    cross-validation loop fitted last, on the training rows of the last
    fold of the table of the last level, and there are as many folds as
    the fold count, at least two. *)
Theorem create_stacknet_meta_left_as_last_fold_fitted_it :
  forall (V : Type) {missing : Missing V} (LinearRegression : estimator V) (env : option globals)
         (estimator_list : list item) (meta_model : option item) (fold round restack : Py.value)
         (finalize : bool) (verbose : Py.value) (h : heap V) (c : list item) (h' : heap V),
    create_stacknet LinearRegression env estimator_list meta_model fold round restack
      finalize verbose h = (Ok c, h') ->
    exists ms m table dy k b h1 g kf folds,
      create_stacknet_features LinearRegression env estimator_list meta_model fold round
        restack finalize verbose h = (Ok (ms, m, table, dy, k, b), h1)
      /\ c = ms ++ [Est m; Flag b]
      /\ env = Some g
      /\ sklearn.KFold_init k (Some (seed g)) = Ok kf
      /\ sklearn.split kf (n_samples table) = Ok folds
      /\ (2 <= k)%Z /\ length folds = Z.to_nat k
      /\ fitted_on (objs h' m)
         = Some (iloc (fst (last folds ([], []))) table,
                 iloc_series (fst (last folds ([], []))) dy).
Proof.
  intros V missing LinearRegression env estimator_list meta_model fold round restack finalize
    verbose h c h' H.
  apply create_stacknet_inv in H
    as (ms & m & table & dy & k & b & h1 & h2 & g & kf & folds & Ef & Efit & Hg & Ekf & Esp & Ecv & Hc).
  exists ms, m, table, dy, k, b, h1, g, kf, folds.
  pose proof (KFold_init_ok _ _ _ Ekf) as [Hk Hn].
  pose proof (split_length _ _ _ Esp) as Hlen. rewrite Hn in Hlen.
  repeat split; try assumption.
  eapply meta_cv_loop_last_fit; [ | exact Ecv].
  intros ->. simpl in Hlen. lia.
Qed.

Lemma create_stacknet_meta_left_as_last_fold_fitted_it_witness :
  exists ms m table dy k b h1 g kf folds,
    create_stacknet_features Demo.linreg (Some Demo.g) [Level [2; 0]; Level [3]] None (Py.Int 2)
      (Py.Int 4) (Py.Bool true) false (Py.Bool true) Demo.h0 = (Ok (ms, m, table, dy, k, b), h1)
    /\ [Level [2; 0]; Level [3]; Est 8; Flag true] = ms ++ [Est m; Flag b]
    /\ Some Demo.g = Some g
    /\ sklearn.KFold_init k (Some (seed g)) = Ok kf
    /\ sklearn.split kf (n_samples table) = Ok folds
    /\ (2 <= k)%Z /\ length folds = Z.to_nat k
    /\ fitted_on (objs (snd (create_stacknet Demo.linreg (Some Demo.g)
                               [Level [2; 0]; Level [3]] None (Py.Int 2) (Py.Int 4)
                               (Py.Bool true) false (Py.Bool true) Demo.h0)) m)
       = Some (iloc (fst (last folds ([], []))) table,
               iloc_series (fst (last folds ([], []))) dy).
Proof.
  apply (create_stacknet_meta_left_as_last_fold_fitted_it Z Demo.linreg (Some Demo.g)
           [Level [2; 0]; Level [3]] None (Py.Int 2) (Py.Int 4) (Py.Bool true) false
           (Py.Bool true) Demo.h0 [Level [2; 0]; Level [3]; Est 8; Flag true]).
  vm_compute. reflexivity.
Defined.

Section MetaTable.

Context {V : Type} {missing : Missing V}.
Local Abbreviation same_objs := (@same_objs V).
Local Open Scope py_scope.
Import sklearn.

Lemma label_eqb_eq a b : label_eqb a b = true <-> a = b.
Proof.
  destruct a as [s | i], b as [t | j]; simpl; split; intros H; try discriminate.
  - apply String.eqb_eq in H. subst. reflexivity.
  - inversion H. apply String.eqb_refl.
  - apply Nat.eqb_eq in H. subst. reflexivity.
  - inversion H. apply Nat.eqb_refl.
Qed.

Lemma columns_rename names (cs : list (Series V)) :
  length names = length cs -> map fst (rename names cs) = names.
Proof.
  revert cs. induction names as [| n names IH]; intros [| c cs] H; simpl in *;
    try discriminate; [reflexivity | ].
  f_equal. apply IH. lia.
Qed.

Lemma set_columns_columns (df df' : DataFrame V) names :
  set_columns df names = Ok df' -> columns df' = names.
Proof.
  unfold set_columns. destruct (Nat.eqb _ _) eqn:E; [ | discriminate].
  intros H. inversion H. unfold columns. simpl. apply columns_rename.
  apply Nat.eqb_eq. exact E.
Qed.

Lemma drop_first_columns (df df' : DataFrame V) target rest :
  columns df = target :: rest ->
  drop_first df = Ok df' ->
  columns df' = filter (fun c => negb (label_eqb c target)) rest.
Proof.
  unfold drop_first, columns. destruct (cols df) as [| c cs]; [discriminate | ].
  simpl. intros Hc H. inversion Hc; subst. inversion H. simpl.
  assert (label_eqb (fst c) (fst c) = true) as -> by (apply label_eqb_eq; reflexivity).
  simpl. clear. induction cs as [| x xs IH]; simpl; [reflexivity | ].
  destruct (label_eqb (fst x) (fst c)); simpl; [ | f_equal]; exact IH.
Qed.

Lemma filter_absent (target : label) names :
  ~ In target names -> filter (fun c => negb (label_eqb c target)) names = names.
Proof.
  induction names as [| n names IH]; simpl; intros H; [reflexivity | ].
  destruct (label_eqb n target) eqn:E.
  - apply label_eqb_eq in E. exfalso. apply H. left. exact E.
  - simpl. f_equal. apply IH. intros F. apply H. right. exact F.
Qed.

Lemma columns_iloc idx (df : DataFrame V) : columns (iloc idx df) = columns df.
Proof. unfold columns, iloc. simpl. rewrite map_map. reflexivity. Qed.


Lemma model_names_same_objs h h' ls :
  same_objs h h' -> model_names_of h' ls = model_names_of h ls.
Proof.
  intros S. unfold model_names_of. apply map_ext. intros l.
  rewrite (same_objs_str _ _ l S). reflexivity.
Qed.

Lemma model_names_fixed_length names : length (model_names_fixed names) = length names.
Proof.
  unfold model_names_fixed, enumerate, catboost_fixed.
  rewrite length_map, enumerate_from_length, length_map. reflexivity.
Qed.

Lemma stack_base_loop_prefix ls (X : DataFrame V) y k ms bp h ms' bp' h' :
  stack_base_loop ls X y k ms bp h = (Ok (ms', bp'), h') ->
  same_objs h h' /\ exists oof, columns bp' = columns bp ++ oof.
Proof.
  revert ms bp h. induction ls as [| l ls IH]; intros ms bp h H; simpl in H.
  - apply ret_ok in H as [E <-]. inversion E. split; [apply same_objs_refl | ].
    exists []. rewrite app_nil_r. reflexivity.
  - inv_ok H as a h1 E1. inv_ok H as p h2 E2.
    apply cross_val_predict_ok in E2 as [-> _].
    apply IH in H as [S [oof Ho]]. split.
    + eapply same_objs_trans; [eapply fit_same_objs; exact E1 | exact S].
    + rewrite columns_concat, <- app_assoc in Ho. eexists. exact Ho.
Qed.

End MetaTable.

(** The meta estimator of the container [stack_models] returns has been
    fitted on a table whose columns are, in order, the raw features when
    [restack] is set, then one column per base estimator named
    [<name>_<position>] after the text of the estimator before its first
    parenthesis (["CatBoostRegressor"] for a CatBoost); a base column that
    carries the name of the target is dropped with it. *)
Theorem stack_models_meta_table_columns :
  forall (V : Type) {missing : Missing V} (LinearRegression : estimator V) (env : option globals)
         (estimator_list : list item) (meta_model : option item) (fold round restack : Py.value)
         (finalize : bool) (verbose : Py.value) (h : heap V) (c : list item) (h' : heap V),
    stack_models LinearRegression env estimator_list meta_model fold round restack
      finalize verbose h = (Ok c, h') ->
    exists g ls m b Xf yf,
      env = Some g /\ estimator_list = map Est ls /\ restack = Py.Bool b
      /\ c = map Est ls ++ [Est m; Flag b]
      /\ fitted_on (objs h' m) = Some (Xf, yf)
      /\ let raw := if b then columns (chosen_X g finalize) else [] in
         let names := map Name (model_names_fixed (model_names_of h' ls)) in
         let target := fst (chosen_y g finalize) in
         columns Xf = raw ++ filter (fun c => negb (label_eqb c target)) names
         /\ (~ In target names -> columns Xf = raw ++ names).
Proof.
  intros V missing LinearRegression env estimator_list meta_model fold round restack finalize verbose
    h c h' H.
  destruct (stack_models_last_fit LinearRegression env
              estimator_list meta_model fold round restack finalize verbose h c h' H)
    as (ms & m & table & dy & k & b & h1 & h2 & g & folds & Ef & Hc & Hg & Efit & Ecv & Hfit).
  apply stack_models_features_inv in Ef
    as (g1 & ls & h0 & bp & bp1 & bp2 & target & Hg1 & Els & Hms & _ & Hr & Hdy & _ & Eloop
        & Hcols & Eset & Edrop & Htab).
  rewrite Hg in Hg1. inversion Hg1; subst g1. clear Hg1.
  exists g, ls, m, b.
  exists (iloc (fst (last folds ([], []))) table), (iloc_series (fst (last folds ([], []))) dy).
  split; [exact Hg | ]. split; [exact Els | ]. split; [exact Hr | ].
  split; [subst ms; exact Hc | ]. split; [exact Hfit | ].
  destruct (stack_base_loop_prefix _ _ _ _ _ _ _ _ _ _ Eloop) as [S0 [oof Ho]].
  assert (S01 : same_objs h0 h').
  { eapply same_objs_trans; [exact S0 | ].
    eapply same_objs_trans; [eapply fit_same_objs; exact Efit | ].
    eapply meta_cv_loop_same_objs. exact Ecv. }
  rewrite (model_names_same_objs _ _ ls S01).
  assert (Ht : target = fst (chosen_y g finalize)).
  { rewrite Ho in Hcols. simpl in Hcols.
    inversion Hcols. subst dy. reflexivity. }
  pose proof (set_columns_columns _ _ _ Eset) as C1.
  pose proof (drop_first_columns _ _ _ _ C1 Edrop) as C2.
  assert (Cx : columns (iloc (fst (last folds ([], []))) table)
               = (if b then columns (chosen_X g finalize) else [])
                 ++ filter (fun c0 => negb (label_eqb c0 (fst (chosen_y g finalize))))
                      (map Name (model_names_fixed (model_names_of h0 ls)))).
  { rewrite columns_iloc, Htab. rewrite <- Ht.
    destruct b; [rewrite columns_concat | ]; rewrite C2; reflexivity. }
  simpl. split; [exact Cx | ].
  intros Hn. rewrite Cx, filter_absent by exact Hn. reflexivity.
Qed.

(** An empty list of estimators is not refused by the checks.  Once they
    have passed, [stack_models] and [create_stacknet] build their progress
    bar, which fails with a [TraitError] for a fold below -4; otherwise
    [stack_models] fails with an [IndexError] when it drops the first
    column of a table that has none left, and [create_stacknet] when it
    reads the base level.  [finalize_model] and [predict_model] fail with
    an [IndexError] on an empty list when they read its first element. *)
Theorem empty_estimator_list_raises_index_error :
  forall (V : Type) {missing : Missing V} (LinearRegression : estimator V) (np_round : Z -> V -> V)
         (env : option globals) (g : globals)
         (meta_model : option item) (k r : Z) (b v finalize : bool) (h : heap V),
    (forall i, meta_model = Some i -> rejected_type (type_of h i) = false /\ exists m, i = Est m) ->
    (let stacked := fst (stack_models LinearRegression (Some g) [] meta_model (Py.Int k)
                           (Py.Int r) (Py.Bool b) finalize (Py.Bool v) h) in
     let netted := fst (create_stacknet LinearRegression env [] meta_model (Py.Int k)
                          (Py.Int r) (Py.Bool b) finalize (Py.Bool v) h) in
     if (k + 4 <? 0)%Z
     then stacked = Raise TraitError /\ netted = Raise TraitError
     else stacked = Raise IndexError /\ netted = Raise IndexError)
    /\ fst (finalize_model LinearRegression env (AList []) h) = Raise IndexError
    /\ (forall data round,
           fst (predict_model LinearRegression np_round env (AList []) (Some data) round h)
           = Raise IndexError)
    /\ (forall round,
           fst (predict_model LinearRegression np_round (Some g) (AList []) None round h)
           = Raise IndexError).
Proof.
  intros V missing LinearRegression np_round env g meta_model k r b v finalize h Hm.
  split; [ | split; [ | split]].
  - cbv zeta.
    assert (Hr : match meta_model with
                 | Some i => rejected_type (type_of h i) = false /\ exists m, i = Est m
                 | None => True
                 end).
    { destruct meta_model as [i | ]; [apply Hm; reflexivity | exact I]. }
    destruct (k + 4 <? 0)%Z eqn:Ek; [apply Z.ltb_lt in Ek | apply Z.ltb_ge in Ek].
    + destruct meta_model as [i | ]; [destruct Hr as [Hr [m ->]]; simpl in Hr | ];
        unfold stack_models, stack_models_features, create_stacknet, create_stacknet_features,
          bind, check_item, global, ret, lift; simpl; rewrite ?Hr;
        rewrite !IntProgress_refuse by lia; split; reflexivity.
    + destruct meta_model as [i | ]; [destruct Hr as [Hr [m ->]]; simpl in Hr | ];
        unfold stack_models, stack_models_features, create_stacknet, create_stacknet_features,
          bind, check_item, global, ret, lift; simpl; rewrite ?Hr;
        rewrite !IntProgress_pass by lia; (split; [ | reflexivity]);
        destruct finalize; simpl; rewrite (proj2 (label_eqb_eq _ _) eq_refl); reflexivity.
  - reflexivity.
  - intros data round. reflexivity.
  - intros round. reflexivity.
Qed.

Lemma empty_estimator_list_raises_index_error_witness :
  fst (stack_models Demo.linreg (Some Demo.g) [] (Some (Est 3)) (Py.Int 2) (Py.Int 4)
         (Py.Bool false) false (Py.Bool true) Demo.h0) = Raise IndexError
  /\ fst (stack_models Demo.linreg (Some Demo.g) [] (Some (Est 3)) (Py.Int (-7)) (Py.Int 4)
            (Py.Bool false) false (Py.Bool true) Demo.h0) = Raise TraitError.
Proof.
  assert (Hm : forall i, Some (Est 3) = Some i ->
                 rejected_type (type_of Demo.h0 i) = false /\ exists m, i = Est m).
  { intros i E. inversion E. subst i. split; [reflexivity | exists 3; reflexivity]. }
  split.
  - exact (proj1 (proj1 (empty_estimator_list_raises_index_error Z Demo.linreg Demo.rnd None
                           Demo.g (Some (Est 3)) 2 4 false true false Demo.h0 Hm))).
  - exact (proj1 (proj1 (empty_estimator_list_raises_index_error Z Demo.linreg Demo.rnd None
                           Demo.g (Some (Est 3)) (-7) 4 false true false Demo.h0 Hm))).
Defined.

Section BaseLevelArity.

Context {V : Type} {missing : Missing V}.
Variable LinearRegression : estimator V.
Variable env : option (globals (V:=V)).
Local Open Scope py_scope.

Lemma stacknet_base_loop_shape base_level (data_X : DataFrame V) data_y fold names c bm df
    h bm' df' h' :
  stacknet_base_loop base_level data_X data_y fold names c bm df h = (Ok (bm', df'), h') ->
  shape1 df' = shape1 df + length base_level.
Proof.
  revert c bm df h. induction base_level as [| model rest IH]; intros c bm df h H; simpl in H.
  - apply ret_ok in H as [E _]. inversion E. simpl. lia.
  - inv_ok H as a h1 E1. inv_ok H as u h2 E2. inv_ok H as p h3 E3.
    apply IH in H. rewrite H, shape1_concat. unfold shape1 at 2. simpl. lia.
Qed.

Lemma base_level_fixed_2_length names : length (base_level_fixed_2 names) = length names.
Proof.
  unfold base_level_fixed_2, enumerate. rewrite length_map, enumerate_from_length. reflexivity.
Qed.

Lemma set_columns_length (df df' : DataFrame V) names :
  set_columns df names = Ok df' -> length names = shape1 df.
Proof.
  unfold set_columns, shape1. destruct (Nat.eqb _ _) eqn:E; [ | discriminate].
  intros _. apply Nat.eqb_eq. exact E.
Qed.

Lemma create_stacknet_features_arity estimator_list meta_model fold round restack finalize
    verbose (h : heap V) r h' :
  create_stacknet_features LinearRegression env estimator_list meta_model fold round restack
    finalize verbose h = (Ok r, h') ->
  exists base rest,
    estimator_list = Level base :: rest /\
    length base
    = S (length (filter (Py.contains "CatBoostRegressor") (base_level_names_of h base))).
Proof.
  intros H. unfold create_stacknet_features in H.
  inv_ok H as levels h1 E1. apply check_levels_ok in E1 as [-> ->].
  inv_ok H as u2 h2 E2.
  assert (h2 = h) as ->.
  { destruct meta_model; [eapply pure_check_item; eassumption | inversion E2; reflexivity]. }
  inv_ok H as k0 h3 E3. apply check_int_ok in E3 as [_ ->].
  inv_ok H as r0 h4 E4. apply check_int_ok in E4 as [_ ->].
  inv_ok H as b0 h5 E5. apply check_bool_ok in E5 as [_ ->].
  inv_ok H as v0 h6 E6. apply check_bool_ok in E6 as [_ ->].
  inv_ok H as pg h6 E6. apply IntProgress_ok in E6 as [_ ->].
  inv_ok H as bl h7 E7.
  destruct levels as [| base inter]; [discriminate E7 | ].
  apply ret_ok in E7 as [-> ->].
  inv_ok H as hh h8 E8. inversion E8; subst hh h8. clear E8.
  inv_ok H as dX0 h9 E9. inv_ok H as dy0 h10 E10. inv_ok H as m0 h11 E11.
  inv_ok H as r1 h12 E12. destruct r1 as [bm df].
  inv_ok H as df1 h13 E13. apply lift_ok in E13 as [E13 _].
  apply stacknet_base_loop_shape in E12. simpl in E12.
  apply set_columns_length in E13.
  rewrite length_map, base_level_fixed_2_length, base_level_fixed_train_length in E13.
  exists bl, (map Level inter). split; [reflexivity | ]. lia.
Qed.

End BaseLevelArity.

(** [create_stacknet] can only succeed when the base level has exactly
    one estimator more than it has CatBoost estimators: the base column
    names it builds are one per CatBoost estimator and one more, and
    assigning them to the base columns fails on any other count.  So a
    base level of several estimators none of which is a CatBoost never
    goes through. *)
Theorem create_stacknet_base_level_arity :
  forall (V : Type) {missing : Missing V} (LinearRegression : estimator V) (env : option globals)
         (estimator_list : list item) (meta_model : option item) (fold round restack : Py.value)
         (finalize : bool) (verbose : Py.value) (h : heap V) (c : list item) (h' : heap V),
    create_stacknet LinearRegression env estimator_list meta_model fold round restack
      finalize verbose h = (Ok c, h') ->
    exists base rest,
      estimator_list = Level base :: rest /\
      length base
      = S (length (filter (Py.contains "CatBoostRegressor") (base_level_names_of h base))).
Proof.
  intros V missing LinearRegression env estimator_list meta_model fold round restack finalize verbose
    h c h' H.
  unfold create_stacknet in H. inv_ok H as r h1 E.
  eapply create_stacknet_features_arity. exact E.
Qed.

Lemma create_stacknet_base_level_arity_witness :
  exists base rest,
    [Level [0; 2]; Level [3]] = Level base :: rest /\
    length base
    = S (length (filter (Py.contains "CatBoostRegressor") (base_level_names_of Demo.h0 base))).
Proof.
  apply (create_stacknet_base_level_arity Z Demo.linreg (Some Demo.g) [Level [0; 2]; Level [3]]
           None (Py.Int 2) (Py.Int 4) (Py.Bool true) false (Py.Bool true) Demo.h0
           [Level [0; 2]; Level [3]; Est 8; Flag true]
           (snd (create_stacknet Demo.linreg (Some Demo.g) [Level [0; 2]; Level [3]]
                   None (Py.Int 2) (Py.Int 4) (Py.Bool true) false (Py.Bool true) Demo.h0))).
  vm_compute. reflexivity.
Defined.

Section Validation.

Context {V : Type} {missing : Missing V}.
Local Abbreviation pure := (@pure V).
Local Abbreviation raises_only := (@raises_only V).
Local Abbreviation exits_clean := (@exits_clean V).
Variable LinearRegression : estimator V.
Variable env : option (globals (V:=V)).
Local Open Scope py_scope.

Lemma exits_clean_pure {A} (m : M V A) : pure m -> exits_clean m.
Proof. intros Hp h msg h' H. eapply Hp. exact H. Qed.

Lemma exits_clean_lib {A} (m : M V A) : raises_only lib m -> exits_clean m.
Proof. intros Hr h msg h' H. apply Hr in H. destruct H. Qed.

Lemma exits_clean_bind_pure {A B} (m : M V A) (f : A -> M V B) :
  pure m -> (forall a, exits_clean (f a)) -> exits_clean (bind m f).
Proof.
  intros Hm Hf h msg h' H. unfold bind in H.
  destruct (m h) as [[a | e] h1] eqn:E; apply Hm in E; subst h1.
  - eapply Hf. exact H.
  - inversion H. reflexivity.
Qed.

Lemma exits_clean_bind_lib {A B} (m : M V A) (f : A -> M V B) :
  exits_clean m -> (forall a, raises_only lib (f a)) -> exits_clean (bind m f).
Proof.
  intros Hm Hf h msg h' H. apply bind_raise in H as [H | (a & h1 & _ & H)].
  - eapply Hm. exact H.
  - apply Hf in H. destruct H.
Qed.

Lemma ro_meta_choice (meta_model : option item) :
  raises_only lib (match meta_model with
                   | None => alloc LinearRegression
                   | Some m => as_obj "fit" m
                   end).
Proof. ro_auto ltac:(exact I). Qed.

Lemma exits_clean_stack_models_features estimator_list meta_model fold round restack
    finalize verbose :
  exits_clean (stack_models_features LinearRegression env estimator_list meta_model fold round
                 restack finalize verbose).
Proof.
  unfold stack_models_features.
  apply exits_clean_bind_pure; [pure_auto | intros _].
  apply exits_clean_bind_pure; [pure_auto | intros _].
  apply exits_clean_bind_pure; [pure_auto | intros k].
  apply exits_clean_bind_pure; [pure_auto | intros _].
  apply exits_clean_bind_pure; [pure_auto | intros b].
  apply exits_clean_bind_pure; [pure_auto | intros _].
  apply exits_clean_bind_pure; [pure_auto | intros _].
  apply exits_clean_bind_pure; [unfold all_objs; pure_auto | intros ls].
  apply exits_clean_lib.
  apply ro_bind; [apply ro_meta_choice | intros m].
  apply ro_bind; [ro_auto ltac:(exact I) | intros dX].
  apply ro_bind; [ro_auto ltac:(exact I) | intros dy].
  apply ro_bind; [ro_auto ltac:(exact I) | intros h0].
  apply ro_bind; [apply ro_stack_base_loop | intros [ms bp]].
  ro_auto ltac:(first [exact I | intros; apply plain_lib; assumption]).
Qed.

Lemma ro_meta_tail (m : nat) (table : DataFrame V) dy k (c : list item) :
  raises_only lib
    (fit m table dy ;;;
     seed <- global env "seed" seed ;;
     kf <- lift (sklearn.KFold_init k (Some seed)) ;;
     folds <- lift (sklearn.split kf (n_samples table)) ;;
     meta_cv_loop m table dy folds ;;;
     ret c).
Proof.
  apply ro_bind; [eapply ro_weaken; [apply plain_lib | apply ro_fit] | intros _].
  apply ro_bind; [ro_auto ltac:(exact I) | intros s].
  apply ro_bind; [apply ro_lift; intros e He; eapply KFold_init_lib; exact He | intros kf].
  apply ro_bind; [apply ro_lift; intros e He; eapply split_lib; exact He | intros folds].
  apply ro_bind; [eapply ro_weaken; [apply plain_lib | apply ro_meta_cv_loop] | intros _].
  apply ro_ret.
Qed.

Lemma exits_clean_stack_models estimator_list meta_model fold round restack finalize verbose :
  exits_clean (stack_models LinearRegression env estimator_list meta_model fold round
                 restack finalize verbose).
Proof.
  unfold stack_models.
  apply exits_clean_bind_lib; [apply exits_clean_stack_models_features | ].
  intros [[[[[ms m] table] dy] k] b]. apply ro_meta_tail.
Qed.

Lemma exits_clean_create_stacknet_features estimator_list meta_model fold round restack
    finalize verbose :
  exits_clean (create_stacknet_features LinearRegression env estimator_list meta_model fold
                 round restack finalize verbose).
Proof.
  unfold create_stacknet_features.
  apply exits_clean_bind_pure; [apply pure_level_checks | intros levels].
  apply exits_clean_bind_pure; [pure_auto | intros _].
  apply exits_clean_bind_pure; [pure_auto | intros k].
  apply exits_clean_bind_pure; [pure_auto | intros _].
  apply exits_clean_bind_pure; [pure_auto | intros b].
  apply exits_clean_bind_pure; [pure_auto | intros _].
  apply exits_clean_bind_pure; [pure_auto | intros _].
  apply exits_clean_lib.
  apply ro_bind; [ro_auto ltac:(exact I) | intros bl].
  apply ro_bind; [ro_auto ltac:(exact I) | intros h0].
  apply ro_bind; [ro_auto ltac:(exact I) | intros dX].
  apply ro_bind; [ro_auto ltac:(exact I) | intros dy].
  apply ro_bind; [apply ro_meta_choice | intros m].
  apply ro_bind; [apply ro_stacknet_base_loop | intros [bm df]].
  apply ro_bind; [ro_auto ltac:(first [exact I | intros; apply plain_lib; assumption])
                 | intros df1].
  apply ro_bind; [apply ro_inter_levels_loop | intros [ms df2]]. apply ro_ret.
Qed.

Lemma exits_clean_create_stacknet estimator_list meta_model fold round restack finalize
    verbose :
  exits_clean (create_stacknet LinearRegression env estimator_list meta_model fold round
                 restack finalize verbose).
Proof.
  unfold create_stacknet.
  apply exits_clean_bind_lib; [apply exits_clean_create_stacknet_features | ].
  intros [[[[[ms m] table] dy] k] b].
  apply ro_bind; [eapply ro_weaken; [apply plain_lib | apply ro_fit] | intros m'].
  apply ro_bind; [ro_auto ltac:(exact I) | intros s].
  apply ro_bind; [apply ro_lift; intros e He; eapply KFold_init_lib; exact He | intros kf].
  apply ro_bind; [apply ro_lift; intros e He; eapply split_lib; exact He | intros folds].
  apply ro_bind; [eapply ro_weaken; [apply plain_lib | apply ro_meta_cv_loop] | intros _].
  apply ro_ret.
Qed.

(** With estimators that pass, the first failing type check decides. *)
Lemma stack_models_type_error estimator_list meta_model fold round restack finalize verbose
    (h : heap V) msg :
  (forall i, In i (supplied estimator_list meta_model) -> rejected_type (type_of h i) = false) ->
  first_type_error fold round restack verbose = Some msg ->
  stack_models LinearRegression env estimator_list meta_model fold round restack finalize
    verbose h = (Raise (SystemExit msg), h).
Proof.
  intros Hs Hf.
  assert (E1 : for_each check_item estimator_list h
               = (Ok (map (fun _ => tt) estimator_list), h)).
  { rewrite check_items_spec.
    destruct (existsb _ estimator_list) eqn:E; [ | reflexivity].
    apply existsb_exists in E as (i & Hi & Hr).
    rewrite Hs in Hr; [discriminate | ]. unfold supplied. apply in_or_app. left. exact Hi. }
  assert (E2 : match meta_model with None => ret tt | Some m => check_item m end h
               = (Ok tt, h)).
  { destruct meta_model as [m | ]; [ | reflexivity].
    unfold check_item. rewrite Hs; [reflexivity | ].
    unfold supplied. apply in_or_app. right. left. reflexivity. }
  unfold stack_models, stack_models_features.
  erewrite bind_fail; [reflexivity | ].
  erewrite bind_step by exact E1. cbv beta.
  erewrite bind_step by exact E2. cbv beta.
  unfold first_type_error in Hf.
  destruct fold; simpl in Hf; try (inversion Hf; reflexivity).
  destruct round; simpl in Hf; try (inversion Hf; reflexivity).
  destruct restack; simpl in Hf; try (inversion Hf; reflexivity).
  destruct verbose; simpl in Hf; inversion Hf; reflexivity.
Qed.

Lemma create_stacknet_type_error levels meta_model fold round restack finalize verbose
    (h : heap V) msg :
  (forall i, In i (supplied (map Est (List.concat levels)) meta_model) ->
             rejected_type (type_of h i) = false) ->
  first_type_error fold round restack verbose = Some msg ->
  create_stacknet LinearRegression env (map Level levels) meta_model fold round restack
    finalize verbose h = (Raise (SystemExit msg), h).
Proof.
  intros Hs Hf.
  assert (E1 : for_each (fun i => level <- as_level i ;;
                                  for_each (fun j : nat => check_item (Est j)) level ;;;
                                  ret level) (map Level levels) h
               = (Ok levels, h)).
  { rewrite check_levels_spec.
    destruct (existsb _ (List.concat levels)) eqn:E; [ | reflexivity].
    apply existsb_exists in E as (l & Hl & Hr).
    assert (Hr' : rejected_type (type_of h (Est l)) = false).
    { apply Hs. unfold supplied. apply in_or_app. left. apply in_map. exact Hl. }
    simpl in Hr'. rewrite Hr' in Hr. discriminate Hr. }
  assert (E2 : match meta_model with None => ret tt | Some m => check_item m end h
               = (Ok tt, h)).
  { destruct meta_model as [m | ]; [ | reflexivity].
    unfold check_item. rewrite Hs; [reflexivity | ].
    unfold supplied. apply in_or_app. right. left. reflexivity. }
  unfold create_stacknet, create_stacknet_features.
  erewrite bind_fail; [reflexivity | ].
  erewrite bind_step by exact E1. cbv beta.
  erewrite bind_step by exact E2. cbv beta.
  unfold first_type_error in Hf.
  destruct fold; simpl in Hf; try (inversion Hf; reflexivity).
  destruct round; simpl in Hf; try (inversion Hf; reflexivity).
  destruct restack; simpl in Hf; try (inversion Hf; reflexivity).
  destruct verbose; simpl in Hf; inversion Hf; reflexivity.
Qed.

End Validation.

(** The checks of [stack_models] and [create_stacknet] come before any
    training: whenever either function stops with an exit of this module,
    no estimator has been fitted and no estimator object created, the
    store is as it was. *)
Theorem stacking_exits_before_training :
  forall (V : Type) {missing : Missing V} (LinearRegression : estimator V) (env : option globals)
         (estimator_list : list item) (meta_model : option item) (fold round restack : Py.value)
         (finalize : bool) (verbose : Py.value) (h : heap V) (msg : string),
    (fst (stack_models LinearRegression env estimator_list meta_model fold round restack
            finalize verbose h) = Raise (SystemExit msg) ->
     snd (stack_models LinearRegression env estimator_list meta_model fold round restack
            finalize verbose h) = h)
    /\ (fst (create_stacknet LinearRegression env estimator_list meta_model fold round restack
               finalize verbose h) = Raise (SystemExit msg) ->
        snd (create_stacknet LinearRegression env estimator_list meta_model fold round restack
               finalize verbose h) = h).
Proof.
  intros V missing LinearRegression env estimator_list meta_model fold round restack finalize verbose
    h msg. split.
  - destruct (stack_models _ _ _ _ _ _ _ _ _ h) as [r h'] eqn:E. simpl. intros ->.
    eapply exits_clean_stack_models. exact E.
  - destruct (create_stacknet _ _ _ _ _ _ _ _ _ h) as [r h'] eqn:E. simpl. intros ->.
    eapply exits_clean_create_stacknet. exact E.
Qed.

(** When every supplied estimator passes the type-name check, the type
    checks of [stack_models] and [create_stacknet] are reported in the
    order fold, round, restack, verbose: the call stops with the message
    of the first one the arguments fail, and the store is as it was. *)
Theorem stacking_type_checks_in_order :
  forall (V : Type) {missing : Missing V} (LinearRegression : estimator V) (env : option globals)
         (levels : list (list nat)) (estimator_list : list item) (meta_model : option item)
         (fold round restack : Py.value) (finalize : bool) (verbose : Py.value)
         (h : heap V) (msg : string),
    first_type_error fold round restack verbose = Some msg ->
    ((forall i, In i (supplied estimator_list meta_model) ->
                rejected_type (type_of h i) = false) ->
     stack_models LinearRegression env estimator_list meta_model fold round restack finalize
       verbose h = (Raise (SystemExit msg), h))
    /\ ((forall i, In i (supplied (map Est (List.concat levels)) meta_model) ->
                   rejected_type (type_of h i) = false) ->
        create_stacknet LinearRegression env (map Level levels) meta_model fold round restack
          finalize verbose h = (Raise (SystemExit msg), h)).
Proof.
  intros V missing LinearRegression env levels estimator_list meta_model fold round restack finalize
    verbose h msg Hf. split; intros Hs.
  - apply stack_models_type_error; assumption.
  - apply create_stacknet_type_error; assumption.
Qed.

Lemma stacking_type_checks_in_order_witness :
  stack_models Demo.linreg (Some Demo.g) [Est 0; Est 1] None (Py.Int 2) Py.Float (Py.Str "yes")
    false (Py.Bool true) Demo.h0 = (Raise (SystemExit round_msg), Demo.h0)
  /\ create_stacknet Demo.linreg (Some Demo.g) (map Level [[0; 2]; [3]]) None (Py.Int 2) Py.Float
       (Py.Str "yes") false (Py.Bool true) Demo.h0 = (Raise (SystemExit round_msg), Demo.h0).
Proof.
  destruct (stacking_type_checks_in_order Z Demo.linreg (Some Demo.g) [[0; 2]; [3]]
              [Est 0; Est 1] None (Py.Int 2) Py.Float (Py.Str "yes") false (Py.Bool true)
              Demo.h0 round_msg eq_refl) as [S N].
  split.
  - apply S. intros i [<- | [<- | []]]; reflexivity.
  - apply N. intros i [<- | [<- | [<- | []]]]; reflexivity.
Defined.

(** [stack_models] and [create_stacknet] fit, or otherwise change, no
    estimator object other than the estimators they are given, in
    [estimator_list] or as [meta_model]: whatever the outcome, every other
    estimator object that existed before the call is afterwards as it was,
    and none is removed.  (The experiment log and the warning filters,
    which both functions write to, are not estimator objects; they are
    outside this statement.) *)
Theorem stacking_changes_only_given_estimators :
  forall (V : Type) {missing : Missing V} (LinearRegression : estimator V) (env : option globals)
         (estimator_list : list item) (meta_model : option item) (fold round restack : Py.value)
         (finalize : bool) (verbose : Py.value) (h : heap V),
    let given l := exists i, In i (supplied estimator_list meta_model) /\ In l (locs_of i) in
    let after_stack := snd (stack_models LinearRegression env estimator_list meta_model fold
                              round restack finalize verbose h) in
    let after_net := snd (create_stacknet LinearRegression env estimator_list meta_model fold
                            round restack finalize verbose h) in
    (next h <= next after_stack
     /\ forall l, l < next h -> ~ given l -> objs after_stack l = objs h l)
    /\ (next h <= next after_net
        /\ forall l, l < next h -> ~ given l -> objs after_net l = objs h l).
Proof.
  intros V missing LinearRegression env estimator_list meta_model fold round restack finalize verbose h
    given after_stack after_net.
  pose (W := fun l => next h <= l \/ given l).
  assert (HS : forall i, In i (supplied estimator_list meta_model) ->
                         forall l, In l (locs_of i) -> W l).
  { intros i Hi l Hl. right. exists i. split; assumption. }
  assert (HW : forall l, next h <= l -> W l) by (intros l Hl; left; exact Hl).
  split.
  - subst after_stack.
    destruct (stack_models _ _ _ _ _ _ _ _ _ h) as [r h'] eqn:E. simpl.
    destruct (writes_stack_models LinearRegression env W _ _ _ _ _ _ _ HS h r h' E HW) as [N O].
    split; [exact N | ]. intros l Hl Hg. apply O. intros [F | F]; [lia | contradiction].
  - subst after_net.
    destruct (create_stacknet _ _ _ _ _ _ _ _ _ h) as [r h'] eqn:E. simpl.
    destruct (writes_create_stacknet LinearRegression env W _ _ _ _ _ _ _ HS h r h' E HW)
      as [N O].
    split; [exact N | ]. intros l Hl Hg. apply O. intros [F | F]; [lia | contradiction].
Qed.

Section PlainEstimator.

Context {V : Type} {missing : Missing V}.
Variable LinearRegression : estimator V.
Variable np_round : Z -> V -> V.
Local Open Scope py_scope.

(** [finalize_model] on one estimator object, in full. *)
Lemma finalize_model_plain_run env l (h : heap V) :
  finalize_model LinearRegression env (AObj l) h
  = let h1 := snd (alloc (objs h l) h) in
    match fit_method (objs h l) with
    | None => (Raise (AttributeError "fit"), h1)
    | Some f =>
        match env with
        | None => (Raise (NameError "X"), h1)
        | Some g =>
            match f (X g) (y g) with
            | Some msg => (Raise (Foreign msg), h1)
            | None => (Ok (AObj (next h)),
                       update h1 (next h) (set_fitted (objs h l) (Some (X g, y g))))
            end
        end
    end.
Proof.
  unfold finalize_model, deepcopy, copy_obj, bind, deref, alloc, global, fit, ret, raise.
  destruct env as [g | ]; simpl; rewrite ?Nat.eqb_refl;
    destruct (fit_method (objs h l)) as [f | ] eqn:Ef; try reflexivity.
  simpl. rewrite ?Nat.eqb_refl, ?Ef.
  destruct (f (X g) (y g)); reflexivity.
Qed.

Lemma if_same {A} (b : bool) (x : A) : (if b then x else x) = x.
Proof. destruct b; reflexivity. Qed.

Lemma predict_model_plain_with_data g l (data : DataFrame V) round (h : heap V) f t Xt :
  prep_pipe g < next h ->
  fit_method (objs h l) = Some f ->
  transform_method (objs h (prep_pipe g)) = Some t ->
  t data = inr Xt ->
  fst (predict_model LinearRegression np_round (Some g) (AObj l) (Some data) round h)
  = match predict_obj (match f (X g) (y g) with
                       | None => set_fitted (objs h l) (Some (X g, y g))
                       | Some _ => objs h l
                       end) Xt with
    | Ok p => Ok (concat data (label_of np_round p round))
    | Raise e => Raise e
    end.
Proof.
  intros Hp Hfit Ht Htd.
  assert (P1 : Nat.eqb (prep_pipe g) (next h) = false) by (apply Nat.eqb_neq; lia).
  assert (P2 : Nat.eqb (prep_pipe g) (S (next h)) = false) by (apply Nat.eqb_neq; lia).
  unfold predict_model.
  unfold bind at 1. unfold bind at 1.
  change (deepcopy (AObj l) h) with (Ok (AObj (next h)), snd (alloc (objs h l) h)).
  cbv beta iota.
  unfold bind at 1. unfold bind at 1. unfold global at 1. unfold ret at 1 2. cbv beta iota.
  unfold bind at 1. unfold try_except at 1.
  rewrite finalize_model_plain_run. cbv zeta.
  simpl objs. rewrite if_same, Hfit.
  destruct (f (X g) (y g)) as [msg | ] eqn:Ef.
  - unfold ret, bind, as_obj, transform, predict. simpl.
    rewrite ?P1, ?P2, ?if_same, ?Nat.eqb_refl, ?Ht, ?Htd. simpl.
    rewrite ?P1, ?P2, ?if_same, ?Nat.eqb_refl, ?Ht, ?Htd. 
    destruct (predict_obj (objs h l) Xt); reflexivity.
  - unfold ret, bind, as_obj, transform, predict, update. simpl.
    rewrite ?P1, ?P2, ?if_same, ?Nat.eqb_refl, ?Ht, ?Htd. simpl.
    rewrite ?P1, ?P2, ?if_same, ?Nat.eqb_refl, ?Ht, ?Htd. 
    destruct (predict_obj _ Xt); reflexivity.
Qed.

Lemma predict_model_pipeline_list p m (data : DataFrame V) round (h : heap V) t Xt :
  m < next h ->
  Py.contains "sklearn.pipeline.Pipeline" (type_str (objs h p)) = true ->
  transform_method (objs h p) = Some t ->
  t data = inr Xt ->
  fst (predict_model LinearRegression np_round None (AList [Est p; Est m]) (Some data) round h)
  = match predict_obj (objs h m) Xt with
    | Ok pr => Ok (concat data (label_of np_round pr round))
    | Raise e => Raise e
    end.
Proof.
  intros Hm Hc Ht Htd.
  assert (M1 : Nat.eqb m (next h) = false) by (apply Nat.eqb_neq; lia).
  unfold predict_model, deepcopy, copy_items, copy_obj, bind, deref, alloc, ret, raise,
    first_item, pop0, try_except, global, as_obj, transform, predict.
  assert (M2 : Nat.eqb m (S (next h)) = false) by (apply Nat.eqb_neq; lia).
  assert (M3 : Nat.eqb m (S (S (next h))) = false) by (apply Nat.eqb_neq; lia).
  assert (N1 : Nat.eqb (next h) (S (next h)) = false) by (apply Nat.eqb_neq; lia).
  assert (N2 : Nat.eqb (next h) (S (S (next h))) = false) by (apply Nat.eqb_neq; lia).
  destruct (Nat.eqb p m) eqn:Epm.
  - apply Nat.eqb_eq in Epm. subst m.
    repeat (simpl; rewrite ?Nat.eqb_refl, ?Hc, ?M1, ?M2, ?M3, ?N1, ?N2, ?if_same, ?Ht, ?Htd,
              ?finalize_model_plain_run).
    destruct (fit_method (objs h p));
      repeat (simpl; rewrite ?Nat.eqb_refl, ?Hc, ?M1, ?M2, ?M3, ?N1, ?N2, ?if_same, ?Ht, ?Htd);
      destruct (predict_obj (objs h p) Xt); reflexivity.
  - repeat (simpl; rewrite ?Epm, ?Nat.eqb_refl, ?Hc, ?M1, ?M2, ?M3, ?N1, ?N2, ?if_same, ?Ht,
              ?Htd, ?finalize_model_plain_run).
    destruct (fit_method (objs h m));
      repeat (simpl; rewrite ?Epm, ?Nat.eqb_refl, ?Hc, ?M1, ?M2, ?M3, ?N1, ?N2, ?if_same, ?Ht,
                ?Htd);
      destruct (predict_obj (objs h m) Xt); reflexivity.
Qed.


End PlainEstimator.

(** [finalize_model] on one estimator object returns a new object: a copy
    of the estimator fitted on the complete data [X], [y] of the
    experiment.  The estimator given, and every other estimator object, is
    left as it was. *)
Theorem finalize_model_returns_fitted_copy :
  forall (V : Type) {missing : Missing V} (LinearRegression : estimator V) (env : option globals)
         (l : nat) (h : heap V) (a : arg) (h' : heap V),
    finalize_model LinearRegression env (AObj l) h = (Ok a, h') ->
    exists g,
      env = Some g /\ a = AObj (next h)
      /\ objs h' (next h) = set_fitted (objs h l) (Some (X g, y g))
      /\ next h' = S (next h)
      /\ forall l0, l0 < next h -> objs h' l0 = objs h l0.
Proof.
  intros V missing LinearRegression env l h a h' H.
  rewrite finalize_model_plain_run in H. cbv zeta in H.
  destruct (fit_method (objs h l)) as [f | ]; [ | discriminate H].
  destruct env as [g | ]; [ | discriminate H].
  destruct (f (X g) (y g)); [discriminate H | ].
  inversion H; subst. clear H. exists g.
  split; [reflexivity | ]. split; [reflexivity | ].
  unfold update, alloc. simpl. rewrite Nat.eqb_refl.
  split; [reflexivity | ]. split; [reflexivity | ].
  intros l0 Hl0. assert (E : Nat.eqb l0 (next h) = false) by (apply Nat.eqb_neq; lia).
  rewrite E. reflexivity.
Qed.

Lemma finalize_model_returns_fitted_copy_witness :
  exists g,
    Some Demo.g = Some g /\ AObj 8 = AObj (next Demo.h0)
    /\ objs (snd (finalize_model Demo.linreg (Some Demo.g) (AObj 0) Demo.h0)) (next Demo.h0)
       = set_fitted (objs Demo.h0 0) (Some (X g, y g))
    /\ next (snd (finalize_model Demo.linreg (Some Demo.g) (AObj 0) Demo.h0)) = S (next Demo.h0)
    /\ forall l0, l0 < next Demo.h0 ->
         objs (snd (finalize_model Demo.linreg (Some Demo.g) (AObj 0) Demo.h0)) l0
         = objs Demo.h0 l0.
Proof.
  apply (finalize_model_returns_fitted_copy Z Demo.linreg (Some Demo.g) 0 Demo.h0 (AObj 8)).
  vm_compute. reflexivity.
Defined.

(** With a table of new rows and an estimator object, [predict_model]
    does not predict with the estimator as given: it predicts with a copy
    re-fitted on the complete data [X], [y] of the experiment whenever that
    re-fit goes through, and with the estimator as given only when the
    re-fit fails.  The rows are first passed through the preprocessing
    pipeline of [setup]. *)
Theorem predict_model_refits_on_whole_data :
  forall (V : Type) {missing : Missing V} (LinearRegression : estimator V) (np_round : Z -> V -> V)
         (g : globals) (l : nat) (data : DataFrame V) (round : Z) (h : heap V)
         (f : DataFrame V -> Series V -> option string)
         (t : DataFrame V -> string + DataFrame V) (Xt : DataFrame V),
    prep_pipe g < next h ->
    fit_method (objs h l) = Some f ->
    transform_method (objs h (prep_pipe g)) = Some t ->
    t data = inr Xt ->
    fst (predict_model LinearRegression np_round (Some g) (AObj l) (Some data) round h)
    = match predict_obj (match f (X g) (y g) with
                         | None => set_fitted (objs h l) (Some (X g, y g))
                         | Some _ => objs h l
                         end) Xt with
      | Ok p => Ok (concat data (label_of np_round p round))
      | Raise e => Raise e
      end.
Proof.
  intros V missing LinearRegression np_round g l data round h f t Xt Hp Hfit Ht Htd.
  eapply predict_model_plain_with_data; eassumption.
Qed.

Lemma predict_model_refits_on_whole_data_witness :
  fst (predict_model Demo.linreg Demo.rnd (Some Demo.g) (AObj 3) (Some Demo.rows4) 4 Demo.h0)
  = Ok {| nrows := 4;
          cols := [(Name "age", [1; 2; 3; 4]%Z); (Name "bmi", [5; 6; 7; 8]%Z);
                   (Name "Label", [2; 2; 2; 2]%Z)] |}.
Proof.
  rewrite (predict_model_refits_on_whole_data Z Demo.linreg Demo.rnd Demo.g 3 Demo.rows4 4
             Demo.h0 (fun _ _ => None) (fun X => inr X) Demo.rows4).
  - reflexivity.
  - vm_compute. lia.
  - reflexivity.
  - reflexivity.
  - reflexivity.
Defined.

(** A list that carries its own preprocessing pipeline in front of an
    estimator needs no [setup]: without one, [predict_model] transforms the
    new rows with that pipeline and appends the predictions of the
    estimator as it was given. *)
Theorem predict_model_pipeline_list_without_setup :
  forall (V : Type) {missing : Missing V} (LinearRegression : estimator V) (np_round : Z -> V -> V)
         (p m : nat) (data : DataFrame V) (round : Z) (h : heap V)
         (t : DataFrame V -> string + DataFrame V) (Xt : DataFrame V),
    m < next h ->
    Py.contains "sklearn.pipeline.Pipeline" (type_str (objs h p)) = true ->
    transform_method (objs h p) = Some t ->
    t data = inr Xt ->
    fst (predict_model LinearRegression np_round None (AList [Est p; Est m]) (Some data) round h)
    = match predict_obj (objs h m) Xt with
      | Ok pr => Ok (concat data (label_of np_round pr round))
      | Raise e => Raise e
      end.
Proof.
  intros V missing LinearRegression np_round p m data round h t Xt Hm Hc Ht Htd.
  eapply predict_model_pipeline_list; eassumption.
Qed.

Lemma predict_model_pipeline_list_without_setup_witness :
  fst (predict_model Demo.linreg Demo.rnd None (AList [Est 5; Est 0]) (Some Demo.rows4) 4 Demo.h0)
  = Ok {| nrows := 4;
          cols := [(Name "age", [1; 2; 3; 4]%Z); (Name "bmi", [5; 6; 7; 8]%Z);
                   (Name "Label", [2; 2; 2; 2]%Z)] |}.
Proof.
  rewrite (predict_model_pipeline_list_without_setup Z Demo.linreg Demo.rnd 5 0 Demo.rows4 4
             Demo.h0 (fun X => inr X) Demo.rows4).
  - reflexivity.
  - vm_compute. lia.
  - reflexivity.
  - reflexivity.
  - reflexivity.
Defined.

(** On the hold-out set [predict_model] copies, re-fits and transforms
    nothing: the model predicts as it was given, on the hold-out features
    [X_test] as they are, and the store is left as it was.  The call goes
    through only with one prediction per hold-out target value (the
    metrics are computed on them), and the table returned is then
    [X_test], the target [y_test] and one column [Label] of the
    predictions rounded to [round] decimals. *)
Theorem predict_model_hold_out_table :
  forall (V : Type) {missing : Missing V} (LinearRegression : estimator V)
         (np_round : Z -> V -> V) (g : globals) (round : Z) (h : heap V),
    (forall l,
        predict_model LinearRegression np_round (Some g) (AObj l) None round h
        = (hold_out_table np_round g round (predict_obj (objs h l) (X_test g)), h))
    /\ (forall first rest,
           predict_model LinearRegression np_round (Some g) (AList (first :: rest)) None round h
           = (hold_out_table np_round g round
                (fst ((if is_level first
                       then predict_multi_layer (AList (first :: rest)) (X_test g)
                       else predict_single_layer (AList (first :: rest)) (X_test g)) h)),
              h))
    /\ (forall p,
           length p = length (snd (y_test g)) ->
           nrows (X_test g) = length (snd (y_test g)) ->
           hold_out_table np_round g round (Ok p)
           = Ok {| nrows := nrows (X_test g);
                   cols := cols (X_test g)
                           ++ [y_test g; (Name "Label", map (np_round round) p)] |}).
Proof.
  intros V missing LinearRegression np_round g round h.
  split; [ | split].
  - intros l. unfold predict_model, global, bind, ret, predict, hold_out_table. simpl.
    destruct (predict_obj (objs h l) (X_test g)) as [p | e]; [ | reflexivity].
    unfold metrics, ret, raise. destruct (Nat.eqb _ _); reflexivity.
  - intros first rest.
    assert (P : forall r h', (if is_level first
                              then predict_multi_layer (AList (first :: rest)) (X_test g)
                              else predict_single_layer (AList (first :: rest)) (X_test g)) h
                             = (r, h') -> h' = h).
    { intros r h'. destruct (is_level first);
        [apply pure_predict_multi_layer | apply pure_predict_single_layer]. }
    destruct ((if is_level first
               then predict_multi_layer (AList (first :: rest)) (X_test g)
               else predict_single_layer (AList (first :: rest)) (X_test g)) h)
      as [r h'] eqn:E.
    pose proof (P _ _ eq_refl) as ->.
    unfold predict_model, global, bind, ret, first_item. simpl. rewrite E.
    unfold hold_out_table. destruct r as [p | e]; [ | reflexivity].
    unfold metrics, ret, raise. destruct (Nat.eqb _ _); reflexivity.
  - intros p Lp Lx. unfold hold_out_table. rewrite Lp, Nat.eqb_refl.
    rewrite (concat_same_rows (X_test g) (frame_of_series (y_test g))) by exact Lx.
    rewrite concat_same_rows by (simpl; congruence).
    simpl. rewrite <- app_assoc. reflexivity.
Qed.

(** Before [setup] has run the module's variables do not exist:
    [predict_model] on the hold-out set fails on [X_test] and leaves the
    store as it was, [predict_model] with new rows and an estimator object
    fails on [prep_pipe], [finalize_model] on an estimator object that
    can be fitted fails on [X], and [stack_models], once its checks have
    passed and its progress bar is built (which fails with a [TraitError]
    when the number of estimators plus the fold plus four is negative),
    fails on the table it is to train on. *)
Theorem without_setup_name_error :
  forall (V : Type) {missing : Missing V} (LinearRegression : estimator V) (np_round : Z -> V -> V)
         (estimator : arg) (l : nat) (data : DataFrame V) (round : Z) (h : heap V),
    predict_model LinearRegression np_round None estimator None round h
    = (Raise (NameError "X_test"), h)
    /\ fst (predict_model LinearRegression np_round None (AObj l) (Some data) round h)
       = Raise (NameError "prep_pipe")
    /\ (fit_method (objs h l) <> None ->
        fst (finalize_model LinearRegression None (AObj l) h) = Raise (NameError "X"))
    /\ (forall ls meta_model k r b v finalize,
           (forall i, In i (supplied (map Est ls) meta_model) ->
                      rejected_type (type_of h i) = false /\ exists m, i = Est m) ->
           fst (stack_models LinearRegression None (map Est ls) meta_model (Py.Int k) (Py.Int r)
                  (Py.Bool b) finalize (Py.Bool v) h)
           = if (Z.of_nat (length ls) + k + 4 <? 0)%Z
             then Raise TraitError
             else Raise (NameError (if finalize then "X" else "X_train"))).
Proof.
  intros V missing LinearRegression np_round estimator l data round h.
  split; [reflexivity | ]. split; [reflexivity | ]. split.
  - intros Hf. rewrite finalize_model_plain_run. cbv zeta.
    destruct (fit_method (objs h l)); [reflexivity | contradiction].
  - intros ls meta_model k r b v finalize Hs.
    assert (E1 : for_each check_item (map Est ls) h
                 = (Ok (map (fun _ => tt) (map Est ls)), h)).
    { rewrite check_items_spec.
      destruct (existsb _ (map Est ls)) eqn:E; [ | reflexivity].
      apply existsb_exists in E as (i & Hi & Hr).
      destruct (Hs i) as [Hr' _]; [unfold supplied; apply in_or_app; left; exact Hi | ].
      rewrite Hr' in Hr. discriminate Hr. }
    assert (E2 : match meta_model with None => ret tt | Some m => check_item m end h
                 = (Ok tt, h)).
    { destruct meta_model as [m | ]; [ | reflexivity].
      unfold check_item.
      destruct (Hs m) as [Hr' _]; [unfold supplied; apply in_or_app; right; left; reflexivity | ].
      rewrite Hr'. reflexivity. }
    assert (E3 : all_objs (map Est ls) h = (Ok ls, h)).
    { unfold all_objs. clear. induction ls as [| x xs IH]; [reflexivity | ].
      simpl. erewrite bind_step by reflexivity. cbv beta.
      erewrite bind_step by exact IH. reflexivity. }
    assert (Hmeta : meta_model = None \/ exists m, meta_model = Some (Est m)).
    { destruct meta_model as [i | ]; [right | left; reflexivity].
      destruct (Hs i) as [_ [m ->]]; [unfold supplied; apply in_or_app; right; left; reflexivity | ].
      exists m. reflexivity. }
    unfold stack_models, stack_models_features. rewrite length_map.
    destruct (Z.of_nat (length ls) + k + 4 <? 0)%Z eqn:Ek;
      [apply Z.ltb_lt in Ek | apply Z.ltb_ge in Ek].
    + erewrite bind_fail; [reflexivity | ].
      erewrite bind_step by exact E1. cbv beta.
      erewrite bind_step by exact E2. cbv beta.
      do 4 (erewrite bind_step by reflexivity; cbv beta).
      erewrite bind_fail by (apply IntProgress_refuse; exact Ek). reflexivity.
    + destruct Hmeta as [-> | [m ->]]; destruct finalize.
      all: erewrite bind_fail; [reflexivity | ].
      all: erewrite bind_step by exact E1; cbv beta.
      all: erewrite bind_step by exact E2; cbv beta.
      all: do 4 (erewrite bind_step by reflexivity; cbv beta).
      all: erewrite bind_step by (apply IntProgress_pass; exact Ek); cbv beta.
      all: erewrite bind_step by exact E3; cbv beta.
      all: reflexivity.
Qed.

Section TrainingRuns.

Context {V : Type} {missing : Missing V}.
Local Abbreviation pure := (@pure V).
Local Abbreviation writes := (@writes V).
Local Abbreviation raises_only := (@raises_only V).
Local Abbreviation same_objs := (@same_objs V).
Variable construct : string -> Z -> estimator V.
Variable BaggingRegressor : estimator V -> Z -> Z -> estimator V.
Variable AdaBoostRegressor : estimator V -> Z -> Z -> estimator V.
Variable env : option (globals (V:=V)).
Local Open Scope py_scope.

Lemma exit_if_ok b msg (h : heap V) u h' : exit_if b msg h = (Ok u, h') -> b = false /\ h' = h.
Proof. unfold exit_if. destruct b; [discriminate | ]. intros H. inversion H. split; reflexivity. Qed.

Lemma wrap_by_method_ok method model seed_ (h : heap V) l h' :
  wrap_by_method BaggingRegressor AdaBoostRegressor method model seed_ h = (Ok l, h') ->
  (l = model /\ h' = h /\ in_strings method ["Bagging"] = false
   /\ in_strings method ["Boosting"] = false)
  \/ (l = next h /\ alloc (if in_strings method ["Bagging"]
                           then BaggingRegressor (objs h model) 10 seed_
                           else AdaBoostRegressor (objs h model) 10 seed_) h = (Ok l, h')
      /\ (in_strings method ["Bagging"] = true \/ in_strings method ["Boosting"] = true)).
Proof.
  unfold wrap_by_method. intros H.
  destruct method as [z | b | | s | | t];
    try (apply ret_ok in H as [<- <-]; left; repeat split).
  simpl. destruct (String.eqb s "Bagging") eqn:E1.
  - right. simpl. inv_ok H as o h1 Eo. apply deref_ok in Eo as [-> ->].
    pose proof (alloc_ok _ _ _ _ H) as (-> & _). repeat split; [exact H | left; reflexivity].
  - destruct (String.eqb s "Boosting") eqn:E2.
    + right. simpl. inv_ok H as o h1 Eo. apply deref_ok in Eo as [-> ->].
      pose proof (alloc_ok _ _ _ _ H) as (-> & _). repeat split; [exact H | right; reflexivity].
    + apply ret_ok in H as [<- <-]. left. repeat split.
Qed.

Lemma fit_result l (X : DataFrame V) y h l' h' :
  fit l X y h = (Ok l', h') ->
  objs h' l = set_fitted (objs h l) (Some (X, y)) /\ next h' = next h.
Proof.
  intros H. apply fit_ok in H as [_ ->]. unfold update. simpl.
  rewrite Nat.eqb_refl. split; reflexivity.
Qed.

Lemma meta_cv_loop_next model (data_X : DataFrame V) data_y folds h u h' :
  meta_cv_loop model data_X data_y folds h = (Ok u, h') -> next h' = next h.
Proof.
  revert h. induction folds as [| [train_i test_i] rest IH]; intros h H; simpl in H.
  - inversion H. reflexivity.
  - inv_ok H as a h1 E1. apply fit_result in E1 as [_ N1].
    inv_ok H as p h2 E2. apply predict_heap in E2. subst h2.
    inv_ok H as v h3 E3. apply metrics_heap in E3. subst h3.
    rewrite (IH _ H). exact N1.
Qed.

(** Training the object at [l], as [create_model] and [ensemble_model]
    do once they have built it. *)
Lemma train_ok l (data_X : DataFrame V) data_y kf (h : heap V) l' h' :
  (folds <- lift (sklearn.split kf (n_samples data_X)) ;;
   meta_cv_loop l data_X data_y folds ;;;
   fit l data_X data_y ;;;
   ret l) h = (Ok l', h') ->
  l' = l /\ next h' = next h
  /\ objs h' l = set_fitted (objs h l) (Some (data_X, data_y))
  /\ forall l0, l0 <> l -> objs h' l0 = objs h l0.
Proof.
  intros H. inv_ok H as folds h1 E1. apply lift_ok in E1 as [_ ->].
  inv_ok H as u h2 E2. inv_ok H as l1 h3 E3. apply ret_ok in H as [<- <-].
  pose proof (meta_cv_loop_same_objs _ _ _ _ _ _ _ E2 l) as [d Hd].
  pose proof (fit_result _ _ _ _ _ _ E3) as [Hf N3].
  split; [reflexivity | ]. split.
  { rewrite N3. eapply meta_cv_loop_next. exact E2. }
  split.
  - rewrite Hf, Hd. apply set_fitted_twice.
  - intros l0 Hl0. rewrite (fit_other _ _ _ _ _ _ l0 E3 Hl0).
    eapply meta_cv_loop_other; eassumption.
Qed.

Lemma create_model_inv estimator ensemble method fold round verbose (h : heap V) l h' :
  create_model construct BaggingRegressor AdaBoostRegressor env estimator ensemble method
    fold round verbose h = (Ok l, h') ->
  exists g name,
    env = Some g /\ estimator = Py.Str name
    /\ create_model_accepts estimator ensemble method fold round verbose = true
    /\ next h <= l < next h'
    /\ objs h' l
       = set_fitted (created construct BaggingRegressor AdaBoostRegressor name method (seed g))
                    (Some (X_train g, y_train g))
    /\ frame h h'.
Proof.
  intros H. unfold create_model in H.
  inv_ok H as u1 h1 E1. apply exit_if_ok in E1 as [C1 ->]. apply negb_false_iff in C1.
  inv_ok H as ens h2 E2. apply check_bool_ok in E2 as [-> ->].
  inv_ok H as u3 h3 E3. apply exit_if_ok in E3 as [C3 ->].
  inv_ok H as u4 h4 E4. apply exit_if_ok in E4 as [C4 ->].
  inv_ok H as u5 h5 E5. apply exit_if_ok in E5 as [C5 ->].
  inv_ok H as k h6 E6. apply check_int_ok in E6 as [-> ->].
  inv_ok H as r h7 E7. apply check_int_ok in E7 as [-> ->].
  inv_ok H as v h8 E8. apply check_bool_ok in E8 as [-> ->].
  inv_ok H as pg h9 E9. apply IntProgress_ok in E9 as [_ ->].
  inv_ok H as dX h9 E9. apply global_ok in E9 as (g & Hg & -> & ->).
  inv_ok H as dy h10 E10. apply global_ok in E10 as (g' & Hg' & -> & ->).
  rewrite Hg in Hg'. inversion Hg'; subst g'. clear Hg'.
  inv_ok H as s h11 E11. apply global_ok in E11 as (g' & Hg' & -> & ->).
  rewrite Hg in Hg'. inversion Hg'; subst g'. clear Hg'.
  inv_ok H as kf h12 E12. apply lift_ok in E12 as [_ ->].
  inv_ok H as model h13 E13. apply alloc_ok in E13 as (-> & Ho & Hn & F1).
  inv_ok H as model' h14 E14.
  destruct estimator as [z | b | | name | | t]; try discriminate C1.
  exists g, name. split; [exact Hg | ]. split; [reflexivity | ].
  split.
  { unfold create_model_accepts. rewrite C1. simpl.
    destruct ens; simpl in *.
    - apply negb_false_iff in C5. rewrite C5. reflexivity.
    - apply negb_false_iff in C3. rewrite C3. reflexivity. }
  apply train_ok in H as (-> & N & Hobj & Hother).
  apply wrap_by_method_ok in E14 as [(-> & -> & B1 & B2) | (-> & Ea & B)].
  - split; [lia | ]. split.
    + rewrite Hobj, Ho. unfold created. rewrite B1, B2. reflexivity.
    + split; [lia | ]. intros l0 Hl0. rewrite Hother by lia. apply F1. exact Hl0.
  - apply alloc_ok in Ea as (_ & Ho2 & Hn2 & F2).
    split; [lia | ]. split.
    + rewrite Hobj, Ho2, Ho. unfold created.
      destruct (in_strings method ["Bagging"]) eqn:B1; [reflexivity | ].
      destruct B as [B | B]; [discriminate B | rewrite B; reflexivity].
    + split; [lia | ]. intros l0 Hl0. rewrite Hother by lia.
      destruct F2 as [_ O2]. rewrite O2 by lia. apply F1. exact Hl0.
Qed.

Lemma ensemble_model_inv estimator method fold n_estimators round verbose (h : heap V) l h' :
  ensemble_model BaggingRegressor AdaBoostRegressor env estimator method fold n_estimators
    round verbose h = (Ok l, h') ->
  exists g n,
    env = Some g /\ n_estimators = Py.Int n
    /\ ensemble_model_accepts method fold n_estimators round verbose = true
    /\ l = next h /\ next h' = S (next h)
    /\ objs h' l
       = set_fitted (ensembled BaggingRegressor AdaBoostRegressor (objs h estimator) method n
                       (seed g))
                    (Some (X_train g, y_train g))
    /\ frame h h'.
Proof.
  intros H. unfold ensemble_model in H.
  inv_ok H as u1 h1 E1. apply exit_if_ok in E1 as [C1 ->]. apply negb_false_iff in C1.
  inv_ok H as k h6 E6. apply check_int_ok in E6 as [-> ->].
  inv_ok H as n h7 E7. apply check_int_ok in E7 as [-> ->].
  inv_ok H as r h8 E8. apply check_int_ok in E8 as [-> ->].
  inv_ok H as v h9 E9. apply check_bool_ok in E9 as [-> ->].
  inv_ok H as pg h10 E10. apply IntProgress_ok in E10 as [_ ->].
  inv_ok H as dX h10 E10. apply global_ok in E10 as (g & Hg & -> & ->).
  inv_ok H as dy h11 E11. apply global_ok in E11 as (g' & Hg' & -> & ->).
  rewrite Hg in Hg'. inversion Hg'; subst g'. clear Hg'.
  inv_ok H as o h12 E12. apply deref_ok in E12 as [-> ->].
  inv_ok H as s h13 E13. apply global_ok in E13 as (g' & Hg' & -> & ->).
  rewrite Hg in Hg'. inversion Hg'; subst g'. clear Hg'.
  inv_ok H as model h14 E14. apply alloc_ok in E14 as (-> & Ho & Hn & F1).
  inv_ok H as kf h15 E15. apply lift_ok in E15 as [_ ->].
  apply train_ok in H as (-> & N & Hobj & Hother).
  exists g, n. split; [exact Hg | ]. split; [reflexivity | ].
  split; [unfold ensemble_model_accepts; rewrite C1; reflexivity | ].
  split; [reflexivity | ]. split; [lia | ]. split.
  - rewrite Hobj, Ho. reflexivity.
  - split; [lia | ]. intros l0 Hl0. rewrite Hother by lia. apply F1. exact Hl0.
Qed.

Lemma ro_train l (data_X : DataFrame V) data_y kf :
  raises_only lib
    (folds <- lift (sklearn.split kf (n_samples data_X)) ;;
     meta_cv_loop l data_X data_y folds ;;;
     fit l data_X data_y ;;;
     ret l).
Proof.
  apply ro_bind; [apply ro_lift; intros e He; eapply split_lib; exact He | intros folds].
  apply ro_bind; [eapply ro_weaken; [apply plain_lib | apply ro_meta_cv_loop] | intros _].
  apply ro_bind; [eapply ro_weaken; [apply plain_lib | apply ro_fit] | intros _].
  apply ro_ret.
Qed.

Lemma ro_wrap_by_method method model seed_ :
  raises_only lib (wrap_by_method BaggingRegressor AdaBoostRegressor method model seed_).
Proof.
  unfold wrap_by_method. destruct method; try apply ro_ret.
  destruct (String.eqb s "Bagging");
    [apply ro_bind; [apply ro_deref | intros o; apply ro_alloc] | ].
  destruct (String.eqb s "Boosting");
    [apply ro_bind; [apply ro_deref | intros o; apply ro_alloc] | apply ro_ret].
Qed.

Local Arguments wrap_by_method : simpl never.

Lemma create_model_accepted estimator ensemble method fold round verbose :
  create_model_accepts estimator ensemble method fold round verbose = true ->
  raises_only lib
    (create_model construct BaggingRegressor AdaBoostRegressor env estimator ensemble method
       fold round verbose).
Proof.
  unfold create_model_accepts. intros H.
  apply andb_prop in H as [H Hv]. apply andb_prop in H as [H Hr].
  apply andb_prop in H as [H Hk]. apply andb_prop in H as [He Hm].
  destruct fold; try discriminate Hk. destruct round; try discriminate Hr.
  destruct verbose; try discriminate Hv.
  unfold create_model. rewrite He.
  destruct ensemble as [z1 | [ | ] | | s1 | | t1]; try discriminate Hm;
    destruct method as [z2 | b2 | | s2 | | t2]; try discriminate Hm; try rewrite Hm; simpl.
  all: repeat (apply ro_bind_ret).
  all: apply ro_bind; [eapply ro_weaken; [apply plain_lib | apply ro_IntProgress] | intros _].
  all: apply ro_bind; [ro_auto ltac:(exact I) | intros dX].
  all: apply ro_bind; [ro_auto ltac:(exact I) | intros dy].
  all: apply ro_bind; [ro_auto ltac:(exact I) | intros sd].
  all: apply ro_bind; [apply ro_lift; intros e E; eapply KFold_init_lib; exact E | intros kf].
  all: apply ro_bind; [apply ro_alloc | intros model].
  all: apply ro_bind; [apply ro_wrap_by_method | intros model'].
  all: apply ro_train.
Qed.

Lemma create_model_refused estimator ensemble method fold round verbose (h : heap V) :
  create_model_accepts estimator ensemble method fold round verbose = false ->
  exists msg,
    create_model construct BaggingRegressor AdaBoostRegressor env estimator ensemble method
      fold round verbose h = (Raise (SystemExit msg), h).
Proof.
  unfold create_model_accepts, create_model. intros H.
  destruct (in_strings estimator available_estimators); [ | eexists; reflexivity].
  destruct ensemble as [z1 | [ | ] | | s1 | | t1]; try (eexists; reflexivity).
  - destruct (is_none method) eqn:Mn.
    + eexists. unfold bind, exit_if, check_bool, ret, raise. simpl. rewrite ?Mn. reflexivity.
    + destruct (in_strings method available_method) eqn:Mi.
      * simpl in H.
        destruct fold; try (eexists; unfold bind, exit_if, check_bool, check_int, ret, raise;
                            simpl; rewrite ?Mn, ?Mi; reflexivity).
        destruct round; try (eexists; unfold bind, exit_if, check_bool, check_int, ret, raise;
                             simpl; rewrite ?Mn, ?Mi; reflexivity).
        destruct verbose; try (eexists; unfold bind, exit_if, check_bool, check_int, ret, raise;
                               simpl; rewrite ?Mn, ?Mi; reflexivity).
        discriminate H.
      * eexists. unfold bind, exit_if, check_bool, ret, raise. simpl. rewrite ?Mn, ?Mi.
        reflexivity.
  - destruct (is_none method) eqn:Mn.
    + simpl in H.
      destruct fold; try (eexists; unfold bind, exit_if, check_bool, check_int, ret, raise;
                          simpl; rewrite ?Mn; reflexivity).
      destruct round; try (eexists; unfold bind, exit_if, check_bool, check_int, ret, raise;
                           simpl; rewrite ?Mn; reflexivity).
      destruct verbose; try (eexists; unfold bind, exit_if, check_bool, check_int, ret, raise;
                             simpl; rewrite ?Mn; reflexivity).
      discriminate H.
    + eexists. unfold bind, exit_if, check_bool, ret, raise. simpl. rewrite ?Mn. reflexivity.
Qed.

Lemma ensemble_model_accepted estimator method fold n_estimators round verbose :
  ensemble_model_accepts method fold n_estimators round verbose = true ->
  raises_only lib
    (ensemble_model BaggingRegressor AdaBoostRegressor env estimator method fold n_estimators
       round verbose).
Proof.
  unfold ensemble_model_accepts. intros H.
  apply andb_prop in H as [H Hv]. apply andb_prop in H as [H Hr].
  apply andb_prop in H as [H Hn]. apply andb_prop in H as [Hm Hk].
  destruct fold; try discriminate Hk. destruct n_estimators; try discriminate Hn.
  destruct round; try discriminate Hr. destruct verbose; try discriminate Hv.
  unfold ensemble_model. rewrite Hm. simpl.
  repeat (apply ro_bind_ret).
  apply ro_bind; [eapply ro_weaken; [apply plain_lib | apply ro_IntProgress] | intros _].
  apply ro_bind; [ro_auto ltac:(exact I) | intros dX].
  apply ro_bind; [ro_auto ltac:(exact I) | intros dy].
  apply ro_bind; [apply ro_deref | intros o].
  apply ro_bind; [ro_auto ltac:(exact I) | intros sd].
  apply ro_bind; [apply ro_alloc | intros model].
  apply ro_bind; [apply ro_lift; intros e E; eapply KFold_init_lib; exact E | intros kf].
  apply ro_train.
Qed.

Lemma ensemble_model_refused estimator method fold n_estimators round verbose (h : heap V) :
  ensemble_model_accepts method fold n_estimators round verbose = false ->
  exists msg,
    ensemble_model BaggingRegressor AdaBoostRegressor env estimator method fold n_estimators
      round verbose h = (Raise (SystemExit msg), h).
Proof.
  unfold ensemble_model_accepts, ensemble_model. intros H.
  destruct (in_strings method available_method); [ | eexists; reflexivity].
  destruct fold; try (eexists; reflexivity).
  destruct n_estimators; try (eexists; reflexivity).
  destruct round; try (eexists; reflexivity).
  destruct verbose; try (eexists; reflexivity).
  discriminate H.
Qed.

End TrainingRuns.

(** A successful [create_model] returns a new object, the estimator built
    for the name (inside a bagging or boosting wrapper when a method is
    given), and that object is fitted on the complete training set
    [X_train], [y_train]: after the cross-validation loop the model is
    fitted once more on all of it.  The call passed the checks, and every
    estimator object that existed before is as it was. *)
Theorem create_model_refits_on_training_set :
  forall (V : Type) (construct : string -> Z -> estimator V)
         (BaggingRegressor AdaBoostRegressor : estimator V -> Z -> Z -> estimator V)
         (env : option globals) (estimator ensemble method fold round verbose : Py.value)
         (h : heap V) (l : nat) (h' : heap V),
    create_model construct BaggingRegressor AdaBoostRegressor env estimator ensemble method
      fold round verbose h = (Ok l, h') ->
    exists g name,
      env = Some g /\ estimator = Py.Str name
      /\ create_model_accepts estimator ensemble method fold round verbose = true
      /\ next h <= l < next h'
      /\ objs h' l
         = set_fitted (created construct BaggingRegressor AdaBoostRegressor name method (seed g))
                      (Some (X_train g, y_train g))
      /\ frame h h'.
Proof.
  intros V construct BaggingRegressor AdaBoostRegressor env estimator ensemble method fold round
    verbose h l h' H.
  eapply create_model_inv. exact H.
Qed.

Lemma create_model_refits_on_training_set_witness :
  exists g name,
    Some Demo.g = Some g /\ Py.Str "ridge" = Py.Str name
    /\ create_model_accepts (Py.Str "ridge") (Py.Bool true) (Py.Str "Bagging") (Py.Int 2)
         (Py.Int 4) (Py.Bool true) = true
    /\ next Demo.h0 <= 9
       < next (snd (create_model DemoTraining.construct DemoTraining.BaggingRegressor
                      DemoTraining.AdaBoostRegressor (Some Demo.g) (Py.Str "ridge")
                      (Py.Bool true) (Py.Str "Bagging") (Py.Int 2) (Py.Int 4) (Py.Bool true)
                      Demo.h0))
    /\ objs (snd (create_model DemoTraining.construct DemoTraining.BaggingRegressor
                    DemoTraining.AdaBoostRegressor (Some Demo.g) (Py.Str "ridge")
                    (Py.Bool true) (Py.Str "Bagging") (Py.Int 2) (Py.Int 4) (Py.Bool true)
                    Demo.h0)) 9
       = set_fitted (created DemoTraining.construct DemoTraining.BaggingRegressor
                       DemoTraining.AdaBoostRegressor name (Py.Str "Bagging") (seed g))
                    (Some (X_train g, y_train g))
    /\ frame Demo.h0
         (snd (create_model DemoTraining.construct DemoTraining.BaggingRegressor
                 DemoTraining.AdaBoostRegressor (Some Demo.g) (Py.Str "ridge")
                 (Py.Bool true) (Py.Str "Bagging") (Py.Int 2) (Py.Int 4) (Py.Bool true)
                 Demo.h0)).
Proof.
  apply (create_model_refits_on_training_set Z DemoTraining.construct
           DemoTraining.BaggingRegressor DemoTraining.AdaBoostRegressor (Some Demo.g)
           (Py.Str "ridge") (Py.Bool true) (Py.Str "Bagging") (Py.Int 2) (Py.Int 4)
           (Py.Bool true) Demo.h0 9).
  vm_compute. reflexivity.
Defined.

(** A successful [ensemble_model] returns a new object, the bagging or
    boosting wrapper built around the estimator it is given, fitted on the
    complete training set [X_train], [y_train].  The call passed the
    checks, and the estimator given, like every estimator object that
    existed before, is as it was. *)
Theorem ensemble_model_wraps_and_refits :
  forall (V : Type)
         (BaggingRegressor AdaBoostRegressor : estimator V -> Z -> Z -> estimator V)
         (env : option globals) (estimator : nat)
         (method fold n_estimators round verbose : Py.value)
         (h : heap V) (l : nat) (h' : heap V),
    ensemble_model BaggingRegressor AdaBoostRegressor env estimator method fold n_estimators
      round verbose h = (Ok l, h') ->
    exists g n,
      env = Some g /\ n_estimators = Py.Int n
      /\ ensemble_model_accepts method fold n_estimators round verbose = true
      /\ l = next h /\ next h' = S (next h)
      /\ objs h' l
         = set_fitted (ensembled BaggingRegressor AdaBoostRegressor (objs h estimator) method n
                         (seed g))
                      (Some (X_train g, y_train g))
      /\ frame h h'.
Proof.
  intros V BaggingRegressor AdaBoostRegressor env estimator method fold n_estimators round
    verbose h l h' H.
  eapply ensemble_model_inv. exact H.
Qed.

Lemma ensemble_model_wraps_and_refits_witness :
  exists g n,
    Some Demo.g = Some g /\ Py.Int 10 = Py.Int n
    /\ ensemble_model_accepts (Py.Str "Boosting") (Py.Int 2) (Py.Int 10) (Py.Int 4)
         (Py.Bool true) = true
    /\ 8 = next Demo.h0
    /\ next (snd (ensemble_model DemoTraining.BaggingRegressor DemoTraining.AdaBoostRegressor
                    (Some Demo.g) 0 (Py.Str "Boosting") (Py.Int 2) (Py.Int 10) (Py.Int 4)
                    (Py.Bool true) Demo.h0)) = S (next Demo.h0)
    /\ objs (snd (ensemble_model DemoTraining.BaggingRegressor DemoTraining.AdaBoostRegressor
                    (Some Demo.g) 0 (Py.Str "Boosting") (Py.Int 2) (Py.Int 10) (Py.Int 4)
                    (Py.Bool true) Demo.h0)) 8
       = set_fitted (ensembled DemoTraining.BaggingRegressor DemoTraining.AdaBoostRegressor
                       (objs Demo.h0 0) (Py.Str "Boosting") n (seed g))
                    (Some (X_train g, y_train g))
    /\ frame Demo.h0
         (snd (ensemble_model DemoTraining.BaggingRegressor DemoTraining.AdaBoostRegressor
                 (Some Demo.g) 0 (Py.Str "Boosting") (Py.Int 2) (Py.Int 10) (Py.Int 4)
                 (Py.Bool true) Demo.h0)).
Proof.
  apply (ensemble_model_wraps_and_refits Z DemoTraining.BaggingRegressor
           DemoTraining.AdaBoostRegressor (Some Demo.g) 0 (Py.Str "Boosting") (Py.Int 2)
           (Py.Int 10) (Py.Int 4) (Py.Bool true) Demo.h0 8).
  vm_compute. reflexivity.
Defined.

(** [create_model] and [ensemble_model] refuse a call with an exit of the
    module exactly when their checks fail: an estimator name outside the
    list, an [ensemble] that is not a boolean, a method given without
    [ensemble], [ensemble] without one of the two methods, a fold, round or
    number of estimators that is not an integer, a [verbose] that is not a
    boolean.  A refusal leaves the store as it was, and a call that passes
    the checks never ends in an exit of the module. *)
Theorem training_validation :
  forall (V : Type) (construct : string -> Z -> estimator V)
         (BaggingRegressor AdaBoostRegressor : estimator V -> Z -> Z -> estimator V)
         (env : option globals) (name ensemble method fold n_estimators round verbose : Py.value)
         (estimator : nat) (h : heap V),
    let created_ := create_model construct BaggingRegressor AdaBoostRegressor env name ensemble
                      method fold round verbose h in
    let ensembled_ := ensemble_model BaggingRegressor AdaBoostRegressor env estimator method
                        fold n_estimators round verbose h in
    (if create_model_accepts name ensemble method fold round verbose
     then forall msg, fst created_ <> Raise (SystemExit msg)
     else exists msg, created_ = (Raise (SystemExit msg), h))
    /\ (if ensemble_model_accepts method fold n_estimators round verbose
        then forall msg, fst ensembled_ <> Raise (SystemExit msg)
        else exists msg, ensembled_ = (Raise (SystemExit msg), h)).
Proof.
  intros V construct BaggingRegressor AdaBoostRegressor env name ensemble method fold
    n_estimators round verbose estimator h created_ ensembled_.
  split.
  - destruct (create_model_accepts name ensemble method fold round verbose) eqn:A.
    + intros msg E. subst created_.
      destruct (create_model _ _ _ _ _ _ _ _ _ _ h) as [r h'] eqn:R. simpl in E. subst r.
      apply (create_model_accepted construct BaggingRegressor AdaBoostRegressor env _ _ _ _ _ _ A)
        in R. exact R.
    + apply create_model_refused. exact A.
  - destruct (ensemble_model_accepts method fold n_estimators round verbose) eqn:A.
    + intros msg E. subst ensembled_.
      destruct (ensemble_model _ _ _ _ _ _ _ _ _ h) as [r h'] eqn:R. simpl in E. subst r.
      apply (ensemble_model_accepted BaggingRegressor AdaBoostRegressor env _ _ _ _ _ _ A) in R.
      exact R.
    + apply ensemble_model_refused. exact A.
Qed.

Lemma stack_models_meta_table_columns_witness :
  exists g ls m b Xf yf,
    Some Demo.g = Some g /\ [Est 0; Est 2] = map Est ls /\ Py.Bool true = Py.Bool b
    /\ [Est 0; Est 2; Est 3; Flag true] = map Est ls ++ [Est m; Flag b]
    /\ fitted_on (objs (snd (stack_models Demo.linreg (Some Demo.g) [Est 0; Est 2]
                               (Some (Est 3)) (Py.Int 2) (Py.Int 4) (Py.Bool true) false
                               (Py.Bool true) Demo.h0)) m) = Some (Xf, yf)
    /\ let raw := if b then columns (chosen_X g false) else [] in
       let names :=
         map Name (model_names_fixed
                     (model_names_of (snd (stack_models Demo.linreg (Some Demo.g)
                                             [Est 0; Est 2] (Some (Est 3)) (Py.Int 2) (Py.Int 4)
                                             (Py.Bool true) false (Py.Bool true) Demo.h0)) ls)) in
       let target := fst (chosen_y g false) in
       columns Xf = raw ++ filter (fun c => negb (label_eqb c target)) names
       /\ (~ In target names -> columns Xf = raw ++ names).
Proof.
  apply (stack_models_meta_table_columns Z Demo.linreg (Some Demo.g) [Est 0; Est 2]
           (Some (Est 3)) (Py.Int 2) (Py.Int 4) (Py.Bool true) false (Py.Bool true) Demo.h0
           [Est 0; Est 2; Est 3; Flag true]).
  vm_compute. reflexivity.
Defined.

Section SingleLayerNames.

Context {V : Type} {missing : Missing V}.
Local Open Scope py_scope.

Lemma model_names_infer_of_container (h : heap V) ls :
  model_names_infer (map (fun i => Py.before_paren (str_of_item h i)) (map Est ls))
  = model_names_fixed (model_names_of h ls).
Proof.
  unfold model_names_infer, model_names_fixed, model_names_of. rewrite map_map. reflexivity.
Qed.

Lemma app_two_inv {A} (xs ys : list A) a b c d :
  xs ++ [a; b] = ys ++ [c; d] -> xs = ys /\ a = c /\ b = d.
Proof.
  intros H.
  change (xs ++ [a; b]) with (xs ++ [a] ++ [b]) in H.
  change (ys ++ [c; d]) with (ys ++ [c] ++ [d]) in H.
  rewrite !app_assoc in H.
  apply app_inj_tail in H as [H ->]. apply app_inj_tail in H as [-> ->].
  repeat split.
Qed.

Lemma single_layer_tables_inv model (Xtest : DataFrame V) h flag meta df dfr h' :
  single_layer_tables model Xtest h = (Ok (flag, meta, df, dfr), h') ->
  exists stacker,
    model = AList (stacker ++ [meta; flag]) /\ h' = h
    /\ columns df
       = map Name (model_names_infer
                     (map (fun i => Py.before_paren (str_of_item h i)) stacker))
    /\ dfr = concat Xtest df.
Proof.
  intros H. unfold single_layer_tables in H.
  inv_ok H as stacker h1 E0.
  assert (model = AList stacker /\ h1 = h) as [-> ->]
    by (destruct model; simpl in E0; inversion E0; split; reflexivity).
  inv_ok H as r1 h2 E1. destruct r1 as [s1 restack]. apply pop_ok in E1 as [-> ->].
  inv_ok H as r2 h3 E2. destruct r2 as [s2 mm]. apply pop_ok in E2 as [-> ->].
  inv_ok H as hh h4 E3. inversion E3; subst hh h4. clear E3.
  inv_ok H as preds h5 E4.
  assert (h5 = h) as ->.
  { eapply (for_each_heap _ _ _ _ _ _ E4). Unshelve.
    intros x h0 r h0' Hx. unfold bind in Hx. destruct x; simpl in Hx; inversion Hx; reflexivity. }
  inv_ok H as df0 h6 E5. apply lift_ok in E5 as [E5 ->].
  apply ret_ok in H as [H <-]. inversion H; subst. clear H.
  exists s2. rewrite <- app_assoc. split; [reflexivity | ]. split; [reflexivity | ].
  split; [ | reflexivity]. eapply set_columns_columns. exact E5.
Qed.

End SingleLayerNames.

(** For a single-layer container the names of the base columns are
    reproduced at inference: on the container [stack_models] returned,
    [predict_model] rebuilds a table of base predictions whose columns are,
    in order, the names [stack_models] gave the base columns in training,
    and a restacked table that puts the columns of the new rows in front
    of them. *)
Theorem single_layer_names_reproduced_at_inference :
  forall (V : Type) {missing : Missing V} (LinearRegression : estimator V) (env : option globals)
         (estimator_list : list item) (meta_model : option item) (fold round restack : Py.value)
         (finalize : bool) (verbose : Py.value) (h : heap V) (c : list item) (h' : heap V)
         (Xtest : DataFrame V) (flag meta : item) (df dfr : DataFrame V) (h'' : heap V),
    stack_models LinearRegression env estimator_list meta_model fold round restack
      finalize verbose h = (Ok c, h') ->
    single_layer_tables (AList c) Xtest h' = (Ok (flag, meta, df, dfr), h'') ->
    exists ls m b,
      estimator_list = map Est ls /\ c = map Est ls ++ [Est m; Flag b]
      /\ meta = Est m /\ flag = Flag b
      /\ columns df = map Name (model_names_fixed (model_names_of h' ls))
      /\ columns dfr = columns Xtest ++ columns df.
Proof.
  intros V missing LinearRegression env estimator_list meta_model fold round restack finalize verbose
    h c h' Xtest flag meta df dfr h'' Hs Ht.
  apply stack_models_shape in Hs as (ls & m & b & -> & _ & _ & ->).
  apply single_layer_tables_inv in Ht as (stacker & Hc & _ & Hcols & ->).
  inversion Hc as [Hc']. apply app_two_inv in Hc' as (<- & <- & <-).
  exists ls, m, b. repeat split.
  - rewrite Hcols. rewrite model_names_infer_of_container. reflexivity.
  - apply columns_concat.
Qed.

Lemma single_layer_names_reproduced_at_inference_witness :
  exists ls m b,
    [Est 0; Est 2] = map Est ls /\ [Est 0; Est 2; Est 3; Flag true] = map Est ls ++ [Est m; Flag b]
    /\ Est 3 = Est m /\ Flag true = Flag b
    /\ columns {| nrows := 4;
                  cols := [(Name "Ridge_0", [2; 2; 2; 2]%Z);
                           (Name "CatBoostRegressor_1", [2; 2; 2; 2]%Z)] |}
       = map Name (model_names_fixed
                     (model_names_of (snd (stack_models Demo.linreg (Some Demo.g)
                                             [Est 0; Est 2] (Some (Est 3)) (Py.Int 2) (Py.Int 4)
                                             (Py.Bool true) false (Py.Bool true) Demo.h0)) ls))
    /\ columns (concat Demo.rows4
                  {| nrows := 4;
                     cols := [(Name "Ridge_0", [2; 2; 2; 2]%Z);
                              (Name "CatBoostRegressor_1", [2; 2; 2; 2]%Z)] |})
       = columns Demo.rows4
         ++ columns {| nrows := 4;
                       cols := [(Name "Ridge_0", [2; 2; 2; 2]%Z);
                                (Name "CatBoostRegressor_1", [2; 2; 2; 2]%Z)] |}.
Proof.
  apply (single_layer_names_reproduced_at_inference Z Demo.linreg (Some Demo.g)
           [Est 0; Est 2] (Some (Est 3)) (Py.Int 2) (Py.Int 4) (Py.Bool true) false
           (Py.Bool true) Demo.h0 [Est 0; Est 2; Est 3; Flag true]
           (snd (stack_models Demo.linreg (Some Demo.g) [Est 0; Est 2] (Some (Est 3)) (Py.Int 2)
                   (Py.Int 4) (Py.Bool true) false (Py.Bool true) Demo.h0))
           Demo.rows4 (Flag true) (Est 3) _ _
           (snd (stack_models Demo.linreg (Some Demo.g) [Est 0; Est 2] (Some (Est 3)) (Py.Int 2)
                   (Py.Int 4) (Py.Bool true) false (Py.Bool true) Demo.h0))).
  - vm_compute. reflexivity.
  - vm_compute. reflexivity.
Defined.

From Stdlib Require DecimalNat.

Section DistinctNames.

Lemma digits_no_underscore d : after_last_underscore (NilEmpty.string_of_uint d) = None.
Proof. induction d; simpl; try rewrite IHd; reflexivity. Qed.

Lemma str_nat_no_underscore n : after_last_underscore (Py.str_nat n) = None.
Proof. apply digits_no_underscore. Qed.

Lemma str_nat_inj a b : Py.str_nat a = Py.str_nat b -> a = b.
Proof.
  unfold Py.str_nat. intros H.
  assert (E : Some (Nat.to_uint a) = Some (Nat.to_uint b)).
  { rewrite <- !NilEmpty.usu. rewrite H. reflexivity. }
  inversion E as [E'].
  rewrite <- (DecimalNat.Unsigned.of_to a), <- (DecimalNat.Unsigned.of_to b), E'. reflexivity.
Qed.

Lemma after_last_underscore_app a d :
  after_last_underscore d = None ->
  after_last_underscore (a ++ String "_" d) = Some d.
Proof.
  intros Hd. induction a as [| c a IH]; simpl.
  - rewrite Hd. reflexivity.
  - rewrite IH. reflexivity.
Qed.

Lemma string_app_assoc (a b c : string) : ((a ++ b) ++ c = a ++ (b ++ c))%string.
Proof. induction a as [| x a IH]; simpl; [ | rewrite IH]; reflexivity. Qed.

(** A name built as [<text>_<counter>], with any text in between. *)
Lemma counter_of_name (mid : string) i1 i2 c1 c2 :
  (i1 ++ "_" ++ mid ++ Py.str_nat c1 = i2 ++ "_" ++ mid ++ Py.str_nat c2)%string ->
  (mid = "" \/ exists m, mid = m ++ "_")%string ->
  c1 = c2.
Proof.
  intros H Hmid. apply str_nat_inj.
  assert (E : forall i c,
             after_last_underscore (i ++ "_" ++ mid ++ Py.str_nat c)%string
             = Some (Py.str_nat c)).
  { intros i c. destruct Hmid as [-> | [m ->]].
    - simpl. apply after_last_underscore_app, str_nat_no_underscore.
    - replace (i ++ "_" ++ (m ++ "_") ++ Py.str_nat c)%string
        with ((i ++ "_" ++ m) ++ String "_" (Py.str_nat c))%string.
      + apply after_last_underscore_app, str_nat_no_underscore.
      + rewrite !string_app_assoc. reflexivity. }
  pose proof (E i1 c1) as E1. rewrite H, E in E1. inversion E1. reflexivity.
Qed.

Lemma enumerate_from_counter {A} (j : nat) (xs : list A) c i :
  In (c, i) (enumerate_from j xs) -> j <= c.
Proof.
  revert j. induction xs as [| x xs IH]; intros j Hin; simpl in Hin; [destruct Hin | ].
  destruct Hin as [E | Hin]; [inversion E; lia | ].
  apply IH in Hin. lia.
Qed.

Lemma numbered_distinct (mid : string) (k : nat) (xs : list string) :
  (mid = "" \/ exists m, mid = m ++ "_")%string ->
  NoDup (map (fun '(counter, i) => (i ++ "_" ++ mid ++ Py.str_nat counter)%string)
             (enumerate_from k xs)).
Proof.
  intros Hmid. revert k. induction xs as [| x xs IH]; intros k; simpl.
  - constructor.
  - constructor; [ | apply IH].
    intros Hin. apply in_map_iff in Hin as ([c i] & Heq & Hin).
    apply counter_of_name in Heq; [ | exact Hmid]. subst c.
    apply enumerate_from_counter in Hin. lia.
Qed.

Lemma NoDup_names xs : NoDup xs -> NoDup (map Name xs).
Proof.
  induction 1 as [| x xs Hx _ IH]; simpl; constructor; [ | exact IH].
  intros Hin. apply in_map_iff in Hin as (y & E & Hy). inversion E. subst y. contradiction.
Qed.

End DistinctNames.

(** The names given to the engineered columns of one level are pairwise
    distinct, whatever the estimators, twice the same one included: every
    name ends in the position of its estimator.  This holds for the base
    columns of [stack_models] and of [create_stacknet], in training and as
    rebuilt at inference, and for the columns of an intermediate level. *)
Theorem engineered_names_distinct :
  forall (V : Type) (names : list string) (h : heap V) (inter_counter : nat) (level : list nat),
    NoDup (model_names_fixed names)
    /\ NoDup (model_names_infer names)
    /\ NoDup (base_level_fixed_2 names)
    /\ NoDup (base_level_fixed_infer names)
    /\ NoDup (inter_names h inter_counter 0 level).
Proof.
  intros V names h inter_counter level.
  split; [ | split; [ | split; [ | split]]].
  - unfold model_names_fixed, enumerate.
    apply (numbered_distinct "" 0 (catboost_fixed names)). left. reflexivity.
  - unfold model_names_infer, enumerate.
    apply (numbered_distinct "" 0 (catboost_fixed names)). left. reflexivity.
  - unfold base_level_fixed_2, enumerate.
    apply (numbered_distinct "BaseLevel_" 0 names). right. exists "BaseLevel". reflexivity.
  - unfold base_level_fixed_infer, enumerate.
    apply (numbered_distinct "BaseLevel_" 0 (catboost_fixed names)).
    right. exists "BaseLevel". reflexivity.
  - unfold inter_names.
    pose (col := fun l => let c := Py.before_paren (obj_str (objs h l)) in
                          if Py.contains "CatBoostRegressor" c then "CatBoostRegressor" else c).
    pose (mid := ("InterLevel_" ++ Py.str_nat inter_counter ++ "_")%string).
    assert (E : forall k ls,
               map (fun '(j, l) => Name (inter_col (objs h l) inter_counter j))
                   (enumerate_from k ls)
               = map Name
                   (map (fun '(counter, i) => (i ++ "_" ++ mid ++ Py.str_nat counter)%string)
                        (enumerate_from k (map col ls)))).
    { intros k ls. revert k. induction ls as [| l ls IH]; intros k; simpl; [reflexivity | ].
      rewrite IH. f_equal. f_equal. unfold inter_col, col, mid. simpl.
      rewrite !string_app_assoc. reflexivity. }
    rewrite E. apply NoDup_names.
    apply numbered_distinct. right. exists ("InterLevel_" ++ Py.str_nat inter_counter)%string.
    reflexivity.
Qed.

Section Restacked.

Context {V : Type} {missing : Missing V}.
Local Abbreviation same_objs := (@same_objs V).
Local Abbreviation inter_names := (@inter_names V).
Variable LinearRegression : estimator V.
Variable env : option (globals (V:=V)).
Local Open Scope py_scope.

Lemma inter_names_all_same_objs (h h' : heap V) ic levels :
  same_objs h h' -> inter_names_all h' ic levels = inter_names_all h ic levels.
Proof.
  intros S. revert ic. induction levels as [| level rest IH]; intros ic; simpl; [reflexivity | ].
  rewrite IH, (inter_names_same_objs _ _ _ _ _ S). reflexivity.
Qed.

Lemma inter_levels_loop_restack levels (data_y : Series V) fold names ic models_ df
    h models' df' h' :
  inter_levels_loop levels true data_y fold names ic models_ df h = (Ok (models', df'), h') ->
  same_objs h h' /\ columns df' = columns df ++ inter_names_all h' ic levels.
Proof.
  revert ic models_ df h.
  induction levels as [| level rest IH]; intros ic models_ df h H; simpl in H.
  - apply ret_ok in H as [E <-]. inversion E; subst.
    split; [apply same_objs_refl | ]. simpl. rewrite app_nil_r. reflexivity.
  - inv_ok H as r h1 E1. destruct r as [inner idf].
    apply inter_models_loop_columns in E1 as [S1 C1].
    apply IH in H as [S2 C2].
    split; [eapply same_objs_trans; eassumption | ].
    rewrite C2, columns_concat, C1. simpl.
    rewrite (inter_names_same_objs _ _ _ _ _ S2). rewrite <- app_assoc. reflexivity.
Qed.

End Restacked.

(** In [create_stacknet] with [restack = True] nothing is dropped: the
    table handed to the meta estimator has, in order, the raw features,
    the base columns, and the out-of-fold columns of every intermediate
    level, level after level. *)
Theorem create_stacknet_restack_accumulates :
  forall (V : Type) {missing : Missing V} (LinearRegression : estimator V) (env : option globals)
         (base : list nat) (inter : list (list nat))
         (meta_model : option item) (fold round : Py.value) (finalize : bool)
         (verbose : Py.value) (h : heap V)
         (models_ : list item) (m : nat) (table : DataFrame V) (y : Series V) (k : Z)
         (b : bool) (h' : heap V),
    create_stacknet_features LinearRegression env (map Level (base :: inter))
      meta_model fold round (Py.Bool true) finalize verbose h
      = (Ok (models_, m, table, y, k, b), h') ->
    exists g,
      env = Some g
      /\ let stale_i := Py.str_list (map (fun l => obj_str (objs h l)) (last (base :: inter) [])) in
         columns table
         = columns (chosen_X g finalize)
           ++ map Name (base_level_fixed_2
                          (base_level_fixed_train stale_i (base_level_names_of h base)))
           ++ inter_names_all h' 0 inter.
Proof.
  intros V missing LinearRegression env base inter meta_model fold round finalize verbose h
         models_ m table y k b h' H.
  unfold create_stacknet_features in H.
  inv_ok H as levels h1 E0. apply check_levels_ok in E0 as [E0 ->].
  apply (f_equal (map (fun i => match i with Level ls => ls | _ => [] end))) in E0.
  rewrite !map_map in E0. rewrite !map_id in E0. subst levels.
  inv_ok H as u1 h1 E0.
  assert (h1 = h) as ->.
  { destruct meta_model; [eapply pure_check_item; eassumption | inversion E0; reflexivity]. }
  clear E0.
  inv_ok H as k0 h2 E0. apply check_int_ok in E0 as [_ ->].
  inv_ok H as rd h3 E0. apply check_int_ok in E0 as [_ ->].
  inv_ok H as b0 h4 E0. apply check_bool_ok in E0 as [E0 ->]. inversion E0; subst b0. clear E0.
  inv_ok H as vb h5 E0. apply check_bool_ok in E0 as [_ ->].
  inv_ok H as pg h5 E0. apply IntProgress_ok in E0 as [_ ->].
  inv_ok H as base_level h6 E0. apply ret_ok in E0 as [<- <-].
  inv_ok H as hh h7 Eh. inversion Eh; subst hh h7. clear Eh.
  inv_ok H as data_X0 h8 EX.
  assert (exists g, env = Some g /\ data_X0 = chosen_X g finalize) as (g & Hg & ->).
  { destruct finalize; apply (global_ok env) in EX as (g & Hg & -> & _); exists g; split;
      solve [exact Hg | reflexivity]. }
  inv_ok H as data_y0 h9 Ey.
  inv_ok H as a4 h10 E0.
  inv_ok H as r h11 Eloop. destruct r as [base_models_ base_array_df].
  inv_ok H as df1 h12 Es. apply lift_ok in Es as [Es ->].
  apply set_columns_columns in Es.
  inv_ok H as r h13 Ei. destruct r as [models' df2].
  apply ret_ok in H as [H <-]. inversion H; subst. clear H.
  simpl in Ei. apply inter_levels_loop_restack in Ei as [_ Ci].
  exists g. split; [reflexivity | ]. simpl.
  rewrite Ci, columns_concat, Es. rewrite <- app_assoc. reflexivity.
Qed.

Lemma create_stacknet_restack_accumulates_witness :
  exists g,
    Some Demo.g = Some g
    /\ let stale_i :=
         Py.str_list (map (fun l => obj_str (objs Demo.h0 l)) (last ([0; 2] :: [[3]]) [])) in
       columns {| nrows := 4;
                  cols := [(Name "age", [1; 2; 3; 4]%Z); (Name "bmi", [5; 6; 7; 8]%Z);
                           (Name "CatBoostRegressor_BaseLevel_0", [2; 2; 2; 2]%Z);
                           (Name "<catboost.core.CatBoostRegressor object at 0x7f3a5c0b1d90>_BaseLevel_1",
                            [2; 2; 2; 2]%Z);
                           (Name "KNeighborsRegressor_InterLevel_0_0", [4; 4; 4; 4]%Z)] |}
       = columns (chosen_X g false)
         ++ map Name (base_level_fixed_2
                        (base_level_fixed_train stale_i (base_level_names_of Demo.h0 [0; 2])))
         ++ inter_names_all
              (snd (create_stacknet_features Demo.linreg (Some Demo.g)
                      (map Level ([0; 2] :: [[3]])) None (Py.Int 2) (Py.Int 4) (Py.Bool true)
                      false (Py.Bool true) Demo.h0)) 0 [[3]].
Proof.
  apply (create_stacknet_restack_accumulates Z Demo.linreg (Some Demo.g) [0; 2] [[3]] None
           (Py.Int 2) (Py.Int 4) false (Py.Bool true) Demo.h0
           [Level [0; 2]; Level [3]] 8 _ Demo.target4 2%Z true).
  vm_compute. reflexivity.
Defined.
